(** * WeatherApp-Flask: the data-normalisation and risk-scoring pipeline

    A shallow embedding of [app.py]: the missing-value normaliser [mv], the
    unit conversions, the response shaper [format_weather_response], the
    hourly flattener [_flatten_hourly_series], the hourly builder
    [get_power_hourly], the classifier [get_weather_condition] and the event
    scorer [get_event_advice].

    Conventions of the embedding.
    - A Python number (int or float) is the rational it denotes, and
      arithmetic is exact: [-999] and [-999.0] are the same number, as they
      are for Python's [==] and [hash]. NaN, the infinities and JSON
      booleans are left out.
    - A Python dict is an association list in insertion order with pairwise
      distinct keys; JSON object keys are strings.
    - An exception is a value of [exn] carried by the [result] monad; a
      [try/except Exception] is a match on it.
    - A function that sends a request takes the decoded answer as an
      argument instead; the coordinates only travel in the request.
    - [str.lower] is modelled on ASCII text (the unit names and event labels
      the front end sends). *)

From Stdlib Require Import ZArith QArith Qround Qabs String Ascii List Bool.
From Stdlib Require Import Lia Lqa DecimalString Sorted.
From Stdlib Require OrderedTypeEx.
Import ListNotations.

Open Scope string_scope.
Open Scope list_scope.

Set Implicit Arguments.
Set Warnings "-register-all".

(** ** Exceptions *)

Inductive exn : Type :=
| TypeError
| RequestError.

Inductive result (A : Type) : Type :=
| Ok (a : A)
| Raise (e : exn).

Arguments Ok {A} a.
Arguments Raise {A} e.

Definition bind {A B : Type} (m : result A) (k : A -> result B) : result B :=
  match m with
  | Ok a => k a
  | Raise e => Raise e
  end.

Notation "x <- m ;; k" := (bind m (fun x => k))
  (at level 61, m at next level, right associativity).

Fixpoint mapM {A B : Type} (f : A -> result B) (l : list A) : result (list B) :=
  match l with
  | [] => Ok []
  | a :: l' => b <- f a ;; bs <- mapM f l' ;; Ok (b :: bs)
  end.

(** ** Python's [round] on exact numbers *)

(** [round(x)]: the nearest integer, a tie going to the even neighbour. *)
Definition py_round (x : Q) : Z :=
  let f := Qfloor x in
  match Qcompare (x - inject_Z f) (1 # 2) with
  | Lt => f
  | Gt => (f + 1)%Z
  | Eq => if Z.even f then f else (f + 1)%Z
  end.

(** [round(x, 1)] and [round(x, 2)]. *)
Definition py_round1 (x : Q) : Q := inject_Z (py_round (x * 10)) / 10.
Definition py_round2 (x : Q) : Q := inject_Z (py_round (x * 100)) / 100.

(** [max(a, b)] and [min(a, b)] on numbers: the first argument wins a tie. *)
Definition py_max (a b : Q) : Q := if Qlt_le_dec a b then b else a.
Definition py_min (a b : Q) : Q := if Qlt_le_dec b a then b else a.

(** ** Series points and the missing-value normaliser *)

(** What a provider series holds at one time key: [None] (JSON null, or the
    result of [dict.get] on an absent key), a number, or some other hashable
    scalar (a string). *)
Inductive scalar : Type :=
| SNone
| SNum (q : Q)
| SStr (s : string).

(** [v in MISSING] with [MISSING = {-999, -9999, -99, None}]. *)
Definition in_MISSING (v : scalar) : bool :=
  match v with
  | SNone => true
  | SNum q => Qeq_bool q (-999) || Qeq_bool q (-9999) || Qeq_bool q (-99)
  | SStr _ => false
  end.

Definition mv (v default : scalar) : scalar :=
  if in_MISSING v then default else v.

(** [mv(v)]: the default of the keyword argument is [0]. *)
Definition mv0 (v : scalar) : scalar := mv v (SNum 0).

(** The sentinels as the specification lists them. *)
Definition sentinel (v : scalar) : Prop :=
  v = SNone \/
  exists q, v = SNum q /\ (q == -999 \/ q == -9999 \/ q == -99)%Q.

(** ** Unit conversion *)

(** [convert_temp(temp_f, to_celsius)]; [None] is Python's [None]. *)
Definition convert_temp (temp_f : option Q) (to_celsius : bool) : option Q :=
  match temp_f with
  | None => None
  | Some t =>
      if to_celsius then Some (py_round1 ((t - 32) * 5 / 9))
      else Some (py_round1 t)
  end.

(** [round((temp_c * 9/5) + 32)], the display temperature of the builders. *)
Definition display_temp_f (temp_c : Q) : Z := py_round (temp_c * 9 / 5 + 32).

(** ** Strings *)

(** [str.lower] on ASCII text. *)
Definition lower_ascii (c : ascii) : ascii :=
  let n := nat_of_ascii c in
  if ((65 <=? n) && (n <=? 90))%nat then ascii_of_nat (n + 32) else c.

Fixpoint lower (s : string) : string :=
  match s with
  | EmptyString => EmptyString
  | String c s' => String (lower_ascii c) (lower s')
  end.

(** The format [{i:02d}]: decimal, padded with a zero to two digits. *)
Definition fmt_02d (i : nat) : string :=
  let s := NilEmpty.string_of_uint (Nat.to_uint i) in
  if (i <? 10)%nat then "0" ++ s else s.

(** [x in [...]] on strings. *)
Definition str_in (x : string) (l : list string) : bool :=
  existsb (String.eqb x) l.

(** ** Dictionaries *)

Definition dict (V : Type) : Type := list (string * V).

Definition keys {V : Type} (d : dict V) : list string := map fst d.

Fixpoint dict_get {V : Type} (k : string) (d : dict V) : option V :=
  match d with
  | [] => None
  | (k', v) :: d' => if String.eqb k' k then Some v else dict_get k d'
  end.

(** [d[k] = v]: an existing key keeps its place, a new one goes last. *)
Fixpoint dict_set {V : Type} (k : string) (v : V) (d : dict V) : dict V :=
  match d with
  | [] => [(k, v)]
  | (k', v') :: d' =>
      if String.eqb k' k then (k', v) :: d' else (k', v') :: dict_set k v d'
  end.

(** [enumerate(l)]. *)
Definition enumerate {A : Type} (l : list A) : list (nat * A) :=
  combine (seq 0 (length l)) l.

(** ** The hourly flattener *)

(** The value of a provider series at a key: a scalar, or a list (the
    hourly values of one day). *)
Inductive value : Type :=
| Scalar (s : scalar)
| Seq (l : list value).

Definition isinstance_list (v : value) : bool :=
  match v with
  | Seq _ => true
  | Scalar _ => false
  end.

(** The inner loop [for i, v in enumerate(vals): out[f"{day_key}{i:02d}"] = v]. *)
Definition expand_day (day_key : string) (vals : list value)
    (out : dict value) : dict value :=
  fold_left (fun out iv => dict_set (day_key ++ fmt_02d (fst iv)) (snd iv) out)
            (enumerate vals) out.

(** The body of the loop [for day_key, vals in series_dict.items()]. *)
Definition flatten_day (out : dict value) (kv : string * value) : dict value :=
  match snd kv with
  | Seq vals => expand_day (fst kv) vals out
  | Scalar _ => out
  end.

Definition _flatten_hourly_series (series_dict : dict value) : dict value :=
  match series_dict with
  | [] => []
  | (_, sample) :: _ =>
      if isinstance_list sample then fold_left flatten_day series_dict []
      else series_dict
  end.

(** ** The condition classifier *)

Definition Qge_bool (a b : Q) : bool := Qle_bool b a.
Definition Qgt_bool (a b : Q) : bool := negb (Qle_bool a b).
Definition Qlt_bool (a b : Q) : bool := negb (Qle_bool b a).

Definition get_weather_condition (temp_c humidity precip_amount : Q)
    (is_hourly : bool) : string * string :=
  let by_precip :=
    if is_hourly then
      if Qge_bool precip_amount 2 then Some ("Rainy", "🌧️")
      else if Qge_bool precip_amount 0.2 then Some ("Light Rain", "🌦️")
      else None
    else
      if Qge_bool precip_amount 10 then Some ("Rainy", "🌧️")
      else if Qge_bool precip_amount 1 then Some ("Light Rain", "🌦️")
      else None in
  match by_precip with
  | Some r => r
  | None =>
      if Qgt_bool humidity 80 then ("Cloudy", "☁️")
      else if Qgt_bool humidity 60 then ("Partly Cloudy", "⛅")
      else ("Clear", "☀️")
  end.

(** ** The hourly builder *)

(** A record of the list [get_power_hourly] returns. *)
Module Row.
Record t : Type := mk {
  time : string;
  temp : Z;
  icon : string;
  precipitation : Q;
  humidity : Q;
  wind : Z;
  feelsLike : Z;
  description : string;
  pressure : option Q;
  uvIndex : Z;
  dewPoint : Z
}.

(** [row['time'] = label]. *)
Definition set_time (label : string) (r : t) : t :=
  mk label (temp r) (icon r) (precipitation r) (humidity r) (wind r)
     (feelsLike r) (description r) (pressure r) (uvIndex r) (dewPoint r).
End Row.

(** The decoded answer of the hourly endpoint: [data['properties']['parameter']]
    when both keys are there. *)
Inductive power_response : Type :=
| NoParameters
| PowerData (p : dict (dict value)).

(** [sorted(set(a) | set(b))] on strings. *)
Fixpoint insert_key (k : string) (l : list string) : list string :=
  match l with
  | [] => [k]
  | k' :: l' =>
      match String.compare k k' with
      | Lt => k :: l
      | Eq => l
      | Gt => k' :: insert_key k l'
      end
  end.

Definition sorted_union (a b : list string) : list string :=
  fold_right insert_key [] (a ++ b).

(** [l[start:]]: a negative start counts from the end, and both ends clamp. *)
Definition slice_from {A : Type} (start : Z) (l : list A) : list A :=
  let n := Z.of_nat (length l) in
  let s := if (start <? 0)%Z then Z.max 0 (start + n) else Z.min start n in
  skipn (Z.to_nat s) l.

(** [if rows: rows[-1]['time'] = 'Now']. *)
Fixpoint relabel_last (rows : list Row.t) : list Row.t :=
  match rows with
  | [] => []
  | [r] => [Row.set_time "Now" r]
  | r :: rest => r :: relabel_last rest
  end.

(** [series.get(key)] handed to [mv] or to [in MISSING]: a list there is
    unhashable and raises [TypeError]. *)
Definition get_point (series : dict value) (key : string) : result scalar :=
  match dict_get key series with
  | None => Ok SNone
  | Some (Scalar s) => Ok s
  | Some (Seq _) => Raise TypeError
  end.

(** A scalar used in arithmetic, [max], [min] or [round]. *)
Definition as_num (s : scalar) : result Q :=
  match s with
  | SNum q => Ok q
  | SNone | SStr _ => Raise TypeError
  end.

Section Builder.

(** The label of a time key (lines 141-145): [strptime] with [%Y%m%d%H] and
    [strftime] with [%I %p], or the last two characters of the key. *)
Variable hour_label : string -> string.

Definition series_of (p : dict (dict value)) (k : string) : dict value :=
  _flatten_hourly_series
    (match dict_get k p with Some s => s | None => [] end).

(** The body of the loop over [all_keys]; [None] is [continue]. *)
Definition build_row (p : dict (dict value)) (key : string)
    : result (option Row.t) :=
  t2m <- get_point (series_of p "T2M") key ;;
  if in_MISSING t2m then Ok None else
  let label := hour_label key in
  temp_c <- as_num (mv t2m (SNum 20)) ;;
  rh_v <- get_point (series_of p "RH2M") key ;;
  rh_n <- as_num (mv rh_v (SNum 60)) ;;
  let rh := py_max 0 (py_min 100 rh_n) in
  ws_v <- get_point (series_of p "WS2M") key ;;
  ws_n <- as_num (mv ws_v (SNum 0)) ;;
  let ws_ms := py_max 0 ws_n in
  ps_kpa <- get_point (series_of p "PS") key ;;
  pr_v <- get_point (series_of p "PRECTOTCORR") key ;;
  pr_n <- as_num (mv pr_v (SNum 0)) ;;
  let precip_mmhr := py_max 0 pr_n in
  uv_v <- get_point (series_of p "ALLSKY_SFC_UV_INDEX") key ;;
  uv_n <- as_num (mv uv_v (SNum 0)) ;;
  let uvi := py_max 0 uv_n in
  dew_v <- get_point (series_of p "T2MDEW") key ;;
  dew_c <- as_num (mv dew_v (SNum (temp_c - 2))) ;;
  let temp_f := display_temp_f temp_c in
  let dew_f := display_temp_f dew_c in
  let wind_mph := py_round (ws_ms * 2.237) in
  ps_inhg <- (if negb (in_MISSING ps_kpa)
              then x <- as_num (mv ps_kpa (SNum 0)) ;;
                   Ok (Some (py_round2 (x * 0.2953)))
              else Ok None) ;;
  let ci := get_weather_condition temp_c rh precip_mmhr true in
  Ok (Some (Row.mk label temp_f (snd ci) (py_round2 precip_mmhr) rh wind_mph
                   temp_f (fst ci) ps_inhg (py_round uvi) dew_f)).

Fixpoint build_rows (p : dict (dict value)) (all_keys : list string)
    : result (list Row.t) :=
  match all_keys with
  | [] => Ok []
  | key :: rest =>
      r <- build_row p key ;;
      rows <- build_rows p rest ;;
      Ok (match r with Some row => row :: rows | None => rows end)
  end.

Definition get_power_hourly (data : power_response) (hours : Z)
    : result (list Row.t) :=
  match data with
  | NoParameters => Ok []
  | PowerData p =>
      let all_keys :=
        sorted_union (keys (series_of p "T2M"))
                     (keys (series_of p "PRECTOTCORR")) in
      rows <- build_rows p all_keys ;;
      let rows := slice_from (- hours) rows in
      Ok (relabel_last rows)
  end.

End Builder.

(** ** The response shaper *)

(** A JSON object of a response ([current], an hourly or a forecast entry). *)
Definition obj : Type := dict scalar.

(** [if k in o and o[k] is not None: o[k] = convert_temp(o[k], is_celsius)]. *)
Definition convert_key (is_celsius : bool) (o : obj) (k : string) : result obj :=
  match dict_get k o with
  | None | Some SNone => Ok o
  | Some (SNum t) =>
      match convert_temp (Some t) is_celsius with
      | Some t' => Ok (dict_set k (SNum t') o)
      | None => Ok (dict_set k SNone o)
      end
  | Some (SStr _) => Raise TypeError
  end.

Fixpoint convert_keys (is_celsius : bool) (ks : list string) (o : obj)
    : result obj :=
  match ks with
  | [] => Ok o
  | k :: ks' => o' <- convert_key is_celsius o k ;; convert_keys is_celsius ks' o'
  end.

(** The response [data]: the substructures the shaper walks, the [unit]
    entry it writes, and everything else. *)
Module Response.
Record t : Type := mk {
  current : option obj;
  hourly : option (list obj);
  forecast : option (list obj);
  unit : option string;
  others : dict scalar
}.
End Response.

Definition on_opt {A : Type} (f : A -> result A) (o : option A)
    : result (option A) :=
  match o with
  | None => Ok None
  | Some a => a' <- f a ;; Ok (Some a')
  end.

Definition format_weather_response (data : Response.t) (unit : string)
    : result Response.t :=
  let is_celsius := String.eqb (lower unit) "celsius" in
  c <- on_opt (convert_keys is_celsius
                 ["temp"; "feelsLike"; "dewPoint"; "high"; "low"])
              (Response.current data) ;;
  h <- on_opt (mapM (convert_keys is_celsius ["temp"; "feelsLike"; "dewPoint"]))
              (Response.hourly data) ;;
  f <- on_opt (mapM (convert_keys is_celsius ["high"; "low"]))
              (Response.forecast data) ;;
  Ok (Response.mk c h f (Some (if is_celsius then "°C" else "°F"))
                  (Response.others data)).

(** ** The event scorer *)

(** The [hourly] object of the forecast answer; an absent array is the
    empty list ([hourly.get(name, [])]) and a JSON null is [None]. *)
Module OpenMeteo.
Record hourly : Type := mk {
  time : list string;
  temperature_2m : list (option Q);
  precipitation : list (option Q);
  precipitation_probability : list (option Q);
  windspeed_10m : list (option Q);
  cloudcover : list (option Q);
  uv_index : list (option Q)
}.
End OpenMeteo.

(** An entry of [window]. *)
Module Entry.
Record t : Type := mk {
  time : string;
  temp_c : option Q;
  precip_mm : option Q;
  pop : option Q;
  wind_mph : Q;
  cloud : option Q;
  uv : option Q
}.
End Entry.

Inductive risk : Type := low | moderate | high.

Definition risk_eqb (a b : risk) : bool :=
  match a, b with
  | low, low | moderate, moderate | high, high => true
  | _, _ => false
  end.

(** [start_local_iso <= t <= end_local_iso], on strings. *)
Definition in_window (start_local_iso end_local_iso t : string) : bool :=
  String.leb start_local_iso t && String.leb t end_local_iso.

(** A number where arithmetic or a comparison needs one. *)
Definition need_num (x : option Q) : result Q :=
  match x with
  | Some q => Ok q
  | None => Raise TypeError
  end.

(** The dictionary literal [entry] for the sample [i] at time [t]. *)
Definition entry_at (h : OpenMeteo.hourly) (it : nat * string)
    : result Entry.t :=
  let i := fst it in
  w <- need_num (nth i (OpenMeteo.windspeed_10m h) (Some 0)) ;;
  Ok (Entry.mk (snd it)
        (nth i (OpenMeteo.temperature_2m h) None)
        (nth i (OpenMeteo.precipitation h) (Some 0))
        (nth i (OpenMeteo.precipitation_probability h) None)
        (py_round1 (w * 0.621371))
        (nth i (OpenMeteo.cloudcover h) None)
        (nth i (OpenMeteo.uv_index h) None)).

Definition build_window (h : OpenMeteo.hourly)
    (start_local_iso end_local_iso : string) : result (list Entry.t) :=
  mapM (entry_at h)
       (filter (fun it => in_window start_local_iso end_local_iso (snd it))
               (enumerate (OpenMeteo.time h))).

(** [[x for x in l if x is not None]]. *)
Fixpoint not_none (l : list (option Q)) : list Q :=
  match l with
  | [] => []
  | Some q :: l' => q :: not_none l'
  | None :: l' => not_none l'
  end.

(** [max(l)] on a list of numbers: the first of the largest; [None] stands
    for the [default] of an empty list. *)
Definition max_list (l : list Q) : option Q :=
  match l with
  | [] => None
  | x :: l' => Some (fold_left py_max l' x)
  end.

Definition sum_list (l : list Q) : Q := fold_left Qplus l 0.

(** [max_precip]: [max] over every [precip_mm]; a [None] among them raises
    [TypeError], in [max] itself or where the result is compared or rounded. *)
Definition max_precip_of (window : list Entry.t) : result Q :=
  ps <- mapM need_num (map Entry.precip_mm window) ;;
  match max_list ps with
  | Some m => Ok m
  | None => Ok 0
  end.

Definition max_wind_of (window : list Entry.t) : Q :=
  match max_list (map Entry.wind_mph window) with
  | Some m => m
  | None => 0
  end.

Definition max_pop_of (window : list Entry.t) : option Q :=
  max_list (not_none (map Entry.pop window)).

Definition avg_temp_c_of (window : list Entry.t) : option Q :=
  let temps := not_none (map Entry.temp_c window) in
  match temps with
  | [] => None
  | _ => Some (sum_list temps / inject_Z (Z.of_nat (length temps)))
  end.

Definition max_uvi_of (window : list Entry.t) : Q :=
  match max_list (not_none (map Entry.uv window)) with
  | Some m => m
  | None => 0
  end.

Definition precip_risk_of (max_pop : option Q) (max_precip : Q) : risk :=
  if (match max_pop with Some p => Qge_bool p 60 | None => false end)
     || Qge_bool max_precip 2
  then high
  else if (match max_pop with
           | Some p => Qle_bool 30 p && Qlt_bool p 60
           | None => false
           end)
          || (Qle_bool 0.2 max_precip && Qlt_bool max_precip 2)
  then moderate
  else low.

Definition wind_risk_of (max_wind : Q) : risk :=
  if Qge_bool max_wind 30 then high
  else if Qge_bool max_wind 15 then moderate
  else low.

(** [(comfort_min_c, comfort_max_c)]. *)
Definition comfort_range (event_type : string) : Q * Q :=
  if str_in (lower event_type)
       ["wedding"; "outdoor gathering"; "concert"; "festival"; "parade";
        "picnic"]
  then (12, 30)
  else if str_in (lower event_type) ["sports event"; "hiking trip"]
  then (8, 32)
  else (10, 30).

Definition temp_risk_of (avg_temp_c : option Q) (event_type : string) : risk :=
  let comfort_min_c := fst (comfort_range event_type) in
  let comfort_max_c := snd (comfort_range event_type) in
  match avg_temp_c with
  | None => low
  | Some a =>
      if Qlt_bool a (comfort_min_c - 2) || Qgt_bool a (comfort_max_c + 2)
      then high
      else if Qlt_bool a comfort_min_c || Qgt_bool a comfort_max_c
      then moderate
      else low
  end.

Definition uv_risk_of (max_uvi : Q) : risk :=
  if Qlt_bool max_uvi 6 then low
  else if Qlt_bool max_uvi 8 then moderate
  else high.

Definition favorable_of (precip_risk wind_risk temp_risk : risk) : bool :=
  risk_eqb precip_risk low && risk_eqb wind_risk low
  && negb (risk_eqb temp_risk high).

Definition suggestions_of (precip_risk wind_risk temp_risk uv_risk : risk)
    : list string :=
  (match precip_risk with
   | high => ["High rain risk: arrange shelter/tents";
              "Consider shifting time to a drier hour"]
   | moderate => ["Showers possible: bring umbrellas/ponchos"]
   | low => []
   end)
  ++ (match wind_risk with
      | high => ["Strong winds: secure structures, avoid lightweight canopies"]
      | moderate => ["Breezy: secure signage/balloons"]
      | low => []
      end)
  ++ (if negb (risk_eqb temp_risk low)
      then ["Adjust dress code and hydration plan"] else [])
  ++ (if negb (risk_eqb uv_risk low)
      then ["Provide sunscreen and shaded areas (UV elevated)"] else []).

Definition to_unit_c (val_c : option Q) : option Q :=
  match val_c with
  | None => None
  | Some v => Some (py_round1 v)
  end.

Definition to_unit_f (val_c : option Q) : option Q :=
  match val_c with
  | None => None
  | Some v => Some (py_round1 (v * 9 / 5 + 32))
  end.

(** The answer of [get_event_advice]. *)
Module Advice.
Record risks : Type := mk_risks {
  precip : risk;
  wind : risk;
  temperature : risk;
  uv : risk
}.

Record metrics : Type := mk_metrics {
  max_precip_mm : Q;
  max_pop_percent : option Q;
  max_wind_mph : Q;
  avg_temp : option Q;
  unit : string
}.

Record out_entry : Type := mk_out {
  o_time : string;
  o_temp : option Q;
  o_precip_mm : Q;
  o_pop : option Q;
  o_wind_mph : Q;
  o_cloud : option Q;
  o_uv : option Q
}.

Record t : Type := mk {
  location : Q * Q;
  window : string * string;
  favorable : bool;
  summary : string;
  the_risks : risks;
  the_metrics : metrics;
  hourly : list out_entry;
  suggestions : list string;
  source : string
}.
End Advice.

Inductive advice_body : Type :=
| ErrorBody (error : string)
| AdviceBody (a : Advice.t).

(** [x['precip_mm'] or 0]. *)
Definition or_zero (x : option Q) : Q :=
  match x with
  | Some q => q
  | None => 0
  end.

(** Lines 375-478: what follows the test [if not window]. *)
Definition score_window (window : list Entry.t) (lat lon : Q)
    (start_local_iso end_local_iso unit event_type : string)
    : result Advice.t :=
  let max_wind := max_wind_of window in
  max_precip <- max_precip_of window ;;
  let max_pop := max_pop_of window in
  let avg_temp_c := avg_temp_c_of window in
  let precip_risk := precip_risk_of max_pop max_precip in
  let wind_risk := wind_risk_of max_wind in
  let temp_risk := temp_risk_of avg_temp_c event_type in
  let max_uvi := max_uvi_of window in
  let uv_risk := uv_risk_of max_uvi in
  let favorable := favorable_of precip_risk wind_risk temp_risk in
  let suggestions := suggestions_of precip_risk wind_risk temp_risk uv_risk in
  let is_c := String.eqb (lower unit) "celsius" in
  let window_out :=
    map (fun x =>
           Advice.mk_out (Entry.time x)
             (if is_c then to_unit_c (Entry.temp_c x)
              else to_unit_f (Entry.temp_c x))
             (py_round2 (or_zero (Entry.precip_mm x)))
             (Entry.pop x) (Entry.wind_mph x) (Entry.cloud x) (Entry.uv x))
        window in
  let summary := if favorable then "Favorable" else "Not favorable" in
  Ok (Advice.mk (lat, lon) (start_local_iso, end_local_iso) favorable summary
        (Advice.mk_risks precip_risk wind_risk temp_risk uv_risk)
        (Advice.mk_metrics (py_round2 max_precip) max_pop max_wind
           (if is_c then to_unit_c avg_temp_c else to_unit_f avg_temp_c)
           (if is_c then "°C" else "°F"))
        window_out suggestions
        "Open-Meteo (forecast) + NASA POWER (current/historical)").

(** The body of the [try]: [fetched] is the outcome of
    [requests.get(...).json()] followed by [resp.get('hourly', {})], an
    exception there being a transport or decoding failure. *)
Definition event_advice_body (fetched : result OpenMeteo.hourly) (lat lon : Q)
    (start_local_iso end_local_iso unit event_type : string)
    : result (advice_body * Z) :=
  h <- fetched ;;
  window <- build_window h start_local_iso end_local_iso ;;
  match window with
  | [] => Ok (ErrorBody "No forecast data for the selected window", 200%Z)
  | _ =>
      a <- score_window window lat lon start_local_iso end_local_iso unit
             event_type ;;
      Ok (AdviceBody a, 200%Z)
  end.

Definition get_event_advice (fetched : result OpenMeteo.hourly) (lat lon : Q)
    (start_local_iso end_local_iso unit event_type : string)
    : advice_body * Z :=
  match event_advice_body fetched lat lon start_local_iso end_local_iso unit
          event_type with
  | Ok r => r
  | Raise _ => (ErrorBody "Failed to compute event advice", 500%Z)
  end.

(** ** The specification's words *)

(** The precipitation conditions of the risk bands; an undefined [max_pop]
    meets neither. *)
Definition precip_high_cond (max_pop : option Q) (max_precip : Q) : Prop :=
  (exists p, max_pop = Some p /\ 60 <= p) \/ 2 <= max_precip.

Definition precip_moderate_cond (max_pop : option Q) (max_precip : Q) : Prop :=
  (exists p, max_pop = Some p /\ 30 <= p < 60) \/ 0.2 <= max_precip < 2.


(** The temperature band for an average [avg] and a comfort range. *)
Definition temp_band (avg lo hi : Q) (r : risk) : Prop :=
  (r = high <-> avg < lo - 2 \/ hi + 2 < avg) /\
  (r = moderate <-> lo - 2 <= avg < lo \/ hi < avg <= hi + 2) /\
  (r = low <-> lo <= avg <= hi).





(** The verdict of the specification. *)
Definition favorable_spec (a : Advice.t) : Prop :=
  Advice.precip (Advice.the_risks a) = low /\
  Advice.wind (Advice.the_risks a) = low /\
  Advice.temperature (Advice.the_risks a) <> high.

(** The forecast [h] with another array of UV indices. *)
Definition with_uv_index (uvs : list (option Q)) (h : OpenMeteo.hourly)
    : OpenMeteo.hourly :=
  OpenMeteo.mk (OpenMeteo.time h) (OpenMeteo.temperature_2m h)
    (OpenMeteo.precipitation h) (OpenMeteo.precipitation_probability h)
    (OpenMeteo.windspeed_10m h) (OpenMeteo.cloudcover h) uvs.

(** A one-sample forecast: 20 degrees, no rain, a 70 percent chance of
    rain, 8.05 km/h of wind (5.0 mph). *)
Definition wedding_forecast : OpenMeteo.hourly :=
  OpenMeteo.mk ["2025-06-14T15:00"] [Some 20] [Some 0] [Some 70]
               [Some 8.05] [Some 10] [Some 3].

Definition no_advice : Advice.t :=
  Advice.mk (0, 0) ("", "") false ""
    (Advice.mk_risks low low low low)
    (Advice.mk_metrics 0 None 0 None "") [] [] "".

Definition wedding_advice : Advice.t :=
  match get_event_advice (Ok wedding_forecast) 40.7 (-74)
          "2025-06-14T14:00" "2025-06-14T18:00" "celsius" "wedding" with
  | (AdviceBody a, _) => a
  | (ErrorBody _, _) => no_advice
  end.

(** A sample of the window is unreadable: its wind speed or its
    precipitation is null where the scorer needs a number. *)
Definition unreadable_sample (h : OpenMeteo.hourly) (s e : string) : Prop :=
  exists i t,
    nth_error (OpenMeteo.time h) i = Some t /\ in_window s e t = true /\
    (nth i (OpenMeteo.windspeed_10m h) (Some 0) = None \/
     nth i (OpenMeteo.precipitation h) (Some 0) = None).

(** Two entries that differ at most in their UV index. *)
Definition same_but_uv (x x' : Entry.t) : Prop :=
  Entry.time x = Entry.time x' /\ Entry.temp_c x = Entry.temp_c x' /\
  Entry.precip_mm x = Entry.precip_mm x' /\ Entry.pop x = Entry.pop x' /\
  Entry.wind_mph x = Entry.wind_mph x' /\ Entry.cloud x = Entry.cloud x'.

(** A two-day hourly answer in the day-keyed shape, three hours a day, with
    a missing temperature in the last hour; the label of a key is its hour. *)
Definition sample_power : power_response :=
  PowerData
    [("T2M", [("20250101", Seq [Scalar (SNum 5); Scalar (SNum 6.5);
                                Scalar (SNum 7)]);
              ("20250102", Seq [Scalar (SNum 4); Scalar (SNum 3);
                                Scalar (SNum (-999))])]);
     ("RH2M", [("20250101", Seq [Scalar (SNum 85); Scalar (SNum 70);
                                 Scalar (SNum 120)]);
               ("20250102", Seq [Scalar (SNum 50); Scalar SNone;
                                 Scalar (SNum 40)])]);
     ("PRECTOTCORR", [("20250101", Seq [Scalar (SNum 0); Scalar (SNum 0.3);
                                        Scalar (SNum 2.5)]);
                      ("20250102", Seq [Scalar (SNum 0); Scalar (SNum 0);
                                        Scalar (SNum 0)])])].

Definition sample_label (key : string) : string := substring 8 2 key.

Definition sample_rows : list Row.t :=
  match get_power_hourly sample_label sample_power 24 with
  | Ok rows => rows
  | Raise _ => []
  end.

(** The entries one day expands to, and the expansion of a whole series:
    every list entry, hour by hour, in order. *)
Definition day_entries (day_key : string) (vals : list value) : dict value :=
  map (fun iv => ((day_key ++ fmt_02d (fst iv))%string, snd iv))
      (enumerate vals).

Definition expansion (d : dict value) : dict value :=
  flat_map (fun kv => match snd kv with
                      | Seq vals => day_entries (fst kv) vals
                      | Scalar _ => []
                      end) d.

(** The number a decimal string writes. *)
Definition read_decimal (s : string) : nat :=
  match NilEmpty.uint_of_string s with
  | Some d => Nat.of_uint d
  | None => 0
  end.

(** A series of mixed shape: one day of hourly values, then a scalar. *)
Definition mixed_series : dict value :=
  [("20250101", Seq [Scalar (SNum 1); Scalar (SNum 2)]);
   ("note", Scalar (SNum 5));
   ("20250102", Seq [Scalar (SNum 3)])].

(** The entry of [o] under [k], if any, is [None] or a number already
    rounded to one decimal. *)
Definition settled (k : string) (o : obj) : Prop :=
  match dict_get k o with
  | Some (SNum t) => py_round1 t = t
  | Some (SStr _) => False
  | Some SNone | None => True
  end.

(** A response as [/api/weather] builds it: 68 degrees Fahrenheit now, 68
    and 50 in the hourly list. *)
Definition sample_response : Response.t :=
  Response.mk
    (Some [("temp", SNum 68); ("condition", SStr "Clear");
           ("feelsLike", SNum 68); ("dewPoint", SNone); ("high", SNum 75.26);
           ("low", SNum 50)])
    (Some [[("time", SStr "01 PM"); ("temp", SNum 68)];
           [("time", SStr "Now"); ("temp", SNum 50); ("feelsLike", SNum 50)]])
    None None
    [("location", SStr "New York, NY"); ("source", SStr "NASA POWER API")].

Definition sample_fahrenheit : Response.t :=
  match format_weather_response sample_response "Fahrenheit" with
  | Ok r => r
  | Raise _ => sample_response
  end.

(** The [temp] of the [current] object of a response. *)
Definition current_temp (r : Response.t) : option scalar :=
  match Response.current r with
  | Some o => dict_get "temp" o
  | None => None
  end.

(** ** The current-conditions builder *)

(** The decoded answer of the daily endpoint:
    [resp['properties']['parameter']] when both keys are there; a daily
    series maps a date key to a scalar. *)
Inductive daily_response : Type :=
| NoDailyParameters
| DailyData (p : dict (dict scalar)).

(** The dictionary [current_weather]. *)
Module Current.
Record t : Type := mk {
  temp : Z;
  condition : string;
  description : string;
  precipitation : Q;
  precipLast24h : Q;
  humidity : Q;
  wind : Z;
  pressure : option Q;
  visibility : Z;
  uvIndex : Q;
  dewPoint : Z;
  feelsLike : Z;
  icon : string;
  high : Z;
  low : Z
}.
End Current.

(** [values[k]] for a key [k] of [values]. *)
Definition item (values : dict scalar) (k : string) : scalar :=
  match dict_get k values with
  | Some v => v
  | None => SNone
  end.

(** [p.get(param, {})]. *)
Definition daily_series (p : dict (dict scalar)) (param : string)
    : dict scalar :=
  match dict_get param p with
  | Some values => values
  | None => []
  end.

(** The helper [latest(param, default)]: the keys in decreasing order, the
    first value that is not missing, or the default. *)
Definition latest (p : dict (dict scalar)) (param : string) (default : scalar)
    : scalar :=
  let values := daily_series p param in
  match find (fun k => negb (in_MISSING (item values k)))
             (rev (sorted_union (keys values) [])) with
  | Some k => item values k
  | None => default
  end.

(** [a or b] on an optional string: [None] and the empty string give [b]. *)
Definition str_or (a : option string) (b : string) : string :=
  match a with
  | Some s => if String.eqb s "" then b else s
  | None => b
  end.

(** [rows[-1]], when [rows] is not empty. *)
Definition last_row (rows : list Row.t) : option Row.t :=
  match rev rows with
  | r :: _ => Some r
  | [] => None
  end.

Section CurrentBuilder.

Variable hour_label : string -> string.

(** The body of the [try] of [get_real_weather_data_by_point]: [daily] and
    [hourly_fetch] are the outcomes of the two requests, [name] is
    [display_name or f"{lat:.4f}, {lon:.4f}"]. A value is asked to be a
    number only where the source computes with it. *)
Definition current_body (daily : result daily_response)
    (hourly_fetch : result power_response) (name : string)
    : result (option Current.t * option (list Row.t) * string) :=
  resp <- daily ;;
  match resp with
  | NoDailyParameters => Ok (None, None, name)
  | DailyData p =>
      temp_c <- as_num (mv (latest p "T2M" SNone) (SNum 20)) ;;
      rh_n <- as_num (mv (latest p "RH2M" SNone) (SNum 60)) ;;
      let rh := py_max 0 (py_min 100 rh_n) in
      pr_n <- as_num (mv (latest p "PRECTOTCORR" SNone) (SNum 0)) ;;
      let precip_24h_mm := py_max 0 pr_n in
      tmax_c <- as_num (mv (latest p "T2M_MAX" SNone) (SNum temp_c)) ;;
      tmin_c <- as_num (mv (latest p "T2M_MIN" SNone) (SNum temp_c)) ;;
      let dew_c := mv (latest p "T2MDEW" SNone) (SNum (temp_c - 2)) in
      ws_n <- as_num (mv (latest p "WS2M" SNone) (SNum 0)) ;;
      let ws_ms := py_max 0 ws_n in
      let ps_kpa := latest p "PS" SNone in
      data <- hourly_fetch ;;
      hourly <- get_power_hourly hour_label data 24 ;;
      let last_hour_precip :=
        match last_row hourly with
        | Some r => Row.precipitation r
        | None => 0
        end in
      last_hour_uvi <-
        match last_row hourly with
        | Some r => Ok (inject_Z (Row.uvIndex r))
        | None =>
            uv_n <- as_num (mv (latest p "ALLSKY_SFC_UV_INDEX" SNone) (SNum 0)) ;;
            Ok (py_max 0 uv_n)
        end ;;
      last_hour_pressure <-
        match last_row hourly with
        | Some r => Ok (Row.pressure r)
        | None =>
            if negb (in_MISSING ps_kpa)
            then x <- as_num (mv ps_kpa (SNum 0)) ;;
                 Ok (Some (py_round2 (x * 0.2953)))
            else Ok None
        end ;;
      last_hour_dew_f <-
        match last_row hourly with
        | Some r => Ok (Row.dewPoint r)
        | None => d <- as_num dew_c ;; Ok (display_temp_f d)
        end ;;
      let temp_f := display_temp_f temp_c in
      let tmax_f := display_temp_f tmax_c in
      let tmin_f := display_temp_f tmin_c in
      let wind_mph := py_round (ws_ms * 2.237) in
      let ci := get_weather_condition temp_c rh last_hour_precip true in
      Ok (Some (Current.mk temp_f (fst ci) (fst ci)
                  (py_round2 last_hour_precip) (py_round2 precip_24h_mm) rh
                  wind_mph last_hour_pressure 10 last_hour_uvi last_hour_dew_f
                  temp_f (snd ci) tmax_f tmin_f),
          Some hourly, name)
  end.

(** [coords] is the text [f"{lat:.4f}, {lon:.4f}"]. *)
Definition get_real_weather_data_by_point (daily : result daily_response)
    (hourly_fetch : result power_response) (display_name : option string)
    (coords : string) : option Current.t * option (list Row.t) * string :=
  match current_body daily hourly_fetch (str_or display_name coords) with
  | Ok r => r
  | Raise _ => (None, None, str_or display_name "Unknown")
  end.

End CurrentBuilder.

(** ** The daily trend *)

(** An entry of the list [get_real_forecast_trend] returns. *)
Module Trend.
Record t : Type := mk {
  date : string;
  high : Z;
  low : Z;
  precipitation : Q;
  condition : string;
  description : string;
  icon : string;
  humidity : Q;
  wind : Z
}.
End Trend.

(** An exception caught by [except Exception: return None]. *)
Definition caught {A : Type} (r : result A) : option A :=
  match r with
  | Ok a => Some a
  | Raise _ => None
  end.

Definition obind {A B : Type} (m : option A) (k : A -> option B) : option B :=
  match m with
  | Some a => k a
  | None => None
  end.

Fixpoint omap_all {A B : Type} (f : A -> option B) (l : list A)
    : option (list B) :=
  match l with
  | [] => Some []
  | a :: l' =>
      obind (f a) (fun b => obind (omap_all f l') (fun bs => Some (b :: bs)))
  end.

Section TrendBuilder.

(** [datetime.strptime(dk, '%Y%m%d').strftime('%a, %b %d')]; [None] when
    the key is no date ([ValueError]). *)
Variable date_label : string -> option string.

(** The body of the loop over [dates[-days:]]; [None] when it raises:
    [p['T2M_MIN']] on an absent series, a key that is no date, or arithmetic
    on a value that is no number. *)
Definition trend_entry (p : dict (dict scalar)) (dk : string)
    : option Trend.t :=
  obind (date_label dk) (fun d =>
  obind (dict_get "T2M_MAX" p) (fun tmax_series =>
  obind (caught (as_num (mv (item tmax_series dk) (SNum 20)))) (fun tmax_c =>
  obind (dict_get "T2M_MIN" p) (fun tmin_series =>
  obind (caught (as_num (mv (item tmin_series dk) (SNum 10)))) (fun tmin_c =>
  obind (caught (as_num (mv (item (daily_series p "RH2M") dk) (SNum 60))))
        (fun rh_n =>
  let rh := py_max 0 (py_min 100 rh_n) in
  obind (caught (as_num (mv (item (daily_series p "PRECTOTCORR") dk)
                            (SNum 0)))) (fun pr_n =>
  let precip_mm := py_max 0 pr_n in
  obind (caught (as_num (mv (item (daily_series p "WS2M") dk) (SNum 5))))
        (fun ws_n =>
  let wind_ms := py_max 0 ws_n in
  let ci := get_weather_condition ((tmax_c + tmin_c) / 2) rh precip_mm false in
  Some (Trend.mk d (display_temp_f tmax_c) (display_temp_f tmin_c)
          (py_round2 precip_mm) (fst ci) (fst ci) (snd ci) rh
          (py_round (wind_ms * 2.237))))))))))).

Definition get_real_forecast_trend (daily : result daily_response) (days : Z)
    : option (list Trend.t) :=
  match daily with
  | Raise _ => None
  | Ok NoDailyParameters => None
  | Ok (DailyData p) =>
      let dates := sorted_union (keys (daily_series p "T2M_MAX")) [] in
      omap_all (trend_entry p) (slice_from (- days) dates)
  end.

End TrendBuilder.

(** ** Words for the further properties *)

(** What the shaper makes of the entry under a recognised key: a number is
    converted and rounded to one decimal, anything else stays. *)
Definition shaped (is_celsius : bool) (v : option scalar) : option scalar :=
  match v with
  | Some (SNum t) =>
      Some (SNum (if is_celsius then py_round1 ((t - 32) * 5 / 9)
                  else py_round1 t))
  | _ => v
  end.

(** [o'] is [o] after the shaper went over the keys [ks]: the same keys in
    the same order, the entries under [ks] shaped, the others as they were. *)
Definition shaped_obj (is_celsius : bool) (ks : list string) (o o' : obj)
    : Prop :=
  keys o' = keys o /\
  forall k, dict_get k o'
            = if str_in k ks then shaped is_celsius (dict_get k o)
              else dict_get k o.

(** Some entry of [o] under a key of [ks] is a text. *)
Definition has_text (ks : list string) (o : obj) : Prop :=
  exists k s, In k ks /\ dict_get k o = Some (SStr s).

Definition opt_rel {A : Type} (R : A -> A -> Prop) (a b : option A) : Prop :=
  match a, b with
  | Some x, Some y => R x y
  | None, None => True
  | _, _ => False
  end.


(** The response [r] is [data] after the shaper. *)
Definition shaped_response (unit : string) (data r : Response.t) : Prop :=
  let c := String.eqb (lower unit) "celsius" in
  Response.others r = Response.others data /\
  Response.unit r = Some (if c then "°C" else "°F") /\
  opt_rel (shaped_obj c ["temp"; "feelsLike"; "dewPoint"; "high"; "low"])
          (Response.current data) (Response.current r) /\
  opt_rel (Forall2 (shaped_obj c ["temp"; "feelsLike"; "dewPoint"]))
          (Response.hourly data) (Response.hourly r) /\
  opt_rel (Forall2 (shaped_obj c ["high"; "low"]))
          (Response.forecast data) (Response.forecast r).

Definition sample_celsius : Response.t :=
  match format_weather_response sample_response "celsius" with
  | Ok r => r
  | Raise _ => sample_response
  end.

(** The five answers of the classifier. *)
Definition condition_pairs : list (string * string) :=
  [("Rainy", "🌧️"); ("Light Rain", "🌦️"); ("Cloudy", "☁️");
   ("Partly Cloudy", "⛅"); ("Clear", "☀️")].

(** The physical bounds of an hourly record. *)
Definition row_in_bounds (r : Row.t) : Prop :=
  0 <= Row.humidity r <= 100 /\
  (0 <= Row.wind r)%Z /\
  0 <= Row.precipitation r /\
  (0 <= Row.uvIndex r)%Z /\
  Row.feelsLike r = Row.temp r /\
  In (Row.description r, Row.icon r) condition_pairs /\
  match Row.pressure r with
  | Some ps => exists x : Q, ps = py_round2 (x * 0.2953)
  | None => True
  end.

(** A scalar that is a number or [None]. *)
Definition numeric_scalar (s : scalar) : Prop :=
  match s with
  | SStr _ => False
  | SNone | SNum _ => True
  end.



(** The last of the sample records. *)
Definition sample_now : Row.t :=
  match last_row sample_rows with
  | Some r => r
  | None => Row.mk "" 0 "" 0 0 0 0 "" None 0 0
  end.


(** An hourly answer with precipitation and humidity but no temperature. *)
Definition rain_only_parameters : dict (dict value) :=
  [("PRECTOTCORR", [("20250101", Seq [Scalar (SNum 1); Scalar (SNum 3)])]);
   ("RH2M", [("20250101", Seq [Scalar (SNum 90); Scalar (SNum 95)])])].

(** The physical bounds and fixed entries of the current conditions. *)
Definition current_in_bounds (c : Current.t) : Prop :=
  0 <= Current.humidity c <= 100 /\
  (0 <= Current.wind c)%Z /\
  0 <= Current.precipitation c /\
  0 <= Current.precipLast24h c /\
  0 <= Current.uvIndex c /\
  Current.feelsLike c = Current.temp c /\
  Current.visibility c = 10%Z /\
  Current.description c = Current.condition c /\
  In (Current.condition c, Current.icon c) condition_pairs.

(** Every value of the daily series [param] is missing (or there is none). *)
Definition all_missing (p : dict (dict scalar)) (param : string) : Prop :=
  forall k v, dict_get k (daily_series p param) = Some v ->
              in_MISSING v = true.

(** A daily answer of three days, the last one not yet filled in. *)
Definition sample_daily : dict (dict scalar) :=
  [("T2M", [("20250101", SNum 4); ("20250102", SNum 7);
            ("20250103", SNum (-999))]);
   ("T2M_MAX", [("20250101", SNum 9); ("20250102", SNum 12.5);
                ("20250103", SNum (-999))]);
   ("T2M_MIN", [("20250101", SNum (-999)); ("20250102", SNum (-999));
                ("20250103", SNum (-999))]);
   ("RH2M", [("20250101", SNum 81); ("20250102", SNum 130)]);
   ("PRECTOTCORR", [("20250101", SNum 0.4); ("20250102", SNum 12)]);
   ("WS2M", [("20250102", SNum 3.5)]);
   ("PS", [("20250102", SNum 101.3)])].

Definition sample_current :
    option Current.t * option (list Row.t) * string :=
  get_real_weather_data_by_point sample_label (Ok (DailyData sample_daily))
    (Ok sample_power) None "40.7000, -74.0000".

Definition sample_current_no_hourly :
    option Current.t * option (list Row.t) * string :=
  get_real_weather_data_by_point sample_label (Ok (DailyData sample_daily))
    (Ok NoParameters) (Some "Paris") "48.8566, 2.3522".

Definition no_current : Current.t :=
  Current.mk 0 "" "" 0 0 0 0 None 0 0 0 0 "" 0 0.

(** The current conditions of the two samples. *)
Definition sample_conditions : Current.t :=
  match fst (fst sample_current) with
  | Some c => c
  | None => no_current
  end.

Definition sample_conditions_no_hourly : Current.t :=
  match fst (fst sample_current_no_hourly) with
  | Some c => c
  | None => no_current
  end.

(** The current conditions [c] against the hourly list [rows] returned with
    them: the record labelled "Now" supplies precipitation, UV index,
    pressure and dew point; without one the precipitation is 0 and the
    condition comes from the humidity alone. *)
Definition follows_hourly (c : Current.t) (rows : list Row.t) : Prop :=
  match last_row rows with
  | Some now =>
      Row.time now = "Now" /\
      Current.precipitation c = Row.precipitation now /\
      Current.uvIndex c = inject_Z (Row.uvIndex now) /\
      Current.pressure c = Row.pressure now /\
      Current.dewPoint c = Row.dewPoint now
  | None =>
      Current.precipitation c == 0 /\
      In (Current.condition c) ["Cloudy"; "Partly Cloudy"; "Clear"]
  end.

(** The fallbacks of the current conditions on the daily answer [p]. *)
Definition daily_fallbacks (p : dict (dict scalar)) (c : Current.t) : Prop :=
  (all_missing p "T2M" -> Current.temp c = 68%Z) /\
  (all_missing p "T2M_MAX" -> Current.high c = Current.temp c) /\
  (all_missing p "T2M_MIN" -> Current.low c = Current.temp c) /\
  (all_missing p "RH2M" -> Current.humidity c == 60) /\
  (all_missing p "WS2M" -> Current.wind c = 0%Z) /\
  (all_missing p "PRECTOTCORR" -> Current.precipLast24h c == 0).

(** The bounds of a trend entry. *)
Definition trend_in_bounds (e : Trend.t) : Prop :=
  0 <= Trend.humidity e <= 100 /\
  (0 <= Trend.wind e)%Z /\
  0 <= Trend.precipitation e /\
  Trend.description e = Trend.condition e /\
  In (Trend.condition e, Trend.icon e) condition_pairs.

(** The label of a date key, for the samples: month and day. *)
Definition sample_date_label (dk : string) : option string :=
  if (String.length dk =? 8)%nat then Some (substring 4 4 dk) else None.

Definition sample_trend : list Trend.t :=
  match get_real_forecast_trend sample_date_label
          (Ok (DailyData sample_daily)) 2 with
  | Some out => out
  | None => []
  end.

Definition sample_trend_entry : Trend.t :=
  match rev sample_trend with
  | e :: _ => e
  | [] => Trend.mk "" 0 0 0 "" "" "" 0 0
  end.

(** A daily answer with maxima but no series of minima. *)
Definition maxima_only : dict (dict scalar) :=
  [("T2M_MAX", [("20250101", SNum 9); ("20250102", SNum 12.5)])].

(** A forecast answer that carries timestamps only. *)
Definition times_only (times : list string) : OpenMeteo.hourly :=
  OpenMeteo.mk times [] [] [] [] [] [].

(** A forecast whose second sample has no wind speed. *)
Definition gusty_forecast : OpenMeteo.hourly :=
  OpenMeteo.mk ["2025-06-14T15:00"; "2025-06-14T16:00"] [Some 20; Some 21]
               [Some 0; Some 0] [Some 10; Some 10] [Some 8; None]
               [Some 10; Some 10] [Some 3; Some 3].

(** What an advice says beside its risks. *)
Definition advice_wording (a : Advice.t) : Prop :=
  (Advice.suggestions a = []
   <-> Advice.the_risks a = Advice.mk_risks low low low low) /\
  (length (Advice.suggestions a) <= 5)%nat /\
  (Advice.favorable a = true -> (length (Advice.suggestions a) <= 2)%nat) /\
  Advice.summary a
  = (if Advice.favorable a then "Favorable" else "Not favorable").

(** ** The weather route *)

(** An optional number as a JSON value. *)
Definition opt_num (x : option Q) : scalar :=
  match x with
  | Some q => SNum q
  | None => SNone
  end.

(** The dictionary of an hourly record, its keys in the order of the
    source. *)
Definition row_obj (r : Row.t) : obj :=
  [("time", SStr (Row.time r));
   ("temp", SNum (inject_Z (Row.temp r)));
   ("icon", SStr (Row.icon r));
   ("precipitation", SNum (Row.precipitation r));
   ("humidity", SNum (Row.humidity r));
   ("wind", SNum (inject_Z (Row.wind r)));
   ("feelsLike", SNum (inject_Z (Row.feelsLike r)));
   ("description", SStr (Row.description r));
   ("pressure", opt_num (Row.pressure r));
   ("uvIndex", SNum (inject_Z (Row.uvIndex r)));
   ("dewPoint", SNum (inject_Z (Row.dewPoint r)))].

(** The dictionary [current_weather]. *)
Definition current_obj (c : Current.t) : obj :=
  [("temp", SNum (inject_Z (Current.temp c)));
   ("condition", SStr (Current.condition c));
   ("description", SStr (Current.description c));
   ("precipitation", SNum (Current.precipitation c));
   ("precipLast24h", SNum (Current.precipLast24h c));
   ("humidity", SNum (Current.humidity c));
   ("wind", SNum (inject_Z (Current.wind c)));
   ("pressure", opt_num (Current.pressure c));
   ("visibility", SNum (inject_Z (Current.visibility c)));
   ("uvIndex", SNum (Current.uvIndex c));
   ("dewPoint", SNum (inject_Z (Current.dewPoint c)));
   ("feelsLike", SNum (inject_Z (Current.feelsLike c)));
   ("icon", SStr (Current.icon c));
   ("high", SNum (inject_Z (Current.high c)));
   ("low", SNum (inject_Z (Current.low c)))].

(** What [api_weather] hands to [jsonify]: an error with its status, or the
    shaped response (status 200). *)
Inductive weather_reply : Type :=
| WeatherError (error : string) (status : Z)
| WeatherData (data : Response.t).

(** [api_weather] from line 507 on: [fetched] is the triple returned by
    [get_real_weather_data_by_point], [hours] and [unit] are the query
    arguments, [timestamp] is the clock's text. *)
Definition api_weather
    (fetched : option Current.t * option (list Row.t) * string)
    (hours : Z) (unit timestamp : string) : result weather_reply :=
  match fetched with
  | (None, _, _) => Ok (WeatherError "Unable to fetch weather data" 400)
  | (Some current, hourly, name) =>
      let hourly :=
        match hourly with
        | Some rows =>
            if negb (Nat.eqb (length rows) 0)
               && (hours <? Z.of_nat (length rows))%Z
            then slice_from (- hours) rows
            else rows
        | None => []
        end in
      data <- format_weather_response
                (Response.mk (Some (current_obj current))
                   (Some (map row_obj hourly)) None None
                   [("location", SStr name); ("timestamp", SStr timestamp);
                    ("source", SStr "NASA POWER API")])
                unit ;;
      Ok (WeatherData data)
  end.

(** The reply to a request for Celsius on the sample. *)
Definition sample_reply : Response.t :=
  match api_weather sample_current 3 "Celsius" "2025-01-03T00:00:00Z" with
  | Ok (WeatherData data) => data
  | _ => sample_response
  end.

(** The number under [k] in the [current] object of a response. *)
Definition current_number (k : string) (r : Response.t) : option Q :=
  match Response.current r with
  | Some o => match dict_get k o with
              | Some (SNum q) => Some q
              | _ => None
              end
  | None => None
  end.

(** The [time] entries of the hourly list of a response. *)
Definition hourly_times (r : Response.t) : list (option scalar) :=
  match Response.hourly r with
  | Some l => map (dict_get "time") l
  | None => []
  end.

(** * Properties *)

(** [lra] after the divisions by the constants of the source are turned
    into multiplications. *)
Ltac q_consts :=
  unfold Qdiv in *;
  change (/ 5)%Q with (1 # 5)%Q in *;
  change (/ 9)%Q with (1 # 9)%Q in *;
  change (/ 10)%Q with (1 # 10)%Q in *;
  change (/ 100)%Q with (1 # 100)%Q in *.
Ltac q_lra := q_consts; lra.

Section Rounding.

Example py_round_ties :
  map py_round [0.5; 1.5; 2.5; -0.5; -1.5; 2.4; 2.6; -2.6]
  = [0; 2; 2; 0; -2; 2; 3; -3]%Z.
Proof. reflexivity. Qed.

Example py_round1_samples :
  py_round1 20.25 == 20.2 /\ py_round1 20.35 == 20.4 /\
  py_round1 (-6.6666) == -6.7.
Proof. repeat split; reflexivity. Qed.

Lemma Qfloor_bounds (x : Q) :
  inject_Z (Qfloor x) <= x /\ x < inject_Z (Qfloor x) + 1.
Proof.
  split; [apply Qfloor_le|].
  pose proof (Qlt_floor x) as H. rewrite inject_Z_plus in H. exact H.
Qed.

Lemma py_round_lower (x : Q) : x - (1 # 2) <= inject_Z (py_round x).
Proof.
  unfold py_round. destruct (Qfloor_bounds x) as [Hlo Hhi].
  destruct (Qcompare (x - inject_Z (Qfloor x)) (1 # 2)) eqn:Hc.
  - apply Qeq_alt in Hc.
    destruct (Z.even (Qfloor x)); [lra|].
    rewrite inject_Z_plus. change (inject_Z 1) with 1. lra.
  - apply Qlt_alt in Hc. lra.
  - rewrite inject_Z_plus. change (inject_Z 1) with 1. lra.
Qed.

Lemma py_round_upper (x : Q) : inject_Z (py_round x) <= x + (1 # 2).
Proof.
  unfold py_round. destruct (Qfloor_bounds x) as [Hlo Hhi].
  destruct (Qcompare (x - inject_Z (Qfloor x)) (1 # 2)) eqn:Hc.
  - apply Qeq_alt in Hc.
    destruct (Z.even (Qfloor x)); [lra|].
    rewrite inject_Z_plus. change (inject_Z 1) with 1. lra.
  - lra.
  - apply Qgt_alt in Hc. rewrite inject_Z_plus. change (inject_Z 1) with 1. lra.
Qed.

Lemma py_round1_lower (x : Q) : x - (1 # 20) <= py_round1 x.
Proof.
  unfold py_round1. pose proof (py_round_lower (x * 10)) as H.
  apply Qle_shift_div_l; lra.
Qed.

Lemma py_round1_upper (x : Q) : py_round1 x <= x + (1 # 20).
Proof.
  unfold py_round1. pose proof (py_round_upper (x * 10)) as H.
  apply Qle_shift_div_r; lra.
Qed.

End Rounding.

(** C1. [mv] returns the fallback on each sentinel ([-999], [-9999], [-99],
    [None]) and the value itself on every other value, among them [0] and
    the negative numbers that are no sentinel; it returns the fallback
    exactly when the value is a sentinel (or already is the fallback). *)
Theorem mv_sentinel_or_unchanged (v d : scalar) :
  (sentinel v -> mv v d = d) /\
  (~ sentinel v -> mv v d = v) /\
  (mv v d = d <-> sentinel v \/ v = d) /\
  mv (SNum (-999)) d = d /\ mv (SNum (-9999)) d = d /\
  mv (SNum (-99)) d = d /\ mv SNone d = d /\
  mv (SNum 0) d = SNum 0 /\
  (forall q, (q < 0)%Q -> ~ (q == -999)%Q -> ~ (q == -9999)%Q ->
             ~ (q == -99)%Q -> mv (SNum q) d = SNum q).
Proof.
  assert (Hs : in_MISSING v = true <-> sentinel v).
  { unfold sentinel. destruct v as [|q|s]; simpl.
    - split; auto.
    - rewrite !orb_true_iff, !Qeq_bool_iff. split.
      + intros H. right. exists q. tauto.
      + intros [H|(q' & E & H)]; [discriminate|]. injection E as ->. tauto.
    - split; [discriminate|]. intros [H|(q' & E & _)]; discriminate. }
  assert (Hq : forall q, ~ (q == -999)%Q -> ~ (q == -9999)%Q ->
                         ~ (q == -99)%Q -> mv (SNum q) d = SNum q).
  { intros q H1 H2 H3. unfold mv. simpl.
    destruct (Qeq_bool q (-999)) eqn:E1; [apply Qeq_bool_iff in E1; tauto|].
    destruct (Qeq_bool q (-9999)) eqn:E2; [apply Qeq_bool_iff in E2; tauto|].
    destruct (Qeq_bool q (-99)) eqn:E3; [apply Qeq_bool_iff in E3; tauto|].
    reflexivity. }
  unfold mv. repeat split; try reflexivity.
  - intros H. apply Hs in H. now rewrite H.
  - intros H. destruct (in_MISSING v); [|reflexivity].
    exfalso. apply H, Hs. reflexivity.
  - destruct (in_MISSING v); [left; now apply Hs | now right].
  - intros [H|H]; [apply Hs in H; now rewrite H | subst; now destruct (in_MISSING d)].
  - intros q _. apply Hq.
Qed.

(** C9. A Celsius value sent to Fahrenheit by the display conversion
    (rounded to the nearest integer) and back by [convert_temp] (rounded to
    one decimal) comes back within 1 degree of the original. *)
Theorem celsius_roundtrip_within_one (c : Q) :
  exists back : Q,
    convert_temp (Some (inject_Z (display_temp_f c))) true = Some back /\
    Qabs (back - c) <= 1.
Proof.
  unfold convert_temp, display_temp_f.
  eexists. split; [reflexivity|].
  set (f := inject_Z (py_round (c * 9 / 5 + 32))).
  pose proof (py_round_lower (c * 9 / 5 + 32)) as Hlo.
  pose proof (py_round_upper (c * 9 / 5 + 32)) as Hhi.
  fold f in Hlo, Hhi. clearbody f.
  pose proof (py_round1_lower ((f - 32) * 5 / 9)) as Hlo1.
  pose proof (py_round1_upper ((f - 32) * 5 / 9)) as Hhi1.
  set (b := py_round1 ((f - 32) * 5 / 9)) in *. clearbody b.
  apply Qabs_Qle_condition. split; q_lra.
Qed.

(** ** Comparisons *)

Lemma Qge_bool_true (a b : Q) : Qge_bool a b = true <-> b <= a.
Proof. unfold Qge_bool. apply Qle_bool_iff. Qed.

Lemma Qge_bool_false (a b : Q) : Qge_bool a b = false <-> a < b.
Proof.
  unfold Qge_bool. split; intros H.
  - apply Qnot_le_lt. intros Hle. apply Qle_bool_iff in Hle. congruence.
  - destruct (Qle_bool b a) eqn:E; [|reflexivity].
    apply Qle_bool_iff in E. exfalso. exact (Qlt_not_le _ _ H E).
Qed.

Lemma Qgt_bool_true (a b : Q) : Qgt_bool a b = true <-> b < a.
Proof.
  unfold Qgt_bool. rewrite negb_true_iff. apply (Qge_bool_false b a).
Qed.

Lemma Qgt_bool_false (a b : Q) : Qgt_bool a b = false <-> a <= b.
Proof.
  unfold Qgt_bool. rewrite negb_false_iff. apply (Qge_bool_true b a).
Qed.

Lemma Qlt_bool_true (a b : Q) : Qlt_bool a b = true <-> a < b.
Proof. apply (Qgt_bool_true b a). Qed.

Lemma Qlt_bool_false (a b : Q) : Qlt_bool a b = false <-> b <= a.
Proof. apply (Qgt_bool_false b a). Qed.

Lemma Qle_bool_false (a b : Q) : Qle_bool a b = false <-> b < a.
Proof. apply (Qge_bool_false b a). Qed.

(** Every boolean comparison of the goal becomes a case split with the
    order fact among the hypotheses. *)
Ltac q_cases :=
  repeat match goal with
    | |- context [Qge_bool ?a ?b] =>
        let E := fresh "E" in
        destruct (Qge_bool a b) eqn:E;
        [apply Qge_bool_true in E | apply Qge_bool_false in E]
    | |- context [Qgt_bool ?a ?b] =>
        let E := fresh "E" in
        destruct (Qgt_bool a b) eqn:E;
        [apply Qgt_bool_true in E | apply Qgt_bool_false in E]
    | |- context [Qlt_bool ?a ?b] =>
        let E := fresh "E" in
        destruct (Qlt_bool a b) eqn:E;
        [apply Qlt_bool_true in E | apply Qlt_bool_false in E]
    | |- context [Qle_bool ?a ?b] =>
        let E := fresh "E" in
        destruct (Qle_bool a b) eqn:E;
        [apply Qle_bool_iff in E | apply Qle_bool_false in E]
    end;
  cbn [orb andb negb].

(** C4. The classifier answers Rainy from 2 (hourly) or 10 (daily), Light
    Rain from 0.2 (hourly) or 1 (daily) below that, and otherwise goes by
    humidity: above 80 Cloudy, above 60 Partly Cloudy, else Clear; the
    temperature argument never changes the answer. *)
Theorem get_weather_condition_bands (temp_c humidity precip : Q) :
  (2 <= precip ->
   get_weather_condition temp_c humidity precip true = ("Rainy", "🌧️")) /\
  (10 <= precip ->
   get_weather_condition temp_c humidity precip false = ("Rainy", "🌧️")) /\
  (0.2 <= precip < 2 ->
   get_weather_condition temp_c humidity precip true = ("Light Rain", "🌦️")) /\
  (1 <= precip < 10 ->
   get_weather_condition temp_c humidity precip false = ("Light Rain", "🌦️")) /\
  (forall is_hourly : bool,
      precip < (if is_hourly then 0.2 else 1) ->
      (80 < humidity ->
       get_weather_condition temp_c humidity precip is_hourly
       = ("Cloudy", "☁️")) /\
      (60 < humidity <= 80 ->
       get_weather_condition temp_c humidity precip is_hourly
       = ("Partly Cloudy", "⛅")) /\
      (humidity <= 60 ->
       get_weather_condition temp_c humidity precip is_hourly
       = ("Clear", "☀️"))) /\
  (forall (temp_c' : Q) (is_hourly : bool),
      get_weather_condition temp_c' humidity precip is_hourly
      = get_weather_condition temp_c humidity precip is_hourly) /\
  get_weather_condition 20 50 5 true = ("Rainy", "🌧️") /\
  get_weather_condition 20 85 0 true = ("Cloudy", "☁️") /\
  get_weather_condition 20 40 0 false = ("Clear", "☀️").
Proof.
  repeat match goal with |- _ /\ _ => split end;
    try reflexivity;
    try (intros b Hp; destruct b; repeat split);
    intros; unfold get_weather_condition; q_cases;
    try reflexivity; exfalso; lra.
Qed.

(** ** The risk bands, factor by factor *)

Section RiskBands.

Variables (max_pop : option Q) (max_precip : Q).

Lemma precip_high_cond_iff :
  (match max_pop with Some p => Qge_bool p 60 | None => false end)
  || Qge_bool max_precip 2 = true <-> precip_high_cond max_pop max_precip.
Proof.
  unfold precip_high_cond. rewrite orb_true_iff, Qge_bool_true.
  destruct max_pop as [p|].
  - rewrite Qge_bool_true. split; (intros [H|H]; [left|now right]).
    + now exists p.
    + destruct H as (p' & E & H). now injection E as ->.
  - split; (intros [H|H]; [|now right]).
    + discriminate.
    + destruct H as (p' & E & _). discriminate.
Qed.

Lemma precip_moderate_cond_iff :
  (match max_pop with
   | Some p => Qle_bool 30 p && Qlt_bool p 60
   | None => false
   end)
  || (Qle_bool 0.2 max_precip && Qlt_bool max_precip 2) = true
  <-> precip_moderate_cond max_pop max_precip.
Proof.
  unfold precip_moderate_cond.
  rewrite orb_true_iff, andb_true_iff, Qle_bool_iff, Qlt_bool_true.
  destruct max_pop as [p|].
  - rewrite andb_true_iff, Qle_bool_iff, Qlt_bool_true.
    split; (intros [H|H]; [left|now right]).
    + now exists p.
    + destruct H as (p' & E & H). now injection E as ->.
  - split; (intros [H|H]; [|now right]).
    + discriminate.
    + destruct H as (p' & E & _). discriminate.
Qed.

Lemma precip_risk_of_bands :
  (precip_risk_of max_pop max_precip = high
   <-> precip_high_cond max_pop max_precip) /\
  (precip_risk_of max_pop max_precip = moderate
   <-> ~ precip_high_cond max_pop max_precip
       /\ precip_moderate_cond max_pop max_precip) /\
  (precip_risk_of max_pop max_precip = low
   <-> ~ precip_high_cond max_pop max_precip
       /\ ~ precip_moderate_cond max_pop max_precip).
Proof.
  unfold precip_risk_of.
  rewrite <- precip_high_cond_iff, <- precip_moderate_cond_iff.
  destruct (_ || Qge_bool max_precip 2);
    [|destruct (_ || (Qle_bool 0.2 max_precip && Qlt_bool max_precip 2))];
    repeat split; intros; try discriminate; try reflexivity;
    try tauto; intuition discriminate.
Qed.

End RiskBands.

Lemma wind_risk_of_bands (max_wind : Q) :
  (wind_risk_of max_wind = high <-> 30 <= max_wind) /\
  (wind_risk_of max_wind = moderate <-> 15 <= max_wind < 30) /\
  (wind_risk_of max_wind = low <-> max_wind < 15).
Proof.
  unfold wind_risk_of. q_cases; repeat split; intros;
    try discriminate; try reflexivity; try lra; exfalso; lra.
Qed.


Lemma str_in_In (x : string) (l : list string) : str_in x l = true <-> In x l.
Proof.
  unfold str_in. rewrite existsb_exists. split.
  - intros (y & Hy & E). apply String.eqb_eq in E. now subst y.
  - intros H. exists x. split; [exact H | apply String.eqb_refl].
Qed.


Lemma temp_risk_of_bands (avg : Q) (event_type : string) :
  temp_band avg (fst (comfort_range event_type))
            (snd (comfort_range event_type))
            (temp_risk_of (Some avg) event_type).
Proof.
  assert (Hr : fst (comfort_range event_type)
               <= snd (comfort_range event_type)).
  { unfold comfort_range.
    repeat match goal with
      | |- context [if ?b then _ else _] => destruct b
      end; simpl; lra. }
  unfold temp_band, temp_risk_of.
  set (lo := fst (comfort_range event_type)) in *.
  set (hi := snd (comfort_range event_type)) in *.
  clearbody lo hi. q_cases; repeat split; intros;
    try discriminate; try reflexivity; try lra;
    try (left; lra); try (right; lra); exfalso;
    repeat match goal with H : _ \/ _ |- _ => destruct H end; lra.
Qed.

(** ** Maxima *)

Lemma py_max_ge (a b : Q) : a <= py_max a b /\ b <= py_max a b.
Proof. unfold py_max. destruct (Qlt_le_dec a b); split; lra. Qed.







(** ** The monad and the loops *)

Lemma mapM_Ok_In {A B : Type} (f : A -> result B) (l : list A) (l' : list B) :
  mapM f l = Ok l' ->
  forall b, In b l' -> exists a, In a l /\ f a = Ok b.
Proof.
  revert l'. induction l as [|a l IH]; simpl; intros l' H b Hb.
  - injection H as <-. destruct Hb.
  - destruct (f a) as [b0|] eqn:Ea; simpl in H; [|discriminate].
    destruct (mapM f l) as [bs|] eqn:El; simpl in H; [|discriminate].
    injection H as <-. destruct Hb as [<-|Hb].
    + exists a. auto.
    + destruct (IH bs eq_refl b Hb) as (a' & Ha' & E). exists a'. auto.
Qed.

Lemma mapM_Raise_In {A B : Type} (f : A -> result B) (l : list A) (e : exn) :
  mapM f l = Raise e -> exists a, In a l /\ f a = Raise e.
Proof.
  induction l as [|a l IH]; simpl; intros H; [discriminate|].
  destruct (f a) as [b0|e0] eqn:Ea; simpl in H.
  - destruct (mapM f l) as [bs|e1] eqn:El; simpl in H; [discriminate|].
    injection H as ->. destruct (IH eq_refl) as (a' & Ha' & E).
    exists a'. auto.
  - injection H as ->. exists a. auto.
Qed.

Lemma mapM_nil_inv {A B : Type} (f : A -> result B) (l : list A) :
  mapM f l = Ok [] -> l = [].
Proof.
  destruct l as [|a l]; simpl; [reflexivity|].
  destruct (f a); simpl; [|discriminate].
  destruct (mapM f l); simpl; discriminate.
Qed.

Lemma In_enumerate {A : Type} (l : list A) (i : nat) (x : A) :
  In (i, x) (enumerate l) <-> nth_error l i = Some x.
Proof.
  unfold enumerate.
  assert (G : forall (l : list A) n i x,
             In (i, x) (combine (seq n (length l)) l)
             <-> (n <= i)%nat /\ nth_error l (i - n) = Some x).
  { clear. induction l as [|a l IH]; intros n i x; simpl.
    - split; [tauto|]. intros [_ H]. destruct (i - n)%nat; discriminate.
    - rewrite IH. split.
      + intros [E|[Hle Hn]].
        * injection E as <- <-. rewrite Nat.sub_diag. auto.
        * split; [lia|]. replace (i - n)%nat with (S (i - S n)) by lia.
          exact Hn.
      + intros [Hle Hn]. destruct (Nat.eq_dec n i) as [<-|Hne].
        * rewrite Nat.sub_diag in Hn. injection Hn as <-. now left.
        * right. split; [lia|].
          replace (i - n)%nat with (S (i - S n)) in Hn by lia. exact Hn. }
  rewrite G, Nat.sub_0_r. split; [tauto|]. split; [lia|assumption].
Qed.

(** ** The event scorer, step by step *)

Lemma entry_at_Ok (h : OpenMeteo.hourly) (it : nat * string) (x : Entry.t) :
  entry_at h it = Ok x ->
  Entry.time x = snd it /\
  Entry.precip_mm x = nth (fst it) (OpenMeteo.precipitation h) (Some 0) /\
  Entry.uv x = nth (fst it) (OpenMeteo.uv_index h) None.
Proof.
  unfold entry_at. destruct (need_num _); simpl; [|discriminate].
  intros H. injection H as <-. auto.
Qed.

Lemma entry_at_Raise (h : OpenMeteo.hourly) (it : nat * string) (e : exn) :
  entry_at h it = Raise e ->
  nth (fst it) (OpenMeteo.windspeed_10m h) (Some 0) = None.
Proof.
  unfold entry_at. destruct (nth _ _ _); simpl; [discriminate|reflexivity].
Qed.

Lemma max_precip_of_Raise (window : list Entry.t) (e : exn) :
  max_precip_of window = Raise e ->
  exists x, In x window /\ Entry.precip_mm x = None.
Proof.
  unfold max_precip_of.
  destruct (mapM need_num (map Entry.precip_mm window)) as [ps|e'] eqn:E; simpl.
  - destruct (max_list ps); discriminate.
  - intros _. apply mapM_Raise_In in E. destruct E as (p & Hp & E).
    apply in_map_iff in Hp. destruct Hp as (x & <- & Hx).
    exists x. split; [exact Hx|].
    destruct (Entry.precip_mm x); [discriminate|reflexivity].
Qed.

Lemma score_window_Raise (window : list Entry.t) (lat lon : Q)
    (s e unit event_type : string) (ex : exn) :
  score_window window lat lon s e unit event_type = Raise ex ->
  max_precip_of window = Raise ex.
Proof.
  unfold score_window. destruct (max_precip_of window); simpl; congruence.
Qed.

Lemma build_window_In (h : OpenMeteo.hourly) (s e : string)
    (window : list Entry.t) (x : Entry.t) :
  build_window h s e = Ok window -> In x window ->
  exists i t, nth_error (OpenMeteo.time h) i = Some t /\
              in_window s e t = true /\ entry_at h (i, t) = Ok x.
Proof.
  unfold build_window. intros H Hx.
  destruct (mapM_Ok_In _ _ H x Hx) as ([i t] & Hit & E).
  apply filter_In in Hit. destruct Hit as [Hit Hw].
  apply In_enumerate in Hit. exists i, t. auto.
Qed.

Lemma filter_none {A : Type} (f : A -> bool) (l : list A) :
  (forall x, In x l -> f x = false) -> filter f l = [].
Proof.
  induction l as [|a l IH]; simpl; intros H; [reflexivity|].
  rewrite (H a) by now left. apply IH. intros x Hx. apply H. now right.
Qed.

Lemma build_window_empty (h : OpenMeteo.hourly) (s e : string) :
  (forall t, In t (OpenMeteo.time h) -> in_window s e t = false) ->
  build_window h s e = Ok [].
Proof.
  intros H. unfold build_window. rewrite filter_none; [reflexivity|].
  intros [i t] Hit. apply In_enumerate, nth_error_In in Hit. simpl. auto.
Qed.

Lemma get_event_advice_advice (fetched : result OpenMeteo.hourly)
    (lat lon : Q) (s e unit event_type : string) (a : Advice.t) (status : Z) :
  get_event_advice fetched lat lon s e unit event_type = (AdviceBody a, status) ->
  exists h window,
    fetched = Ok h /\ build_window h s e = Ok window /\ window <> [] /\
    score_window window lat lon s e unit event_type = Ok a /\ status = 200%Z.
Proof.
  unfold get_event_advice, event_advice_body.
  destruct fetched as [h|ex]; simpl; [|discriminate].
  destruct (build_window h s e) as [window|ex] eqn:Ew; simpl; [|discriminate].
  destruct window as [|x window]; [discriminate|].
  destruct (score_window _ _ _ _ _ _ _) as [a'|ex] eqn:Es; simpl;
    [|discriminate].
  intros H. injection H as <- <-.
  exists h, (x :: window). repeat split; auto. discriminate.
Qed.

Lemma score_window_Ok (window : list Entry.t) (lat lon : Q)
    (s e unit event_type : string) (a : Advice.t) :
  score_window window lat lon s e unit event_type = Ok a ->
  exists max_precip,
    max_precip_of window = Ok max_precip /\
    Advice.the_risks a
    = Advice.mk_risks
        (precip_risk_of (max_pop_of window) max_precip)
        (wind_risk_of (max_wind_of window))
        (temp_risk_of (avg_temp_c_of window) event_type)
        (uv_risk_of (max_uvi_of window)) /\
    Advice.favorable a
    = favorable_of (precip_risk_of (max_pop_of window) max_precip)
                   (wind_risk_of (max_wind_of window))
                   (temp_risk_of (avg_temp_c_of window) event_type).
Proof.
  unfold score_window.
  destruct (max_precip_of window) as [m|]; simpl; [|discriminate].
  intros H. injection H as <-. exists m. auto.
Qed.



(** ** The verdict *)

Lemma favorable_of_spec (p w t : risk) :
  favorable_of p w t = true <-> p = low /\ w = low /\ t <> high.
Proof.
  unfold favorable_of.
  destruct p, w, t; simpl; split; intros H;
    try discriminate; try reflexivity;
    try (repeat split; congruence);
    destruct H as (? & ? & ?); congruence.
Qed.

Lemma entry_at_with_uv (h : OpenMeteo.hourly) (uvs : list (option Q))
    (it : nat * string) :
  entry_at (with_uv_index uvs h) it
  = match entry_at h it with
    | Ok x =>
        Ok (Entry.mk (Entry.time x) (Entry.temp_c x) (Entry.precip_mm x)
              (Entry.pop x) (Entry.wind_mph x) (Entry.cloud x)
              (nth (fst it) uvs None))
    | Raise ex => Raise ex
    end.
Proof.
  unfold entry_at, with_uv_index. simpl.
  destruct (need_num _); reflexivity.
Qed.

Lemma mapM_same_but_uv (h : OpenMeteo.hourly) (uvs : list (option Q))
    (l : list (nat * string)) :
  match mapM (entry_at h) l, mapM (entry_at (with_uv_index uvs h)) l with
  | Ok w, Ok w' => Forall2 same_but_uv w w'
  | Raise ex, Raise ex' => ex = ex'
  | _, _ => False
  end.
Proof.
  induction l as [|it l IH]; simpl; [constructor|].
  rewrite entry_at_with_uv.
  destruct (entry_at h it) as [x|ex]; simpl; [|reflexivity].
  destruct (mapM (entry_at h) l) as [w|ex];
    destruct (mapM (entry_at (with_uv_index uvs h)) l) as [w'|ex'];
    simpl; try contradiction; [|assumption].
  constructor; [|assumption]. unfold same_but_uv. simpl. auto 8.
Qed.

Lemma same_but_uv_maps (w w' : list Entry.t) :
  Forall2 same_but_uv w w' ->
  map Entry.temp_c w = map Entry.temp_c w' /\
  map Entry.precip_mm w = map Entry.precip_mm w' /\
  map Entry.pop w = map Entry.pop w' /\
  map Entry.wind_mph w = map Entry.wind_mph w'.
Proof.
  induction 1 as [|x x' w w' (_ & E1 & E2 & E3 & E4 & _) _ (I1 & I2 & I3 & I4)];
    simpl; [auto|].
  rewrite E1, E2, E3, E4, I1, I2, I3, I4. auto.
Qed.

Lemma same_but_uv_scores (w w' : list Entry.t) (lat lon : Q)
    (s e unit event_type : string) (a : Advice.t) :
  Forall2 same_but_uv w w' ->
  score_window w lat lon s e unit event_type = Ok a ->
  exists a',
    score_window w' lat lon s e unit event_type = Ok a' /\
    Advice.favorable a' = Advice.favorable a /\
    Advice.precip (Advice.the_risks a') = Advice.precip (Advice.the_risks a) /\
    Advice.wind (Advice.the_risks a') = Advice.wind (Advice.the_risks a) /\
    Advice.temperature (Advice.the_risks a')
    = Advice.temperature (Advice.the_risks a).
Proof.
  intros Hw Hs. destruct (same_but_uv_maps Hw) as (E1 & E2 & E3 & E4).
  assert (Ep : max_precip_of w' = max_precip_of w)
    by (unfold max_precip_of; now rewrite E2).
  assert (Eo : max_pop_of w' = max_pop_of w)
    by (unfold max_pop_of; now rewrite E3).
  assert (Ei : max_wind_of w' = max_wind_of w)
    by (unfold max_wind_of; now rewrite E4).
  assert (Et : avg_temp_c_of w' = avg_temp_c_of w)
    by (unfold avg_temp_c_of; now rewrite E1).
  destruct (score_window_Ok _ _ _ _ _ _ _ Hs) as (m & Hm & Hr & Hf).
  destruct (score_window w' lat lon s e unit event_type) as [a'|ex] eqn:Hs'.
  - exists a'. split; [reflexivity|].
    destruct (score_window_Ok _ _ _ _ _ _ _ Hs') as (m' & Hm' & Hr' & Hf').
    rewrite Ep, Hm in Hm'. injection Hm' as <-.
    rewrite Hr, Hr', Hf, Hf', Eo, Ei, Et. simpl. auto.
  - apply score_window_Raise in Hs'. congruence.
Qed.

(** C6. The verdict of an advice is favorable exactly when the
    precipitation risk is low, the wind risk is low and the temperature
    risk is not high; the UV indices of the forecast have no part in it.
    A window with a largest probability of 70, no precipitation, 5 mph of
    wind and an average of 20 degrees, for a wedding, has a high
    precipitation risk, low wind and temperature risks and is not
    favorable. *)
Theorem favorable_verdict :
  (forall fetched lat lon s e unit event_type a status,
      get_event_advice fetched lat lon s e unit event_type
      = (AdviceBody a, status) ->
      (Advice.favorable a = true <-> favorable_spec a)) /\
  (forall h uvs lat lon s e unit event_type a status,
      get_event_advice (Ok h) lat lon s e unit event_type
      = (AdviceBody a, status) ->
      exists a',
        get_event_advice (Ok (with_uv_index uvs h)) lat lon s e unit event_type
        = (AdviceBody a', status) /\
        Advice.favorable a' = Advice.favorable a) /\
  (forall window lat lon s e unit a p m t,
      max_pop_of window = Some p -> p == 70 ->
      max_precip_of window = Ok m -> m == 0 ->
      max_wind_of window == 5 ->
      avg_temp_c_of window = Some t -> t == 20 ->
      score_window window lat lon s e unit "wedding" = Ok a ->
      Advice.the_risks a
      = Advice.mk_risks high low low (Advice.uv (Advice.the_risks a)) /\
      Advice.favorable a = false) /\
  (get_event_advice (Ok wedding_forecast) 40.7 (-74) "2025-06-14T14:00"
     "2025-06-14T18:00" "celsius" "wedding" = (AdviceBody wedding_advice, 200%Z)
   /\ Advice.the_risks wedding_advice = Advice.mk_risks high low low low
   /\ Advice.favorable wedding_advice = false
   /\ Advice.max_pop_percent (Advice.the_metrics wedding_advice) = Some 70
   /\ Advice.max_precip_mm (Advice.the_metrics wedding_advice) == 0
   /\ Advice.max_wind_mph (Advice.the_metrics wedding_advice) == 5
   /\ (exists t, Advice.avg_temp (Advice.the_metrics wedding_advice) = Some t
                 /\ t == 20)).
Proof.
  split; [|split; [|split]].
  - intros fetched lat lon s e unit event_type a status H.
    apply get_event_advice_advice in H.
    destruct H as (h & window & _ & _ & _ & Hs & _).
    apply score_window_Ok in Hs. destruct Hs as (m & _ & Hr & Hf).
    unfold favorable_spec. rewrite Hr, Hf. apply favorable_of_spec.
  - intros h uvs lat lon s e unit event_type a status H.
    apply get_event_advice_advice in H.
    destruct H as (h' & window & Eh & Hw & Hne & Hs & ->).
    injection Eh as <-.
    pose proof (mapM_same_but_uv h uvs
                  (filter (fun it => in_window s e (snd it))
                          (enumerate (OpenMeteo.time h)))) as Hm.
    fold (build_window h s e) in Hm. rewrite Hw in Hm.
    destruct (mapM (entry_at (with_uv_index uvs h)) _) as [w'|] eqn:Ew';
      [|contradiction].
    destruct (same_but_uv_scores lat lon s e unit event_type Hm Hs)
      as (a' & Hs' & Hf & _).
    exists a'. split; [|exact Hf].
    unfold get_event_advice, event_advice_body, build_window. simpl.
    rewrite Ew'. simpl. rewrite Hs'.
    destruct w' as [|x' w']; [|reflexivity].
    inversion Hm; subst. congruence.
  - intros window lat lon s e unit a p m t Hp Ep Hm Em Ew Ht Et Hs.
    apply score_window_Ok in Hs. destruct Hs as (m' & Hm' & Hr & Hf).
    rewrite Hm in Hm'. injection Hm' as <-.
    assert (R1 : precip_risk_of (max_pop_of window) m = high).
    { apply precip_risk_of_bands. left. exists p. split; [exact Hp|lra]. }
    assert (R2 : wind_risk_of (max_wind_of window) = low).
    { apply wind_risk_of_bands. lra. }
    assert (R3 : temp_risk_of (avg_temp_c_of window) "wedding" = low).
    { rewrite Ht. apply (temp_risk_of_bands t "wedding").
      change (comfort_range "wedding") with (12, 30). simpl. lra. }
    rewrite Hf, Hr, R1, R2, R3. auto.
  - repeat split; try (vm_compute; reflexivity).
    eexists. split; [vm_compute; reflexivity|]. vm_compute. reflexivity.
Qed.

(** ** Statuses *)

Lemma event_advice_body_Raise (fetched : result OpenMeteo.hourly) (lat lon : Q)
    (s e unit event_type : string) (ex : exn) :
  event_advice_body fetched lat lon s e unit event_type = Raise ex ->
  fetched = Raise ex \/ exists h, fetched = Ok h /\ unreadable_sample h s e.
Proof.
  unfold event_advice_body.
  destruct fetched as [h|ex0]; simpl; [|intros H; left; congruence].
  intros H. right. exists h. split; [reflexivity|].
  destruct (build_window h s e) as [window|ex1] eqn:Ew; simpl in H.
  - destruct window as [|x0 window]; [discriminate|].
    destruct (score_window _ _ _ _ _ _ _) as [a|ex2] eqn:Es; simpl in H;
      [discriminate|].
    apply score_window_Raise, max_precip_of_Raise in Es.
    destruct Es as (x & Hx & Hp).
    destruct (@build_window_In _ _ _ _ _ Ew Hx) as (i & t & Hi & Hw & He).
    apply entry_at_Ok in He. destruct He as (_ & Hpi & _).
    exists i, t. repeat split; try assumption. right.
    simpl in Hpi. congruence.
  - unfold build_window in Ew. apply mapM_Raise_In in Ew.
    destruct Ew as ([i t] & Hit & He).
    apply filter_In in Hit. destruct Hit as [Hit Hw].
    apply In_enumerate in Hit. apply entry_at_Raise in He.
    exists i, t. repeat split; try assumption. now left.
Qed.

(** C7. When no timestamp of the forecast lies in the window from [s] to
    [e] (both ends included), the answer is the no-data message with status
    200. Status 500 comes with the failure message only, and only when the
    forecast could not be read: the fetch or its decoding raised, or a
    sample of the window is null where a number is needed. No other status
    is ever returned. *)
Theorem empty_window_is_no_data :
  (forall h lat lon s e unit event_type,
      (forall t, In t (OpenMeteo.time h) -> in_window s e t = false) ->
      get_event_advice (Ok h) lat lon s e unit event_type
      = (ErrorBody "No forecast data for the selected window", 200%Z)) /\
  (forall fetched lat lon s e unit event_type body,
      get_event_advice fetched lat lon s e unit event_type = (body, 500%Z) ->
      body = ErrorBody "Failed to compute event advice" /\
      ((exists ex, fetched = Raise ex) \/
       (exists h, fetched = Ok h /\ unreadable_sample h s e))) /\
  (forall fetched lat lon s e unit event_type,
      snd (get_event_advice fetched lat lon s e unit event_type) = 200%Z \/
      snd (get_event_advice fetched lat lon s e unit event_type) = 500%Z).
Proof.
  split; [|split].
  - intros h lat lon s e unit event_type H.
    unfold get_event_advice, event_advice_body. simpl.
    now rewrite (@build_window_empty h s e H).
  - intros fetched lat lon s e unit event_type body.
    unfold get_event_advice.
    destruct (event_advice_body _ _ _ _ _ _ _) as [[b st]|ex] eqn:E.
    + intros H. injection H as -> ->. exfalso.
      unfold event_advice_body in E.
      destruct fetched as [h|]; simpl in E; [|discriminate].
      destruct (build_window h s e) as [[|x w]|]; simpl in E;
        try discriminate.
      destruct (score_window _ _ _ _ _ _ _); simpl in E; discriminate.
    + intros H. injection H as <-. split; [reflexivity|].
      apply event_advice_body_Raise in E.
      destruct E as [E|E]; [left; now exists ex | now right].
  - intros fetched lat lon s e unit event_type.
    unfold get_event_advice.
    destruct (event_advice_body _ _ _ _ _ _ _) as [[b st]|ex] eqn:E;
      [|now right].
    left. unfold event_advice_body in E.
    destruct fetched as [h|]; simpl in E; [|discriminate].
    destruct (build_window h s e) as [[|x w]|]; simpl in E;
      try discriminate.
    + now injection E as <- <-.
    + destruct (score_window _ _ _ _ _ _ _); simpl in E; [|discriminate].
      now injection E as <- <-.
Qed.

(** ** The hourly builder *)

Lemma relabel_last_snoc (rows : list Row.t) (r : Row.t) :
  relabel_last (rows ++ [r]) = rows ++ [Row.set_time "Now" r].
Proof.
  induction rows as [|r0 rows IH]; [reflexivity|].
  change ((r0 :: rows) ++ [r]) with (r0 :: (rows ++ [r])).
  simpl. rewrite IH. destruct rows; reflexivity.
Qed.

Lemma relabel_last_nonempty (rows : list Row.t) :
  relabel_last rows <> [] ->
  exists init r, relabel_last rows = init ++ [r] /\ Row.time r = "Now".
Proof.
  destruct (rev rows) as [|r rest] eqn:E.
  - apply (f_equal (@rev _)) in E. rewrite rev_involutive in E. subst rows.
    simpl. congruence.
  - apply (f_equal (@rev _)) in E. rewrite rev_involutive in E. simpl in E.
    subst rows. intros _. rewrite relabel_last_snoc.
    exists (rev rest), (Row.set_time "Now" r). auto.
Qed.

(** C8. Whatever the label function makes of the time keys, a non-empty
    list returned by the hourly builder ends in a record whose time is
    "Now". *)
Theorem last_hourly_record_is_now (hour_label : string -> string)
    (data : power_response) (hours : Z) (rows : list Row.t) :
  get_power_hourly hour_label data hours = Ok rows -> rows <> [] ->
  exists init r, rows = init ++ [r] /\ Row.time r = "Now".
Proof.
  unfold get_power_hourly. destruct data as [|p].
  - intros H. injection H as <-. congruence.
  - destruct (build_rows hour_label p _) as [all|]; simpl; [|discriminate].
    intros H. injection H as <-. apply relabel_last_nonempty.
Qed.

(** The builder on the sample answer: five records, the last one "Now". *)
Lemma last_hourly_record_is_now_witness :
  exists init r, sample_rows = init ++ [r] /\ Row.time r = "Now".
Proof.
  apply (@last_hourly_record_is_now sample_label sample_power 24 sample_rows).
  - vm_compute. reflexivity.
  - vm_compute. discriminate.
Defined.

Example sample_rows_times :
  map Row.time sample_rows = ["00"; "01"; "02"; "00"; "Now"] /\
  map Row.temp sample_rows = [41; 44; 45; 39; 37]%Z /\
  map Row.description sample_rows
  = ["Cloudy"; "Light Rain"; "Rainy"; "Clear"; "Clear"].
Proof. vm_compute. auto. Qed.

(** ** Strings and dictionaries *)

Lemma length_append (a b : string) :
  String.length (a ++ b)%string = (String.length a + String.length b)%nat.
Proof. induction a as [|c a IH]; simpl; [reflexivity | now rewrite IH]. Qed.

Lemma append_suffix_inj (a1 a2 b1 b2 : string) :
  String.length b1 = String.length b2 ->
  (a1 ++ b1 = a2 ++ b2)%string -> a1 = a2 /\ b1 = b2.
Proof.
  revert a2. induction a1 as [|c a1 IH]; intros [|c2 a2] Hl H; simpl in H.
  - auto.
  - exfalso. subst b1. simpl in Hl. rewrite length_append in Hl. lia.
  - exfalso. subst b2. simpl in Hl. rewrite length_append in Hl. lia.
  - injection H as -> H. destruct (IH a2 Hl H) as [-> ->]. auto.
Qed.

Lemma fmt_02d_length (i : nat) :
  (i < 100)%nat -> String.length (fmt_02d i) = 2%nat.
Proof.
  intros H.
  assert (C : forallb (fun i => String.length (fmt_02d i) =? 2)%nat
                      (seq 0 100) = true) by (vm_compute; reflexivity).
  rewrite forallb_forall in C. apply Nat.eqb_eq, C, in_seq. lia.
Qed.

Lemma read_fmt_02d (i : nat) : (i < 100)%nat -> read_decimal (fmt_02d i) = i.
Proof.
  intros H.
  assert (C : forallb (fun i => read_decimal (fmt_02d i) =? i)%nat
                      (seq 0 100) = true) by (vm_compute; reflexivity).
  rewrite forallb_forall in C. apply Nat.eqb_eq, C, in_seq. lia.
Qed.

Lemma fmt_02d_inj (i j : nat) :
  (i < 100)%nat -> (j < 100)%nat -> fmt_02d i = fmt_02d j -> i = j.
Proof.
  intros Hi Hj E. rewrite <- (read_fmt_02d Hi), <- (read_fmt_02d Hj).
  now rewrite E.
Qed.

Lemma day_hour_key_inj (d1 d2 : string) (i j : nat) :
  (i < 100)%nat -> (j < 100)%nat ->
  (d1 ++ fmt_02d i = d2 ++ fmt_02d j)%string -> d1 = d2 /\ i = j.
Proof.
  intros Hi Hj E. apply append_suffix_inj in E.
  - destruct E as [-> E]. split; [reflexivity|]. now apply fmt_02d_inj.
  - now rewrite !fmt_02d_length.
Qed.

Section Dict.

Context {V : Type}.

Lemma dict_get_set_same (k : string) (v : V) (d : dict V) :
  dict_get k (dict_set k v d) = Some v.
Proof.
  induction d as [|[k' v'] d IH]; simpl.
  - now rewrite String.eqb_refl.
  - destruct (String.eqb k' k) eqn:E; simpl; rewrite E; auto.
Qed.

Lemma dict_get_set_other (k k' : string) (v : V) (d : dict V) :
  k <> k' -> dict_get k (dict_set k' v d) = dict_get k d.
Proof.
  intros Hne. induction d as [|[k0 v0] d IH]; simpl.
  - destruct (String.eqb k' k) eqn:E; [|reflexivity].
    apply String.eqb_eq in E. congruence.
  - destruct (String.eqb k0 k') eqn:E; simpl.
    + apply String.eqb_eq in E. subst k0.
      destruct (String.eqb k' k) eqn:E'; [|reflexivity].
      apply String.eqb_eq in E'. congruence.
    + now rewrite IH.
Qed.

Lemma dict_set_same (k : string) (v : V) (d : dict V) :
  dict_get k d = Some v -> dict_set k v d = d.
Proof.
  induction d as [|[k' v'] d IH]; simpl; [discriminate|].
  destruct (String.eqb k' k); intros H.
  - now injection H as ->.
  - now rewrite IH.
Qed.

Lemma dict_set_fresh (k : string) (v : V) (d : dict V) :
  ~ In k (keys d) -> dict_set k v d = d ++ [(k, v)].
Proof.
  induction d as [|[k' v'] d IH]; simpl; intros H; [reflexivity|].
  destruct (String.eqb k' k) eqn:E.
  - apply String.eqb_eq in E. tauto.
  - rewrite IH; tauto.
Qed.

Lemma In_dict_set (k : string) (v : V) (d : dict V) (kv : string * V) :
  In kv (dict_set k v d) -> kv = (k, v) \/ In kv d.
Proof.
  induction d as [|[k' v'] d IH]; simpl.
  - intros [<-|[]]. now left.
  - destruct (String.eqb k' k) eqn:E; simpl.
    + apply String.eqb_eq in E. subst k'. intros [<-|H]; auto.
    + intros [<-|H]; auto. destruct (IH H); auto.
Qed.

Lemma fold_dict_set_fresh (kvs out : dict V) :
  NoDup (keys (out ++ kvs)) ->
  fold_left (fun o kv => dict_set (fst kv) (snd kv) o) kvs out = out ++ kvs.
Proof.
  revert out. induction kvs as [|[k v] kvs IH]; intros out H; simpl.
  - now rewrite app_nil_r.
  - rewrite dict_set_fresh.
    + rewrite IH; rewrite <- app_assoc; [reflexivity | exact H].
    + unfold keys in H. rewrite map_app in H. simpl in H.
      apply NoDup_remove_2 in H. intros Hin. apply H.
      apply in_or_app. now left.
Qed.

Lemma In_fold_dict_set (kvs out : dict V) (kv : string * V) :
  In kv (fold_left (fun o kv => dict_set (fst kv) (snd kv) o) kvs out) ->
  In kv out \/ In kv kvs.
Proof.
  revert out. induction kvs as [|[k v] kvs IH]; intros out H; simpl in *.
  - now left.
  - destruct (IH _ H) as [H'|H']; [|now right; right].
    destruct (In_dict_set _ _ _ _ H') as [->|H'']; auto.
Qed.

End Dict.

Lemma fold_left_map {A B C : Type} (f : A -> B -> A) (g : C -> B)
    (l : list C) (a : A) :
  fold_left f (map g l) a = fold_left (fun a x => f a (g x)) l a.
Proof. revert a. induction l as [|x l IH]; intros a; simpl; auto. Qed.

Lemma expand_day_fold (day_key : string) (vals : list value)
    (out : dict value) :
  expand_day day_key vals out
  = fold_left (fun o kv => dict_set (fst kv) (snd kv) o)
              (day_entries day_key vals) out.
Proof. unfold expand_day, day_entries. now rewrite fold_left_map. Qed.

(** ** The flattener *)

Lemma In_day_entries (day_key : string) (vals : list value)
    (kv : string * value) :
  In kv (day_entries day_key vals)
  <-> exists i, nth_error vals i = Some (snd kv)
                /\ fst kv = (day_key ++ fmt_02d i)%string.
Proof.
  unfold day_entries. rewrite in_map_iff. split.
  - intros ([i v] & <- & H). apply In_enumerate in H. exists i. auto.
  - intros (i & H & E). exists (i, snd kv). split.
    + destruct kv as [k v]. simpl in *. now subst k.
    + now apply In_enumerate.
Qed.

Lemma In_expansion (d : dict value) (kv : string * value) :
  In kv (expansion d)
  <-> exists day l i, In (day, Seq l) d /\ nth_error l i = Some (snd kv)
                      /\ fst kv = (day ++ fmt_02d i)%string.
Proof.
  unfold expansion. rewrite in_flat_map. split.
  - intros ([day [s|l]] & Hd & H); simpl in H; [destruct H|].
    apply In_day_entries in H. destruct H as (i & H1 & H2).
    exists day, l, i. auto.
  - intros (day & l & i & Hd & H1 & H2). exists (day, Seq l).
    split; [exact Hd|]. simpl. apply In_day_entries. exists i. auto.
Qed.

Lemma In_flatten_fold (d out : dict value) (kv : string * value) :
  In kv (fold_left flatten_day d out) -> In kv out \/ In kv (expansion d).
Proof.
  revert out. induction d as [|[day [s|l]] d IH]; intros out H; simpl in *.
  - now left.
  - apply IH in H. exact H.
  - apply IH in H. destruct H as [H|H].
    + unfold flatten_day in H. simpl in H. rewrite expand_day_fold in H.
      apply In_fold_dict_set in H. destruct H as [H|H]; [now left|].
      right. apply in_or_app. now left.
    + right. apply in_or_app. now right.
Qed.

Lemma flatten_fold_fresh (d out : dict value) :
  NoDup (keys (out ++ expansion d)) ->
  fold_left flatten_day d out = out ++ expansion d.
Proof.
  revert out. induction d as [|[day [s|l]] d IH]; intros out H; simpl in *.
  - now rewrite app_nil_r.
  - now apply IH.
  - unfold flatten_day at 2. simpl. rewrite expand_day_fold.
    rewrite app_assoc in H. rewrite fold_dict_set_fresh.
    + rewrite IH; [now rewrite <- app_assoc | exact H].
    + unfold keys in *. rewrite map_app in H. now apply NoDup_app_remove_r in H.
Qed.

Lemma flatten_fold_filter (d out : dict value) :
  fold_left flatten_day (filter (fun kv => isinstance_list (snd kv)) d) out
  = fold_left flatten_day d out.
Proof.
  revert out. induction d as [|[day [s|l]] d IH]; intros out; simpl; auto.
Qed.

Lemma NoDup_day_keys (day_key : string) (vals : list value) :
  (length vals <= 100)%nat -> NoDup (keys (day_entries day_key vals)).
Proof.
  intros Hl. unfold keys, day_entries, enumerate. rewrite map_map. simpl.
  assert (G : forall n l, (n + length l <= 100)%nat ->
              NoDup (map (fun iv : nat * value =>
                            (day_key ++ fmt_02d (fst iv))%string)
                         (combine (seq n (length l)) l))).
  { clear. intros n l. revert n.
    induction l as [|v l IH]; intros n H; simpl; constructor.
    - rewrite in_map_iff. intros ([j w] & E & Hj). simpl in *.
      apply in_combine_l, in_seq in Hj.
      apply day_hour_key_inj in E; lia.
    - apply IH. simpl in H. lia. }
  apply (G 0%nat vals). simpl. exact Hl.
Qed.

Lemma NoDup_expansion (d : dict value) :
  NoDup (keys d) ->
  (forall k l, In (k, Seq l) d -> (length l <= 100)%nat) ->
  NoDup (keys (expansion d)).
Proof.
  induction d as [|[day [s|l]] d IH]; simpl; intros Hk Hl.
  - constructor.
  - apply IH; [now inversion Hk | intros k l H; apply (Hl k l); now right].
  - unfold keys. rewrite map_app. inversion Hk as [|? ? Hday Hk']; subst.
    assert (Hlen : (length l <= 100)%nat) by (apply (Hl day l); now left).
    apply NoDup_app.
    + now apply NoDup_day_keys.
    + apply IH; [exact Hk' | intros k l' H; apply (Hl k l'); now right].
    + intros k H1 H2.
      apply in_map_iff in H1. destruct H1 as (kv1 & <- & H1).
      apply in_map_iff in H2. destruct H2 as (kv2 & E & H2).
      apply In_day_entries in H1. destruct H1 as (i & Hi & E1).
      apply In_expansion in H2. destruct H2 as (day' & l' & j & Hd & Hj & E2).
      assert (Hi' : (i < 100)%nat).
      { assert ((i < length l)%nat) by (apply nth_error_Some; congruence).
        lia. }
      assert (Hj' : (j < 100)%nat).
      { assert ((j < length l')%nat) by (apply nth_error_Some; congruence).
        assert ((length l' <= 100)%nat) by (apply (Hl day' l'); now right).
        lia. }
      rewrite E1, E2 in E. apply day_hour_key_inj in E; try assumption.
      destruct E as [-> _]. apply Hday.
      apply in_map_iff. exists (day, Seq l'). auto.
Qed.

(** C3. On a mapping whose values are all sequences of 24 elements the
    flattener returns 24 entries per input key, under pairwise distinct
    keys, and its entries are exactly the hourly values under the day key
    followed by the two-digit hour, 00 to 23; a mapping of plain scalars
    comes back unchanged, and the empty mapping gives the empty mapping. *)
Theorem flatten_hourly_series_shapes :
  (forall d : dict value,
      NoDup (keys d) ->
      (forall k v, In (k, v) d -> exists l, v = Seq l /\ length l = 24%nat) ->
      length (_flatten_hourly_series d) = (24 * length d)%nat /\
      NoDup (keys (_flatten_hourly_series d)) /\
      (forall k' v',
          In (k', v') (_flatten_hourly_series d)
          <-> exists day l hour,
                In (day, Seq l) d /\ (hour < 24)%nat /\
                nth_error l hour = Some v' /\
                k' = (day ++ fmt_02d hour)%string)) /\
  (forall d : dict value,
      (forall k v, In (k, v) d -> exists s, v = Scalar s) ->
      _flatten_hourly_series d = d) /\
  _flatten_hourly_series [] = [] /\
  map fmt_02d (seq 0 24)
  = ["00"; "01"; "02"; "03"; "04"; "05"; "06"; "07"; "08"; "09"; "10"; "11";
     "12"; "13"; "14"; "15"; "16"; "17"; "18"; "19"; "20"; "21"; "22"; "23"].
Proof.
  split; [|split; [|split; reflexivity]].
  - intros d Hk Hv.
    assert (Hl : forall k l, In (k, Seq l) d -> length l = 24%nat).
    { intros k l H. destruct (Hv k _ H) as (l' & E & Hl).
      now injection E as ->. }
    assert (E : _flatten_hourly_series d = expansion d).
    { destruct d as [|[k0 v0] d']; [reflexivity|].
      destruct (Hv k0 v0) as (l0 & -> & _); [now left|].
      unfold _flatten_hourly_series. cbn [isinstance_list].
      rewrite flatten_fold_fresh; [reflexivity|].
      apply NoDup_expansion; [exact Hk|].
      intros k l H. rewrite (Hl k l H). lia. }
    rewrite E. split; [|split].
    + unfold expansion. rewrite Nat.mul_comm.
      apply flat_map_constant_length. intros [k v] H.
      destruct (Hv k v H) as (l & -> & Hlen). simpl.
      unfold day_entries, enumerate.
      rewrite length_map, length_combine, length_seq, Hlen. reflexivity.
    + apply NoDup_expansion; [exact Hk|].
      intros k l H. rewrite (Hl k l H). lia.
    + intros k' v'. rewrite In_expansion. simpl. split.
      * intros (day & l & i & Hd & Hi & ->). exists day, l, i.
        repeat split; try assumption.
        rewrite <- (Hl day l Hd). apply nth_error_Some. congruence.
      * intros (day & l & i & Hd & _ & Hi & ->). exists day, l, i. auto.
  - intros d Hv. destruct d as [|[k0 v0] d']; [reflexivity|].
    destruct (Hv k0 v0) as (s & ->); [now left|]. reflexivity.
Qed.

Example flatten_full_days :
  length (_flatten_hourly_series
            [("20250101", Seq (repeat (Scalar (SNum 1)) 24));
             ("20250102", Seq (repeat (Scalar SNone) 24))]) = 48%nat.
Proof. reflexivity. Qed.

Example flatten_two_days :
  keys (_flatten_hourly_series
          [("20250101", Seq [Scalar (SNum 1); Scalar (SNum 2)]);
           ("20250102", Seq [Scalar (SNum 3); Scalar SNone])])
  = ["2025010100"; "2025010101"; "2025010200"; "2025010201"].
Proof. reflexivity. Qed.

(** C10. When the first value of a non-empty mapping is a sequence, the
    flattener leaves every entry whose value is not a sequence out: its
    result is the one for the mapping without these entries, every entry
    of the result is an element of some sequence under the key of its day
    and its position, and the key of a scalar entry is not in the result
    (unless it happens to be such a synthetic key). *)
Theorem flatten_mixed_drops_scalars (k0 : string) (l0 : list value)
    (rest : dict value) :
  _flatten_hourly_series ((k0, Seq l0) :: rest)
  = _flatten_hourly_series
      (filter (fun kv => isinstance_list (snd kv)) ((k0, Seq l0) :: rest)) /\
  (forall k' v',
      In (k', v') (_flatten_hourly_series ((k0, Seq l0) :: rest)) ->
      exists day l i,
        In (day, Seq l) ((k0, Seq l0) :: rest) /\
        nth_error l i = Some v' /\ k' = (day ++ fmt_02d i)%string) /\
  (forall k s,
      In (k, Scalar s) rest ->
      (forall day l i,
          In (day, Seq l) ((k0, Seq l0) :: rest) -> (i < length l)%nat ->
          k <> (day ++ fmt_02d i)%string) ->
      ~ In k (keys (_flatten_hourly_series ((k0, Seq l0) :: rest)))) /\
  _flatten_hourly_series mixed_series
  = [("2025010100", Scalar (SNum 1)); ("2025010101", Scalar (SNum 2));
     ("2025010200", Scalar (SNum 3))].
Proof.
  assert (Hin : forall kv,
             In kv (_flatten_hourly_series ((k0, Seq l0) :: rest)) ->
             exists day l i,
               In (day, Seq l) ((k0, Seq l0) :: rest) /\
               nth_error l i = Some (snd kv)
               /\ fst kv = (day ++ fmt_02d i)%string).
  { intros kv H. unfold _flatten_hourly_series in H. cbn [isinstance_list] in H.
    apply In_flatten_fold in H. destruct H as [[]|H].
    now apply In_expansion in H. }
  split; [|split; [|split; [|reflexivity]]].
  - cbn [filter snd isinstance_list].
    unfold _flatten_hourly_series. cbn [isinstance_list].
    change ((k0, Seq l0)
            :: filter (fun kv => isinstance_list (snd kv)) rest)
      with (filter (fun kv : string * value => isinstance_list (snd kv))
                   ((k0, Seq l0) :: rest)).
    now rewrite flatten_fold_filter.
  - intros k' v' H. apply (Hin (k', v') H).
  - intros k s _ Hfresh H. apply in_map_iff in H.
    destruct H as (kv & <- & H). destruct (Hin kv H) as (day & l & i & Hd & Hi & E).
    apply (Hfresh day l i Hd); [|exact E].
    apply nth_error_Some. congruence.
Qed.

(** ** The response shaper *)

Lemma py_round_inject_Z (q : Q) (n : Z) : q == inject_Z n -> py_round q = n.
Proof.
  intros H. unfold py_round.
  assert (Hf : Qfloor q = n) by (rewrite (Qfloor_comp _ _ H); apply Qfloor_Z).
  rewrite Hf.
  destruct (Qcompare (q - inject_Z n) (1 # 2)) eqn:E.
  - apply Qeq_alt in E. exfalso. lra.
  - reflexivity.
  - apply Qgt_alt in E. exfalso. lra.
Qed.

Lemma py_round1_idempotent (x : Q) : py_round1 (py_round1 x) = py_round1 x.
Proof.
  unfold py_round1 at 1 3. f_equal. f_equal.
  apply py_round_inject_Z. unfold py_round1. field.
Qed.

Lemma convert_key_settles (o o' : obj) (k : string) :
  convert_key false o k = Ok o' -> settled k o'.
Proof.
  unfold convert_key, settled.
  destruct (dict_get k o) as [[|t|s]|] eqn:E; simpl; intros H;
    try discriminate; injection H as <-.
  - now rewrite E.
  - rewrite dict_get_set_same. apply py_round1_idempotent.
  - now rewrite E.
Qed.

Lemma convert_key_keeps (o o' : obj) (k k' : string) :
  convert_key false o k' = Ok o' -> settled k o -> settled k o'.
Proof.
  intros H. destruct (string_dec k k') as [->|Hne].
  - intros _. eapply convert_key_settles; eassumption.
  - unfold convert_key in H. unfold settled.
    destruct (dict_get k' o) as [[|t|s]|]; simpl in H;
      try discriminate; injection H as <-; auto.
    now rewrite dict_get_set_other.
Qed.

Lemma settled_fixed (o : obj) (k : string) :
  settled k o -> convert_key false o k = Ok o.
Proof.
  unfold settled, convert_key.
  destruct (dict_get k o) as [[|t|s]|] eqn:E; simpl; intros H;
    try reflexivity; [|destruct H].
  rewrite H. erewrite dict_set_same; [reflexivity | exact E].
Qed.

Lemma convert_keys_settles (ks : list string) (o o' : obj) :
  convert_keys false ks o = Ok o' ->
  (forall k, settled k o -> settled k o') /\
  (forall k, In k ks -> settled k o').
Proof.
  revert o. induction ks as [|k0 ks IH]; simpl; intros o H.
  - injection H as <-. split; [auto | intros k []].
  - destruct (convert_key false o k0) as [o1|] eqn:E; simpl in H;
      [|discriminate].
    destruct (IH _ H) as [Hkeep Hin]. split.
    + intros k Hk. apply Hkeep. eapply convert_key_keeps; eassumption.
    + intros k [<-|Hk]; [|now apply Hin].
      apply Hkeep. eapply convert_key_settles; eassumption.
Qed.

Lemma convert_keys_fixed (ks : list string) (o : obj) :
  (forall k, In k ks -> settled k o) -> convert_keys false ks o = Ok o.
Proof.
  induction ks as [|k0 ks IH]; simpl; intros H; [reflexivity|].
  rewrite settled_fixed by (apply H; now left). simpl.
  apply IH. intros k Hk. apply H. now right.
Qed.

Lemma convert_keys_idempotent (ks : list string) (o o' : obj) :
  convert_keys false ks o = Ok o' -> convert_keys false ks o' = Ok o'.
Proof.
  intros H. apply convert_keys_fixed. eapply convert_keys_settles; eassumption.
Qed.

Lemma mapM_idempotent {A : Type} (f : A -> result A) (l l' : list A) :
  (forall a a', f a = Ok a' -> f a' = Ok a') ->
  mapM f l = Ok l' -> mapM f l' = Ok l'.
Proof.
  intros Hf. revert l'. induction l as [|a l IH]; simpl; intros l' H.
  - now injection H as <-.
  - destruct (f a) as [a'|] eqn:Ea; simpl in H; [|discriminate].
    destruct (mapM f l) as [l1|] eqn:El; simpl in H; [|discriminate].
    injection H as <-. simpl. rewrite (Hf a a' Ea). simpl.
    now rewrite (IH l1 eq_refl).
Qed.

Lemma on_opt_idempotent {A : Type} (f : A -> result A) (o o' : option A) :
  (forall a a', f a = Ok a' -> f a' = Ok a') ->
  on_opt f o = Ok o' -> on_opt f o' = Ok o'.
Proof.
  intros Hf. destruct o as [a|]; simpl; intros H.
  - destruct (f a) as [a'|] eqn:Ea; simpl in H; [|discriminate].
    injection H as <-. simpl. now rewrite (Hf a a' Ea).
  - now injection H as <-.
Qed.

(** C2, as amended. For a target unit that is not celsius (in any case of
    the letters), a response the shaper has returned is returned unchanged
    by a second application with the same unit: every temperature field
    keeps the value the first application gave it. *)
Theorem shaper_idempotent_unless_celsius (data once : Response.t)
    (unit : string) :
  String.eqb (lower unit) "celsius" = false ->
  format_weather_response data unit = Ok once ->
  format_weather_response once unit = Ok once.
Proof.
  intros Hu. unfold format_weather_response. rewrite Hu.
  set (fc := convert_keys false
               ["temp"; "feelsLike"; "dewPoint"; "high"; "low"]).
  set (fh := mapM (convert_keys false ["temp"; "feelsLike"; "dewPoint"])).
  set (ff := mapM (convert_keys false ["high"; "low"])).
  assert (Ic : forall a a', fc a = Ok a' -> fc a' = Ok a')
    by (intros a a'; apply convert_keys_idempotent).
  assert (Ih : forall a a', fh a = Ok a' -> fh a' = Ok a')
    by (intros a a'; apply mapM_idempotent;
        intros o o'; apply convert_keys_idempotent).
  assert (If : forall a a', ff a = Ok a' -> ff a' = Ok a')
    by (intros a a'; apply mapM_idempotent;
        intros o o'; apply convert_keys_idempotent).
  clearbody fc fh ff.
  destruct (on_opt fc (Response.current data)) as [c|] eqn:Ec;
    cbn [bind]; [|discriminate].
  destruct (on_opt fh (Response.hourly data)) as [h|] eqn:Eh;
    cbn [bind]; [|discriminate].
  destruct (on_opt ff (Response.forecast data)) as [f|] eqn:Ef;
    cbn [bind]; [|discriminate].
  intros H. injection H as <-.
  cbn [Response.current Response.hourly Response.forecast Response.others].
  rewrite (on_opt_idempotent fc _ Ic Ec). cbn [bind].
  rewrite (on_opt_idempotent fh _ Ih Eh). cbn [bind].
  rewrite (on_opt_idempotent ff _ If Ef). reflexivity.
Qed.

(** The sample response shaped twice for Fahrenheit. *)
Lemma shaper_idempotent_unless_celsius_witness :
  format_weather_response sample_fahrenheit "Fahrenheit" = Ok sample_fahrenheit.
Proof.
  apply (@shaper_idempotent_unless_celsius sample_response sample_fahrenheit
           "Fahrenheit").
  - reflexivity.
  - vm_compute. reflexivity.
Defined.

(** C2, the claim as stated, fails for celsius: shaping the sample response
    gives 20.0 for the current temperature of 68, and shaping the result
    again gives -6.7, which is 26.7 degrees away. *)
Lemma shaper_celsius_not_idempotent :
  exists once twice t1 t2,
    format_weather_response sample_response "celsius" = Ok once /\
    format_weather_response once "celsius" = Ok twice /\
    current_temp sample_response = Some (SNum 68) /\
    current_temp once = Some (SNum t1) /\ t1 == 20 /\
    current_temp twice = Some (SNum t2) /\ t2 == -6.7 /\
    ~ Qabs (t2 - t1) <= 1.
Proof.
  eexists. eexists. eexists. eexists.
  split; [vm_compute; reflexivity|].
  split; [vm_compute; reflexivity|].
  split; [reflexivity|].
  split; [vm_compute; reflexivity|].
  split; [reflexivity|].
  split; [vm_compute; reflexivity|].
  split; [reflexivity|].
  intros H. vm_compute in H. apply H. reflexivity.
Qed.

(** * Further properties of the code *)

(** ** Rounding and conversion *)

(** A comparison outcome among the hypotheses becomes the order fact. *)
Ltac q_compare H :=
  match type of H with
  | (_ ?= _)%Q = Eq => apply Qeq_alt in H
  | (_ ?= _)%Q = Lt => apply Qlt_alt in H
  | (_ ?= _)%Q = Gt => apply Qgt_alt in H
  end.

Lemma py_round_mono (x y : Q) : x <= y -> (py_round x <= py_round y)%Z.
Proof.
  intros Hxy.
  pose proof (Qfloor_resp_le _ _ Hxy) as Hf.
  destruct (Qfloor_bounds x) as [Hx1 Hx2].
  destruct (Qfloor_bounds y) as [Hy1 Hy2].
  unfold py_round.
  destruct (Z.eq_dec (Qfloor x) (Qfloor y)) as [E|Hne].
  - rewrite <- E in *. set (f := Qfloor x) in *. clearbody f.
    destruct (Qcompare (x - inject_Z f) (1 # 2)) eqn:Cx;
      destruct (Qcompare (y - inject_Z f) (1 # 2)) eqn:Cy;
      q_compare Cx; q_compare Cy;
      try (destruct (Z.even f)); try lia; exfalso; lra.
  - assert (Hlt : (Qfloor x + 1 <= Qfloor y)%Z) by lia.
    destruct (Qcompare (x - inject_Z (Qfloor x)) (1 # 2));
      destruct (Qcompare (y - inject_Z (Qfloor y)) (1 # 2));
      try (destruct (Z.even (Qfloor x))); try (destruct (Z.even (Qfloor y)));
      lia.
Qed.

Lemma py_round_nonneg (x : Q) : 0 <= x -> (0 <= py_round x)%Z.
Proof. intros H. apply (py_round_mono H). Qed.

Lemma py_round1_mono (x y : Q) : x <= y -> py_round1 x <= py_round1 y.
Proof.
  intros H. unfold py_round1.
  assert (Hz : (py_round (x * 10) <= py_round (y * 10))%Z)
    by (apply py_round_mono; lra).
  rewrite Zle_Qle in Hz. change (inject_Z 0) with 0 in Hz. q_lra.
Qed.

Lemma py_round2_lower (x : Q) : x - (1 # 200) <= py_round2 x.
Proof.
  unfold py_round2. pose proof (py_round_lower (x * 100)) as H. q_lra.
Qed.

Lemma py_round2_upper (x : Q) : py_round2 x <= x + (1 # 200).
Proof.
  unfold py_round2. pose proof (py_round_upper (x * 100)) as H. q_lra.
Qed.

Lemma py_round2_nonneg (x : Q) : 0 <= x -> 0 <= py_round2 x.
Proof.
  intros H. unfold py_round2.
  assert (Hz : (0 <= py_round (x * 100))%Z) by (apply py_round_nonneg; lra).
  rewrite Zle_Qle in Hz. change (inject_Z 0) with 0 in Hz. q_lra.
Qed.

Lemma py_round2_idempotent (x : Q) : py_round2 (py_round2 x) = py_round2 x.
Proof.
  unfold py_round2 at 1 3. f_equal. f_equal.
  apply py_round_inject_Z. unfold py_round2. field.
Qed.

(** X1. [convert_temp] never reverses the order of two temperatures, in
    either mode, and its answer is within 0.05 of the exact value: of
    [(t - 32) * 5 / 9] for Celsius, of [t] itself otherwise. *)
Theorem convert_temp_monotone_accurate (t1 t2 : Q) (to_celsius : bool) :
  t1 <= t2 ->
  exists a b,
    convert_temp (Some t1) to_celsius = Some a /\
    convert_temp (Some t2) to_celsius = Some b /\
    a <= b /\
    Qabs (a - (if to_celsius then (t1 - 32) * 5 / 9 else t1)) <= 1 # 20.
Proof.
  intros H. unfold convert_temp.
  destruct to_celsius; eexists; eexists;
    (split; [reflexivity|]); (split; [reflexivity|]); split.
  - apply py_round1_mono. q_lra.
  - pose proof (py_round1_lower ((t1 - 32) * 5 / 9)).
    pose proof (py_round1_upper ((t1 - 32) * 5 / 9)).
    apply Qabs_Qle_condition. split; lra.
  - now apply py_round1_mono.
  - pose proof (py_round1_lower t1). pose proof (py_round1_upper t1).
    apply Qabs_Qle_condition. split; lra.
Qed.

(** Freezing point and a warm day, to Celsius. *)
Lemma convert_temp_monotone_accurate_witness :
  exists a b,
    convert_temp (Some 32) true = Some a /\
    convert_temp (Some 86) true = Some b /\
    a <= b /\ Qabs (a - (32 - 32) * 5 / 9) <= 1 # 20.
Proof.
  apply (@convert_temp_monotone_accurate 32 86 true). vm_compute. discriminate.
Defined.

(** ** What the shaper changes, and when it fails *)

Lemma keys_dict_set_present {V : Type} (k : string) (v v0 : V) (d : dict V) :
  dict_get k d = Some v0 -> keys (dict_set k v d) = keys d.
Proof.
  induction d as [|[k' v'] d IH]; simpl; [discriminate|].
  destruct (String.eqb k' k); simpl; intros H; [reflexivity|].
  now rewrite IH.
Qed.

Lemma convert_key_spec (c : bool) (o o' : obj) (k : string) :
  convert_key c o k = Ok o' ->
  keys o' = keys o /\
  dict_get k o' = shaped c (dict_get k o) /\
  (forall k', k' <> k -> dict_get k' o' = dict_get k' o).
Proof.
  unfold convert_key.
  destruct (dict_get k o) as [[|t|s]|] eqn:E; simpl; intros H;
    try discriminate.
  - injection H as <-. rewrite E. auto.
  - destruct c; injection H as <-; repeat split.
    + eapply keys_dict_set_present; eassumption.
    + apply dict_get_set_same.
    + intros k' Hk. now apply dict_get_set_other.
    + eapply keys_dict_set_present; eassumption.
    + apply dict_get_set_same.
    + intros k' Hk. now apply dict_get_set_other.
  - injection H as <-. rewrite E. auto.
Qed.

Lemma str_in_cons (x k : string) (ks : list string) :
  str_in x (k :: ks) = String.eqb x k || str_in x ks.
Proof. reflexivity. Qed.

Lemma shaped_shaped_skip (c : bool) (ks : list string) (k : string)
    (v : option scalar) :
  ~ In k ks -> (if str_in k ks then shaped c v else v) = v.
Proof.
  intros H. destruct (str_in k ks) eqn:E; [|reflexivity].
  apply str_in_In in E. contradiction.
Qed.

Lemma convert_keys_spec (c : bool) (ks : list string) (o o' : obj) :
  NoDup ks -> convert_keys c ks o = Ok o' -> shaped_obj c ks o o'.
Proof.
  intros Hnd. revert o. induction Hnd as [|k ks Hk Hnd IH]; simpl; intros o H.
  - injection H as <-. split; [reflexivity|]. intros k. reflexivity.
  - destruct (convert_key c o k) as [o1|] eqn:E1; simpl in H; [|discriminate].
    apply convert_key_spec in E1. destruct E1 as (K1 & G1 & O1).
    destruct (IH _ H) as [K2 G2]. split; [congruence|].
    intros q. rewrite G2, str_in_cons.
    destruct (String.eqb q k) eqn:Eq; simpl.
    + apply String.eqb_eq in Eq. subst q.
      rewrite shaped_shaped_skip by assumption. exact G1.
    + apply String.eqb_neq in Eq. now rewrite (O1 q Eq).
Qed.

Lemma convert_key_Raise (c : bool) (o : obj) (k : string) (e : exn) :
  convert_key c o k = Raise e <->
  e = TypeError /\ exists s, dict_get k o = Some (SStr s).
Proof.
  unfold convert_key.
  destruct (dict_get k o) as [[|t|s]|]; simpl; split;
    try discriminate; try (destruct c; discriminate);
    try (intros (_ & s' & H); discriminate).
  - intros H. injection H as <-. split; [reflexivity|]. now exists s.
  - intros (-> & _). reflexivity.
Qed.

Lemma convert_key_keeps_text (c : bool) (o o' : obj) (k : string)
    (ks : list string) :
  convert_key c o k = Ok o' -> (has_text ks o' <-> has_text ks o).
Proof.
  intros H. pose proof (convert_key_spec _ _ _ H) as (_ & G & O).
  assert (T : forall q s, dict_get q o' = Some (SStr s)
                          <-> dict_get q o = Some (SStr s)).
  { intros q s. destruct (string_dec q k) as [->|Hne].
    - rewrite G. destruct (dict_get k o) as [[|t|s']|]; simpl;
        try reflexivity. split; discriminate.
    - now rewrite (O q Hne). }
  unfold has_text. split; intros (q & s & Hq & Hs); exists q, s;
    (split; [exact Hq|]); now apply T.
Qed.

Lemma convert_keys_Raise (c : bool) (ks : list string) (o : obj) (e : exn) :
  convert_keys c ks o = Raise e <-> e = TypeError /\ has_text ks o.
Proof.
  revert o. induction ks as [|k ks IH]; simpl; intros o.
  - split; [discriminate|]. intros (_ & q & s & [] & _).
  - destruct (convert_key c o k) as [o1|e1] eqn:E1; simpl.
    + rewrite IH, (convert_key_keeps_text _ _ _ ks E1).
      split; intros (-> & q & s & Hq & Hs); (split; [reflexivity|]).
      * exists q, s. split; [now right | exact Hs].
      * exists q, s. split; [|exact Hs]. destruct Hq as [<-|Hq]; [|exact Hq].
        exfalso. assert (R : convert_key c o k = Raise TypeError).
        { apply convert_key_Raise. split; [reflexivity | now exists s]. }
        congruence.
    + apply convert_key_Raise in E1. destruct E1 as (-> & s & Hs). split.
      * intros H. injection H as <-. split; [reflexivity|].
        exists k, s. split; [now left | exact Hs].
      * now intros (-> & _).
Qed.

Lemma mapM_Forall2 {A B : Type} (f : A -> result B) (l : list A)
    (l' : list B) :
  mapM f l = Ok l' -> Forall2 (fun a b => f a = Ok b) l l'.
Proof.
  revert l'. induction l as [|a l IH]; simpl; intros l' H.
  - injection H as <-. constructor.
  - destruct (f a) as [b|] eqn:Ea; simpl in H; [|discriminate].
    destruct (mapM f l) as [bs|] eqn:El; simpl in H; [|discriminate].
    injection H as <-. constructor; auto.
Qed.

Lemma mapM_Ok_all {A B : Type} (f : A -> result B) (l : list A) :
  (forall a, In a l -> exists b, f a = Ok b) -> exists l', mapM f l = Ok l'.
Proof.
  induction l as [|a l IH]; simpl; intros H; [now exists []|].
  destruct (H a) as (b & Eb); [now left|]. rewrite Eb. simpl.
  destruct IH as (l' & El); [intros x Hx; apply H; now right|].
  rewrite El. simpl. eauto.
Qed.

Lemma convert_keys_Ok_iff (c : bool) (ks : list string) (o : obj) :
  (exists o', convert_keys c ks o = Ok o') <-> ~ has_text ks o.
Proof.
  destruct (convert_keys c ks o) as [o'|e] eqn:E.
  - split; [|eauto]. intros _ Ht.
    assert (R : convert_keys c ks o = Raise TypeError)
      by (apply convert_keys_Raise; auto).
    congruence.
  - apply convert_keys_Raise in E. destruct E as [_ Ht].
    split; [intros (o' & H); discriminate | contradiction].
Qed.






Lemma on_opt_rel {A : Type} (f : A -> result A) (R : A -> A -> Prop)
    (o o' : option A) :
  (forall a a', f a = Ok a' -> R a a') ->
  on_opt f o = Ok o' -> opt_rel R o o'.
Proof.
  intros HR. destruct o as [a|]; simpl.
  - destruct (f a) as [a'|] eqn:E; simpl; [|discriminate].
    intros H. injection H as <-. simpl. now apply HR.
  - intros H. now injection H as <-.
Qed.

Lemma mapM_rel {A : Type} (f : A -> result A) (R : A -> A -> Prop)
    (l l' : list A) :
  (forall a a', f a = Ok a' -> R a a') ->
  mapM f l = Ok l' -> Forall2 R l l'.
Proof.
  intros HR H. apply mapM_Forall2 in H.
  induction H; constructor; auto.
Qed.

(** X3. A response the shaper returns differs from the one it was given
    in this only: under the recognised keys of [current], of every hourly
    entry and of every forecast entry a number is replaced by its
    conversion ([(t - 32) * 5 / 9] for celsius, [t] otherwise) rounded to
    one decimal, and [unit] holds the symbol. Every object keeps its keys
    in their order and its other entries, every list its length and order,
    [None] stays [None], and an absent substructure stays absent. *)
Theorem shaper_changes_only_temperatures (data r : Response.t)
    (unit : string) :
  format_weather_response data unit = Ok r -> shaped_response unit data r.
Proof.
  unfold format_weather_response, shaped_response.
  set (c := String.eqb (lower unit) "celsius").
  destruct (on_opt _ (Response.current data)) as [c'|] eqn:E1; cbn [bind];
    [|discriminate].
  destruct (on_opt _ (Response.hourly data)) as [h'|] eqn:E2; cbn [bind];
    [|discriminate].
  destruct (on_opt _ (Response.forecast data)) as [f'|] eqn:E3; cbn [bind];
    [|discriminate].
  intros H. injection H as <-.
  cbn [Response.current Response.hourly Response.forecast Response.others
       Response.unit].
  split; [reflexivity|]. split; [reflexivity|].
  assert (N5 : NoDup ["temp"; "feelsLike"; "dewPoint"; "high"; "low"])
    by (repeat constructor; simpl; intuition discriminate).
  assert (N3 : NoDup ["temp"; "feelsLike"; "dewPoint"])
    by (repeat constructor; simpl; intuition discriminate).
  assert (N2 : NoDup ["high"; "low"])
    by (repeat constructor; simpl; intuition discriminate).
  split; [|split].
  - eapply on_opt_rel; [|exact E1].
    intros o o'. now apply convert_keys_spec.
  - eapply on_opt_rel; [|exact E2].
    intros l l'. apply mapM_rel. intros o o'. now apply convert_keys_spec.
  - eapply on_opt_rel; [|exact E3].
    intros l l'. apply mapM_rel. intros o o'. now apply convert_keys_spec.
Qed.

(** The sample response shaped for Celsius. *)
Lemma shaper_changes_only_temperatures_witness :
  shaped_response "celsius" sample_response sample_celsius.
Proof.
  apply (@shaper_changes_only_temperatures sample_response sample_celsius
           "celsius").
  vm_compute. reflexivity.
Defined.

Example sample_celsius_current :
  Response.current sample_celsius
  = Some [("temp", SNum (200 # 10)); ("condition", SStr "Clear");
          ("feelsLike", SNum (200 # 10)); ("dewPoint", SNone);
          ("high", SNum (240 # 10)); ("low", SNum (100 # 10))].
Proof. vm_compute. reflexivity. Qed.

(** ** More on the flattener *)

Lemma dict_get_In {V : Type} (k : string) (v : V) (d : dict V) :
  dict_get k d = Some v -> In (k, v) d.
Proof.
  induction d as [|[k' v'] d IH]; simpl; [discriminate|].
  destruct (String.eqb k' k) eqn:E; intros H.
  - injection H as ->. apply String.eqb_eq in E. subst k'. now left.
  - right. now apply IH.
Qed.

Lemma In_dict_get {V : Type} (k : string) (v : V) (d : dict V) :
  NoDup (keys d) -> In (k, v) d -> dict_get k d = Some v.
Proof.
  induction d as [|[k' v'] d IH]; simpl; intros Hnd H; [destruct H|].
  inversion Hnd as [|? ? Hk Hnd']; subst.
  destruct H as [E|H].
  - injection E as -> ->. now rewrite String.eqb_refl.
  - destruct (String.eqb k' k) eqn:E; [|now apply IH].
    apply String.eqb_eq in E. subst k'. exfalso. apply Hk.
    apply in_map_iff. exists (k, v). auto.
Qed.

Lemma length_expansion (d : dict value) :
  length (expansion d)
  = list_sum (map (fun kv => match snd kv with
                             | Seq l => length l
                             | Scalar _ => 0%nat
                             end) d).
Proof.
  unfold expansion. rewrite length_flat_map. f_equal.
  apply map_ext. intros [k [s|l]]; simpl; [reflexivity|].
  unfold day_entries, enumerate.
  rewrite length_map, length_combine, length_seq. apply Nat.min_id.
Qed.

(** X4. For a mapping with distinct keys whose first value is a list and
    whose lists have at most 100 elements, the flattened mapping holds [v]
    under a key exactly when the key is a day key followed by the two
    digits of a position at which that day's list holds [v]; it has one
    entry per list element. *)
Theorem flatten_lookup (k0 : string) (l0 : list value) (rest : dict value) :
  NoDup (keys ((k0, Seq l0) :: rest)) ->
  (forall k l, In (k, Seq l) ((k0, Seq l0) :: rest) -> (length l <= 100)%nat) ->
  (forall k v,
      dict_get k (_flatten_hourly_series ((k0, Seq l0) :: rest)) = Some v
      <-> exists day l i,
            In (day, Seq l) ((k0, Seq l0) :: rest) /\
            nth_error l i = Some v /\ k = (day ++ fmt_02d i)%string) /\
  length (_flatten_hourly_series ((k0, Seq l0) :: rest))
  = list_sum (map (fun kv => match snd kv with
                             | Seq l => length l
                             | Scalar _ => 0%nat
                             end) ((k0, Seq l0) :: rest)).
Proof.
  intros Hk Hl.
  assert (Hnd : NoDup (keys (expansion ((k0, Seq l0) :: rest))))
    by now apply NoDup_expansion.
  assert (E : _flatten_hourly_series ((k0, Seq l0) :: rest)
              = expansion ((k0, Seq l0) :: rest)).
  { unfold _flatten_hourly_series. cbn [isinstance_list].
    now rewrite flatten_fold_fresh. }
  rewrite E. split; [|apply length_expansion].
  intros k v. split.
  - intros H. apply dict_get_In in H. now apply In_expansion in H.
  - intros H. apply In_dict_get; [exact Hnd|]. now apply In_expansion.
Qed.

(** The mixed series: three entries for three list elements. *)
Lemma flatten_lookup_witness :
  (forall k v,
      dict_get k (_flatten_hourly_series mixed_series) = Some v
      <-> exists day l i,
            In (day, Seq l) mixed_series /\
            nth_error l i = Some v /\ k = (day ++ fmt_02d i)%string) /\
  length (_flatten_hourly_series mixed_series) = 3%nat.
Proof.
  apply (@flatten_lookup "20250101" [Scalar (SNum 1); Scalar (SNum 2)]
           [("note", Scalar (SNum 5)); ("20250102", Seq [Scalar (SNum 3)])]).
  - repeat constructor; simpl; intuition discriminate.
  - intros k l H. simpl in H.
    repeat match goal with
      | H : _ \/ _ |- _ => destruct H
      | H : (_, _) = (_, _) |- _ => inversion H; clear H; subst
      | H : False |- _ => destruct H
      end; simpl; lia.
Defined.

(** X5. When the lists of a mapping hold scalars only, flattening the
    flattened mapping changes nothing. *)
Theorem flatten_idempotent_on_scalars (d : dict value) :
  (forall day l v, In (day, Seq l) d -> In v l -> exists s, v = Scalar s) ->
  _flatten_hourly_series (_flatten_hourly_series d) = _flatten_hourly_series d.
Proof.
  intros Hs. destruct d as [|[k0 [s0|l0]] rest]; [reflexivity..|].
  assert (Hv : forall kv,
             In kv (_flatten_hourly_series ((k0, Seq l0) :: rest)) ->
             exists s, snd kv = Scalar s).
  { intros kv H. unfold _flatten_hourly_series in H.
    cbn [isinstance_list] in H. apply In_flatten_fold in H.
    destruct H as [[]|H]. apply In_expansion in H.
    destruct H as (day & l & i & Hd & Hi & _).
    apply (Hs day l (snd kv) Hd). eapply nth_error_In; eassumption. }
  destruct (_flatten_hourly_series ((k0, Seq l0) :: rest))
    as [|[k v] out]; [reflexivity|].
  destruct (Hv (k, v)) as (s & Es); [now left|]. simpl in Es. subst v.
  reflexivity.
Qed.

Lemma flatten_idempotent_on_scalars_witness :
  _flatten_hourly_series (_flatten_hourly_series mixed_series)
  = _flatten_hourly_series mixed_series.
Proof.
  apply (@flatten_idempotent_on_scalars mixed_series).
  intros day l v H Hv. simpl in H.
  repeat match goal with
    | H : _ \/ _ |- _ => destruct H
    | H : (_, _) = (_, _) |- _ => inversion H; clear H; subst
    | H : False |- _ => destruct H
    end; simpl in Hv;
    repeat match goal with
      | H : _ \/ _ |- _ => destruct H
      | H : False |- _ => destruct H
      end; subst; eauto.
Defined.

(** ** More on the hourly builder *)

(** A successful sequence of binds among the hypotheses is taken apart. *)
Ltac inv_bind H :=
  repeat match type of H with
    | bind ?m _ = Ok _ =>
        let E := fresh "E" in
        let x := fresh "x" in
        destruct m as [x|] eqn:E; cbn [bind] in H; [|discriminate H]
    end.

Lemma py_max_0_nonneg (x : Q) : 0 <= py_max 0 x.
Proof. apply py_max_ge. Qed.

Lemma py_min_100_le (x : Q) : py_min 100 x <= 100.
Proof. unfold py_min. destruct (Qlt_le_dec x 100); lra. Qed.

Lemma clamp_0_100 (x : Q) : 0 <= py_max 0 (py_min 100 x) <= 100.
Proof.
  split; [apply py_max_0_nonneg|].
  pose proof (py_min_100_le x). unfold py_max.
  destruct (Qlt_le_dec 0 (py_min 100 x)); lra.
Qed.

Lemma get_weather_condition_pairs (t h p : Q) (b : bool) :
  In (get_weather_condition t h p b) condition_pairs.
Proof.
  unfold get_weather_condition, condition_pairs.
  destruct b; q_cases; simpl; auto 6.
Qed.

Lemma build_row_in_bounds (hour_label : string -> string)
    (p : dict (dict value)) (key : string) (r : Row.t) :
  build_row hour_label p key = Ok (Some r) ->
  row_in_bounds r /\ Row.time r = hour_label key.
Proof.
  unfold build_row. intros H. inv_bind H.
  destruct (in_MISSING x); [discriminate|]. inv_bind H.
  injection H as <-. unfold row_in_bounds. simpl.
  repeat split.
  - apply clamp_0_100.
  - apply clamp_0_100.
  - apply py_round_nonneg.
    match goal with
    | |- 0 <= py_max 0 ?y * _ => pose proof (py_max_0_nonneg y)
    end. lra.
  - apply py_round2_nonneg, py_max_0_nonneg.
  - apply py_round_nonneg, py_max_0_nonneg.
  - rewrite <- surjective_pairing. apply get_weather_condition_pairs.
  - match goal with
    | E : (if negb (in_MISSING ?ps) then _ else _) = Ok ?ps_inhg |- _ =>
        destruct (negb (in_MISSING ps)); cbn [bind] in E;
        [ destruct (as_num (mv ps (SNum 0))) as [y|]; cbn [bind] in E;
          [injection E as <-; now exists y | discriminate E]
        | now injection E as <- ]
    end.
Qed.

Lemma build_rows_In (hour_label : string -> string) (p : dict (dict value))
    (all_keys : list string) (rows : list Row.t) (r : Row.t) :
  build_rows hour_label p all_keys = Ok rows -> In r rows ->
  exists key, In key all_keys /\ build_row hour_label p key = Ok (Some r).
Proof.
  revert rows. induction all_keys as [|key rest IH]; simpl; intros rows H Hr.
  - injection H as <-. destruct Hr.
  - inv_bind H. injection H as <-.
    destruct x as [row|].
    + destruct Hr as [<-|Hr]; [exists key; auto|].
      destruct (IH _ eq_refl Hr) as (k & Hk & E'). exists k. auto.
    + destruct (IH _ eq_refl Hr) as (k & Hk & E'). exists k. auto.
Qed.

Lemma In_slice_from {A : Type} (start : Z) (l : list A) (x : A) :
  In x (slice_from start l) -> In x l.
Proof.
  unfold slice_from. intros H.
  rewrite <- (firstn_skipn (Z.to_nat (if (start <? 0)%Z
                                      then Z.max 0 (start + Z.of_nat (length l))
                                      else Z.min start (Z.of_nat (length l))))
                           l).
  apply in_or_app. now right.
Qed.

Lemma In_relabel_last (rows : list Row.t) (r : Row.t) :
  In r (relabel_last rows) ->
  exists r0, In r0 rows /\ (r = r0 \/ r = Row.set_time "Now" r0).
Proof.
  induction rows as [|r1 rows IH]; [intros []|].
  destruct rows as [|r2 rows].
  - simpl. intros [<-|[]]. exists r1. auto.
  - change (relabel_last (r1 :: r2 :: rows))
      with (r1 :: relabel_last (r2 :: rows)).
    intros [<-|H].
    + exists r1. split; [now left | now left].
    + destruct (IH H) as (r0 & H0 & E). exists r0. split; [now right|exact E].
Qed.

(** X6. Every record the hourly builder returns has a humidity between 0
    and 100, a wind speed, a precipitation and a UV index that are not
    negative, a [feelsLike] equal to its [temp], one of the five
    description and icon pairs of the classifier, and a pressure that is
    absent or a value rounded to two decimals. *)
Theorem hourly_records_in_bounds (hour_label : string -> string)
    (data : power_response) (hours : Z) (rows : list Row.t) (r : Row.t) :
  get_power_hourly hour_label data hours = Ok rows -> In r rows ->
  row_in_bounds r.
Proof.
  unfold get_power_hourly. destruct data as [|p].
  - intros H. injection H as <-. intros [].
  - intros H Hr. inv_bind H. injection H as <-.
    apply In_relabel_last in Hr. destruct Hr as (r0 & H0 & Hr).
    apply In_slice_from in H0.
    destruct (@build_rows_In _ _ _ _ _ E H0) as (key & _ & Hb).
    apply build_row_in_bounds in Hb. destruct Hb as [Hb _].
    destruct Hr as [->| ->]; exact Hb.
Qed.

(** The last sample record, the one labelled "Now". *)
Lemma hourly_records_in_bounds_witness : row_in_bounds sample_now.
Proof.
  apply (@hourly_records_in_bounds sample_label sample_power 24 sample_rows
           sample_now).
  - vm_compute. reflexivity.
  - vm_compute. auto 10.
Defined.

Lemma length_relabel_last (rows : list Row.t) :
  length (relabel_last rows) = length rows.
Proof.
  induction rows as [|r [|r' rows] IH]; try reflexivity.
  change (relabel_last (r :: r' :: rows))
    with (r :: relabel_last (r' :: rows)).
  simpl in *. now rewrite IH.
Qed.

Lemma relabel_last_skipn (n : nat) (rows : list Row.t) :
  relabel_last (skipn n rows) = skipn n (relabel_last rows).
Proof.
  destruct (le_lt_dec (length rows) n) as [Hge|Hlt].
  - rewrite !skipn_all2; [reflexivity | now rewrite length_relabel_last | exact Hge].
  - destruct (rev rows) as [|r rest] eqn:E.
    + apply (f_equal (@rev _)) in E. rewrite rev_involutive in E. subst rows.
      simpl in Hlt. lia.
    + apply (f_equal (@rev _)) in E. rewrite rev_involutive in E. simpl in E.
      subst rows. rewrite length_app in Hlt. simpl in Hlt.
      rewrite relabel_last_snoc, !skipn_app.
      replace (n - length (rev rest))%nat with 0%nat by lia. simpl.
      apply relabel_last_snoc.
Qed.

Lemma relabel_last_slice_from (start : Z) (rows : list Row.t) :
  relabel_last (slice_from start rows) = slice_from start (relabel_last rows).
Proof.
  unfold slice_from. rewrite length_relabel_last. apply relabel_last_skipn.
Qed.

Lemma slice_from_0 {A : Type} (l : list A) : slice_from 0 l = l.
Proof.
  unfold slice_from. simpl.
  replace (Z.to_nat (Z.min 0 (Z.of_nat (length l)))) with 0%nat by lia.
  reflexivity.
Qed.

(** X7. The records returned for [hours] are a slice of the records
    returned for [hours = 0], which are all of them: the last [hours] of
    them when [hours] is positive, and all but the first [-hours] when it
    is negative. In particular a positive [hours] bounds the length of the
    list, and [hours = 0] does not give an empty list. *)
Theorem hourly_hours_slice (hour_label : string -> string)
    (data : power_response) (full : list Row.t) :
  get_power_hourly hour_label data 0 = Ok full ->
  forall hours,
    get_power_hourly hour_label data hours = Ok (slice_from (- hours) full) /\
    ((0 < hours)%Z ->
     slice_from (- hours) full
     = skipn (length full - Z.to_nat hours) full /\
     (length (slice_from (- hours) full) <= Z.to_nat hours)%nat) /\
    ((hours < 0)%Z ->
     slice_from (- hours) full = skipn (Z.to_nat (- hours)) full).
Proof.
  intros H hours. split; [|split].
  - unfold get_power_hourly in *. destruct data as [|p].
    + injection H as <-. unfold slice_from. now rewrite skipn_nil.
    + destruct (build_rows hour_label p _) as [all|]; cbn [bind] in *;
        [|discriminate].
      injection H as <-. cbn [Z.opp]. rewrite slice_from_0.
      now rewrite relabel_last_slice_from.
  - intros Hpos. unfold slice_from.
    replace (- hours <? 0)%Z with true by (symmetry; apply Z.ltb_lt; lia).
    replace (Z.to_nat (Z.max 0 (- hours + Z.of_nat (length full))))
      with (length full - Z.to_nat hours)%nat by lia.
    split; [reflexivity|]. rewrite length_skipn. lia.
  - intros Hneg. unfold slice_from.
    replace (- hours <? 0)%Z with false by (symmetry; apply Z.ltb_ge; lia).
    destruct (Z.le_ge_cases (- hours) (Z.of_nat (length full))) as [Hle|Hge].
    + now rewrite Z.min_l.
    + rewrite Z.min_r by exact Hge. rewrite Nat2Z.id.
      rewrite skipn_all. symmetry. apply skipn_all2. lia.
Qed.

(** The five sample records, of which two are asked for. *)
Lemma hourly_hours_slice_witness :
  get_power_hourly sample_label sample_power 2
  = Ok (slice_from (- (2)) sample_rows) /\
  ((0 < 2)%Z ->
   slice_from (- (2)) sample_rows
   = skipn (length sample_rows - Z.to_nat 2) sample_rows /\
   (length (slice_from (- (2)) sample_rows) <= Z.to_nat 2)%nat) /\
  ((2 < 0)%Z ->
   slice_from (- (2)) sample_rows = skipn (Z.to_nat (- (2))) sample_rows).
Proof.
  apply (@hourly_hours_slice sample_label sample_power sample_rows).
  vm_compute. reflexivity.
Defined.

Example sample_two_hours :
  map Row.time (slice_from (- (2)) sample_rows) = ["00"; "Now"].
Proof. vm_compute. reflexivity. Qed.

Unset Implicit Arguments.




Lemma as_num_not_missing (s : scalar) :
  numeric_scalar s -> in_MISSING s = false -> exists q, s = SNum q.
Proof. destruct s; simpl; intros H E; try discriminate; [eauto|destruct H]. Qed.




(** Membership in a list that is written out becomes its cases. *)
Ltac in_cases :=
  repeat match goal with
    | H : In _ (_ :: _) |- _ => destruct H as [H|H]
    | H : In _ [] |- _ => destruct H
    | H : (_, _) = (_, _) |- _ => inversion H; clear H; subst
    | H : False |- _ => destruct H
    end.


Lemma build_rows_no_temperature (hour_label : string -> string)
    (p : dict (dict value)) (all_keys : list string) (rows : list Row.t) :
  (forall key s, get_point (series_of p "T2M") key = Ok s ->
                 in_MISSING s = true) ->
  build_rows hour_label p all_keys = Ok rows -> rows = [].
Proof.
  intros Hm. revert rows.
  induction all_keys as [|key rest IH]; simpl; intros rows H.
  - now injection H as <-.
  - inv_bind H. injection H as <-. rewrite (IH x0 eq_refl).
    destruct x as [row|]; [|reflexivity].
    exfalso. unfold build_row in E.
    destruct (get_point (series_of p "T2M") key) as [s|] eqn:Es;
      cbn [bind] in E; [|discriminate].
    rewrite (Hm key s Es) in E. discriminate.
Qed.

(** X9. No record is built for a time key without a temperature: when the
    temperature series holds no value that is not missing (or is absent),
    the list the builder returns is empty, whatever the other series hold. *)
Theorem hourly_needs_temperature (hour_label : string -> string)
    (p : dict (dict value)) (hours : Z) (rows : list Row.t) :
  (forall key s, get_point (series_of p "T2M") key = Ok s ->
                 in_MISSING s = true) ->
  get_power_hourly hour_label (PowerData p) hours = Ok rows -> rows = [].
Proof.
  intros Hm H. unfold get_power_hourly in H. inv_bind H. injection H as <-.
  apply (build_rows_no_temperature hour_label p _ x Hm) in E. subst x.
  unfold slice_from. now rewrite skipn_nil.
Qed.

Lemma hourly_needs_temperature_witness :
  match get_power_hourly sample_label (PowerData rain_only_parameters) 24 with
  | Ok rows => rows
  | Raise _ => []
  end = [].
Proof.
  apply (hourly_needs_temperature sample_label rain_only_parameters 24).
  - intros key s H. vm_compute in H. now injection H as <-.
  - vm_compute. reflexivity.
Defined.

(** ** More on the classifier *)

(** X10. The daily thresholds are five times the hourly ones: a daily
    amount is classified as a fifth of it is classified hourly, whatever
    the temperatures and for the same humidity. *)
Theorem daily_condition_is_hourly_of_fifth (t t' humidity precip : Q) :
  get_weather_condition t humidity precip false
  = get_weather_condition t' humidity (precip / 5) true.
Proof.
  unfold get_weather_condition. q_cases; try reflexivity; exfalso; q_lra.
Qed.

(** ** Sorted keys *)

Lemma compare_Lt_trans (a b c : string) :
  String.compare a b = Lt -> String.compare b c = Lt ->
  String.compare a c = Lt.
Proof.
  intros H1 H2.
  apply OrderedTypeEx.String_as_OT.cmp_lt.
  apply OrderedTypeEx.String_as_OT.cmp_lt in H1, H2.
  eapply OrderedTypeEx.String_as_OT.lt_trans; eassumption.
Qed.

Lemma compare_Gt_Lt (a b : string) :
  String.compare a b = Gt -> String.compare b a = Lt.
Proof. intros H. rewrite String.compare_antisym, H. reflexivity. Qed.

Lemma compare_refl (a : string) : String.compare a a = Eq.
Proof. now apply OrderedTypeEx.String_as_OT.cmp_eq. Qed.

Lemma In_insert_key (k x : string) (l : list string) :
  In x (insert_key k l) <-> x = k \/ In x l.
Proof.
  induction l as [|k' l IH]; simpl.
  - split; [intros [<-|[]]; auto | intros [->|[]]; auto].
  - destruct (String.compare k k') eqn:E; simpl.
    + apply String.compare_eq_iff in E. subst k'. split; [auto|].
      intros [->|H]; auto.
    + split; [intros [<-|H]; auto | intros [->|H]; auto].
    + rewrite IH. tauto.
Qed.

Lemma In_sorted_union (a b : list string) (x : string) :
  In x (sorted_union a b) <-> In x a \/ In x b.
Proof.
  unfold sorted_union. rewrite <- in_app_iff.
  induction (a ++ b) as [|k l IH]; simpl; [tauto|].
  rewrite In_insert_key, IH. split; intros [H|H]; auto.
Qed.

Lemma insert_key_sorted (k : string) (l : list string) :
  StronglySorted (fun a b => String.compare a b = Lt) l ->
  StronglySorted (fun a b => String.compare a b = Lt) (insert_key k l).
Proof.
  induction 1 as [|k' l Hs IH Hall]; simpl.
  - repeat constructor.
  - destruct (String.compare k k') eqn:E.
    + now constructor.
    + constructor; [now constructor|]. constructor; [exact E|].
      rewrite Forall_forall in *. intros x Hx.
      eapply compare_Lt_trans; [exact E | now apply Hall].
    + constructor; [exact IH|]. rewrite Forall_forall in *.
      intros x Hx. apply In_insert_key in Hx. destruct Hx as [->|Hx].
      * now apply compare_Gt_Lt.
      * now apply Hall.
Qed.

Lemma sorted_union_sorted (a b : list string) :
  StronglySorted (fun x y => String.compare x y = Lt) (sorted_union a b).
Proof.
  unfold sorted_union. induction (a ++ b) as [|k l IH]; simpl.
  - constructor.
  - now apply insert_key_sorted.
Qed.

Lemma StronglySorted_snoc {A : Type} (R : A -> A -> Prop) (l : list A)
    (x : A) :
  StronglySorted R l -> (forall y, In y l -> R y x) ->
  StronglySorted R (l ++ [x]).
Proof.
  induction 1 as [|a l Hs IH Hall]; simpl; intros Hx.
  - repeat constructor.
  - constructor.
    + apply IH. intros y Hy. apply Hx. now right.
    + rewrite Forall_forall in *. intros y Hy.
      apply in_app_or in Hy. destruct Hy as [Hy|[<-|[]]].
      * now apply Hall.
      * apply Hx. now left.
Qed.

Lemma StronglySorted_rev {A : Type} (R : A -> A -> Prop) (l : list A) :
  StronglySorted R l -> StronglySorted (fun x y => R y x) (rev l).
Proof.
  induction 1 as [|a l Hs IH Hall]; simpl; [constructor|].
  apply StronglySorted_snoc; [exact IH|].
  intros y Hy. apply in_rev in Hy. rewrite Forall_forall in Hall.
  now apply Hall.
Qed.

Lemma find_first_sorted {A : Type} (R : A -> A -> Prop) (f : A -> bool)
    (l : list A) (x : A) :
  StronglySorted R l -> find f l = Some x ->
  forall y, In y l -> f y = true -> y = x \/ R x y.
Proof.
  induction 1 as [|a l Hs IH Hall]; simpl; [discriminate|].
  destruct (f a) eqn:Ea; intros H y Hy Hf.
  - injection H as <-. destruct Hy as [<-|Hy]; [now left|].
    right. rewrite Forall_forall in Hall. now apply Hall.
  - destruct Hy as [<-|Hy]; [congruence|]. now apply IH.
Qed.

(** ** The latest valid daily value *)

Lemma dict_get_keys {V : Type} (k : string) (v : V) (d : dict V) :
  dict_get k d = Some v -> In k (keys d).
Proof.
  intros H. apply dict_get_In in H. apply in_map_iff. exists (k, v). auto.
Qed.

(** X11. The helper [latest] answers with the value under the greatest
    date key whose value is not missing; it answers with the default only
    when every value of the series is missing (or the series is absent). *)
Theorem latest_is_most_recent_valid (p : dict (dict scalar)) (param : string)
    (default : scalar) :
  (latest p param default = default /\
   forall k v, dict_get k (daily_series p param) = Some v ->
               in_MISSING v = true) \/
  (exists k' v',
      dict_get k' (daily_series p param) = Some v' /\
      in_MISSING v' = false /\
      latest p param default = v' /\
      forall k v, dict_get k (daily_series p param) = Some v ->
                  in_MISSING v = false -> String.leb k k' = true).
Proof.
  unfold latest. set (values := daily_series p param).
  set (f := fun k => negb (in_MISSING (item values k))).
  set (L := rev (sorted_union (keys values) [])).
  assert (HL : forall k v, dict_get k values = Some v -> In k L).
  { intros k v H. unfold L. rewrite <- in_rev. apply In_sorted_union.
    left. eapply dict_get_keys. exact H. }
  assert (Hf : forall k v, dict_get k values = Some v ->
                           f k = negb (in_MISSING v)).
  { intros k v H. unfold f, item. now rewrite H. }
  destruct (find f L) as [k'|] eqn:E.
  - right. pose proof (find_some _ _ E) as [Hin Hk'].
    unfold f, item in Hk'.
    destruct (dict_get k' values) as [v'|] eqn:Ev; [|discriminate].
    exists k', v'. apply negb_true_iff in Hk'.
    split; [exact Ev|]. split; [exact Hk'|].
    split; [unfold item; now rewrite Ev|].
    intros k v Hk Hv.
    assert (Hs : StronglySorted (fun x y => String.compare y x = Lt) L)
      by (apply StronglySorted_rev, sorted_union_sorted).
    destruct (find_first_sorted _ f L k' Hs E k (HL k v Hk)) as [->|Hlt].
    + rewrite (Hf k v Hk), Hv. reflexivity.
    + unfold String.leb. now rewrite compare_refl.
    + unfold String.leb. now rewrite Hlt.
  - left. split; [reflexivity|]. intros k v Hk.
    pose proof (find_none _ _ E k (HL k v Hk)) as Hn.
    rewrite (Hf k v Hk) in Hn. now apply negb_false_iff in Hn.
Qed.

Example latest_skips_missing :
  latest [("T2M", [("20250103", SNum (-999)); ("20250101", SNum 4);
                   ("20250102", SNum 7); ("20250104", SNone)])]
         "T2M" SNone = SNum 7.
Proof. reflexivity. Qed.

(** ** The current conditions *)

Lemma last_row_snoc (rows : list Row.t) (r : Row.t) :
  last_row (rows ++ [r]) = Some r.
Proof. unfold last_row. now rewrite rev_unit. Qed.

Lemma last_row_nil_inv (rows : list Row.t) : last_row rows = None -> rows = [].
Proof.
  unfold last_row. destruct (rev rows) eqn:E; [|discriminate].
  intros _. apply (f_equal (@rev _)) in E. now rewrite rev_involutive in E.
Qed.

Lemma last_row_In (rows : list Row.t) (r : Row.t) :
  last_row rows = Some r -> exists init, rows = init ++ [r].
Proof.
  unfold last_row. destruct (rev rows) as [|r' rest] eqn:E; [discriminate|].
  intros H. injection H as <-. exists (rev rest).
  apply (f_equal (@rev _)) in E. now rewrite rev_involutive in E.
Qed.

Lemma build_row_precipitation (hour_label : string -> string)
    (p : dict (dict value)) (key : string) (r : Row.t) :
  build_row hour_label p key = Ok (Some r) ->
  exists x, Row.precipitation r = py_round2 x.
Proof.
  unfold build_row. intros H. inv_bind H.
  destruct (in_MISSING x); [discriminate|]. inv_bind H.
  injection H as <-. simpl. eauto.
Qed.

Lemma hourly_last_row (hour_label : string -> string) (data : power_response)
    (hours : Z) (rows : list Row.t) (r : Row.t) :
  get_power_hourly hour_label data hours = Ok rows ->
  last_row rows = Some r ->
  Row.time r = "Now" /\ row_in_bounds r /\
  exists x, Row.precipitation r = py_round2 x.
Proof.
  intros H Hl. unfold get_power_hourly in H. destruct data as [|p].
  - injection H as <-. discriminate.
  - inv_bind H. injection H as <-.
    set (sl := slice_from (- hours) x) in *.
    assert (Hsub : forall r0, In r0 sl -> In r0 x)
      by (intros r0; apply In_slice_from).
    clearbody sl.
    destruct (last_row sl) as [r0|] eqn:E0.
    + apply last_row_In in E0. destruct E0 as (init & ->).
      rewrite relabel_last_snoc, last_row_snoc in Hl. injection Hl as <-.
      assert (H0 : In r0 x) by (apply Hsub, in_or_app; right; now left).
      destruct (@build_rows_In hour_label p _ x r0 E H0) as (key & _ & Hb).
      split; [reflexivity|]. split.
      * apply (@build_row_in_bounds hour_label p key r0 Hb).
      * apply (build_row_precipitation hour_label p key r0 Hb).
    + apply last_row_nil_inv in E0. subst sl. discriminate.
Qed.

Lemma In_keys_dict_get {V : Type} (k : string) (d : dict V) :
  In k (keys d) -> exists v, dict_get k d = Some v.
Proof.
  induction d as [|[k' v'] d IH]; simpl; [intros []|].
  destruct (String.eqb k' k) eqn:E; [eauto|].
  intros [H|H]; [|now apply IH].
  subst k'. now rewrite String.eqb_refl in E.
Qed.

Lemma find_all_false {A : Type} (f : A -> bool) (l : list A) :
  (forall x, In x l -> f x = false) -> find f l = None.
Proof.
  induction l as [|a l IH]; simpl; intros H; [reflexivity|].
  rewrite (H a) by now left. apply IH. intros x Hx. apply H. now right.
Qed.

Lemma latest_all_missing (p : dict (dict scalar)) (param : string)
    (default : scalar) :
  all_missing p param -> latest p param default = default.
Proof.
  intros Hm. unfold latest. rewrite find_all_false; [reflexivity|].
  intros k Hk. rewrite <- in_rev in Hk. apply In_sorted_union in Hk.
  destruct Hk as [Hk|[]]. apply In_keys_dict_get in Hk.
  destruct Hk as (v & Hv). unfold item. rewrite Hv.
  now rewrite (Hm k v Hv).
Qed.

Lemma current_body_Some (hour_label : string -> string)
    (daily : result daily_response) (hourly_fetch : result power_response)
    (name : string) (c : Current.t) (oh : option (list Row.t)) (n : string) :
  current_body hour_label daily hourly_fetch name = Ok (Some c, oh, n) ->
  exists p data rows temp_c rh_n pr_n tmax_c tmin_c ws_n uvi ps dew,
    daily = Ok (DailyData p) /\ hourly_fetch = Ok data /\
    get_power_hourly hour_label data 24 = Ok rows /\
    oh = Some rows /\ n = name /\
    as_num (mv (latest p "T2M" SNone) (SNum 20)) = Ok temp_c /\
    as_num (mv (latest p "RH2M" SNone) (SNum 60)) = Ok rh_n /\
    as_num (mv (latest p "PRECTOTCORR" SNone) (SNum 0)) = Ok pr_n /\
    as_num (mv (latest p "T2M_MAX" SNone) (SNum temp_c)) = Ok tmax_c /\
    as_num (mv (latest p "T2M_MIN" SNone) (SNum temp_c)) = Ok tmin_c /\
    as_num (mv (latest p "WS2M" SNone) (SNum 0)) = Ok ws_n /\
    match last_row rows with
    | Some r =>
        uvi = inject_Z (Row.uvIndex r) /\ ps = Row.pressure r /\
        dew = Row.dewPoint r
    | None =>
        (exists uv_n,
            as_num (mv (latest p "ALLSKY_SFC_UV_INDEX" SNone) (SNum 0))
            = Ok uv_n /\ uvi = py_max 0 uv_n) /\
        (exists d,
            as_num (mv (latest p "T2MDEW" SNone) (SNum (temp_c - 2))) = Ok d
            /\ dew = display_temp_f d)
    end /\
    c = let last_hour_precip :=
          match last_row rows with
          | Some r => Row.precipitation r
          | None => 0
          end in
        let rh := py_max 0 (py_min 100 rh_n) in
        let ci := get_weather_condition temp_c rh last_hour_precip true in
        Current.mk (display_temp_f temp_c) (fst ci) (fst ci)
          (py_round2 last_hour_precip) (py_round2 (py_max 0 pr_n)) rh
          (py_round (py_max 0 ws_n * 2.237)) ps 10 uvi dew
          (display_temp_f temp_c) (snd ci) (display_temp_f tmax_c)
          (display_temp_f tmin_c).
Proof.
  unfold current_body. intros H.
  destruct daily as [[|p]|]; cbn [bind] in H; try discriminate.
  destruct (as_num (mv (latest p "T2M" SNone) (SNum 20))) as [temp_c|] eqn:E1;
    cbn [bind] in H; [|discriminate].
  destruct (as_num (mv (latest p "RH2M" SNone) (SNum 60))) as [rh_n|] eqn:E2;
    cbn [bind] in H; [|discriminate].
  destruct (as_num (mv (latest p "PRECTOTCORR" SNone) (SNum 0)))
    as [pr_n|] eqn:E3; cbn [bind] in H; [|discriminate].
  destruct (as_num (mv (latest p "T2M_MAX" SNone) (SNum temp_c)))
    as [tmax_c|] eqn:E4; cbn [bind] in H; [|discriminate].
  destruct (as_num (mv (latest p "T2M_MIN" SNone) (SNum temp_c)))
    as [tmin_c|] eqn:E5; cbn [bind] in H; [|discriminate].
  destruct (as_num (mv (latest p "WS2M" SNone) (SNum 0))) as [ws_n|] eqn:E6;
    cbn [bind] in H; [|discriminate].
  destruct hourly_fetch as [data|]; cbn [bind] in H; [|discriminate].
  destruct (get_power_hourly hour_label data 24) as [rows|] eqn:E7;
    cbn [bind] in H; [|discriminate].
  destruct (last_row rows) as [r|] eqn:El; cbn [bind] in H.
  - injection H as <- <- <-.
    exists p, data, rows, temp_c, rh_n, pr_n, tmax_c, tmin_c, ws_n,
      (inject_Z (Row.uvIndex r)), (Row.pressure r), (Row.dewPoint r).
    rewrite El. repeat split; assumption.
  - destruct (as_num (mv (latest p "ALLSKY_SFC_UV_INDEX" SNone) (SNum 0)))
      as [uv_n|] eqn:E8; cbn [bind] in H; [|discriminate].
    match type of H with
    | bind ?m _ = _ => destruct m as [ps|] eqn:E9; cbn [bind] in H;
                       [|discriminate]
    end.
    destruct (as_num (mv (latest p "T2MDEW" SNone) (SNum (temp_c - 2))))
      as [d|] eqn:E10; cbn [bind] in H; [|discriminate].
    injection H as <- <- <-.
    exists p, data, rows, temp_c, rh_n, pr_n, tmax_c, tmin_c, ws_n,
      (py_max 0 uv_n), ps, (display_temp_f d).
    rewrite El. repeat split; try assumption; eauto.
Qed.

Lemma get_real_weather_Some (hour_label : string -> string)
    (daily : result daily_response) (hourly_fetch : result power_response)
    (display_name : option string) (coords : string) (c : Current.t)
    (oh : option (list Row.t)) (n : string) :
  get_real_weather_data_by_point hour_label daily hourly_fetch display_name
    coords = (Some c, oh, n) ->
  current_body hour_label daily hourly_fetch (str_or display_name coords)
  = Ok (Some c, oh, n).
Proof.
  unfold get_real_weather_data_by_point.
  destruct (current_body _ _ _ _) as [r|]; [now intros ->|discriminate].
Qed.

(** X12. The current conditions and the hourly list are defined together
    or not at all. They are not defined when the daily answer has no
    parameters (the name is then the display name or the coordinates) and
    when anything raises, a failed request among it (the name is then the
    display name or "Unknown"). When they are defined, the hourly list is
    the builder's for 24 hours and the name is the display name or the
    coordinates. *)
Theorem current_defined_with_hourly (hour_label : string -> string)
    (daily : result daily_response) (hourly_fetch : result power_response)
    (display_name : option string) (coords : string) :
  (fst (fst (get_real_weather_data_by_point hour_label daily hourly_fetch
               display_name coords)) = None
   <-> snd (fst (get_real_weather_data_by_point hour_label daily hourly_fetch
                   display_name coords)) = None) /\
  (daily = Ok NoDailyParameters ->
   get_real_weather_data_by_point hour_label daily hourly_fetch display_name
     coords = (None, None, str_or display_name coords)) /\
  ((exists e, daily = Raise e) \/
   (exists p e, daily = Ok (DailyData p) /\ hourly_fetch = Raise e) \/
   (exists p data e, daily = Ok (DailyData p) /\ hourly_fetch = Ok data /\
                     get_power_hourly hour_label data 24 = Raise e) ->
   get_real_weather_data_by_point hour_label daily hourly_fetch display_name
     coords = (None, None, str_or display_name "Unknown")) /\
  (forall c rows n,
      get_real_weather_data_by_point hour_label daily hourly_fetch display_name
        coords = (Some c, rows, n) ->
      n = str_or display_name coords /\
      exists data hourly,
        hourly_fetch = Ok data /\
        get_power_hourly hour_label data 24 = Ok hourly /\
        rows = Some hourly).
Proof.
  split; [|split; [|split]].
  - unfold get_real_weather_data_by_point.
    destruct (current_body _ _ _ _) as [[[oc oh] n]|] eqn:B; simpl;
      [|tauto].
    destruct oc as [c|].
    + apply current_body_Some in B.
      destruct B as (p & data & rows & B). decompose [ex and] B. subst oh.
      split; discriminate.
    + unfold current_body in B.
      destruct daily as [[|p]|]; cbn [bind] in B; try discriminate.
      * injection B as <- <-. tauto.
      * exfalso. inv_bind B.
        repeat match type of B with
          | bind ?m _ = Ok _ =>
              destruct m; cbn [bind] in B; [|discriminate B]
          end.
        discriminate B.
  - intros ->. reflexivity.
  - unfold get_real_weather_data_by_point, current_body.
    intros [(e & ->)|[(p & e & -> & ->)|(p & data & e & -> & -> & Hg)]];
      cbn [bind]; try reflexivity.
    + repeat match goal with
        | |- context [bind ?m _] => destruct m; cbn [bind]; try reflexivity
        end.
    + rewrite Hg.
      repeat match goal with
        | |- context [bind ?m _] => destruct m; cbn [bind]; try reflexivity
        end.
  - intros c rows n H. apply get_real_weather_Some, current_body_Some in H.
    destruct H as (p & data & hourly & H). decompose [ex and] H. subst.
    split; [reflexivity|]. exists data, hourly. auto.
Qed.

(** X13. The current conditions, when defined, have a humidity between 0
    and 100, no negative wind speed, precipitation, 24-hour precipitation
    or UV index, a [feelsLike] equal to [temp], a visibility of 10, the
    same [description] and [condition], and one of the classifier's five
    pairs as condition and icon. *)
Theorem current_conditions_in_bounds (hour_label : string -> string)
    (daily : result daily_response) (hourly_fetch : result power_response)
    (display_name : option string) (coords : string) (c : Current.t)
    (rows : option (list Row.t)) (n : string) :
  get_real_weather_data_by_point hour_label daily hourly_fetch display_name
    coords = (Some c, rows, n) ->
  current_in_bounds c.
Proof.
  intros H. apply get_real_weather_Some, current_body_Some in H.
  destruct H as (p & data & hourly & temp_c & rh_n & pr_n & tmax_c & tmin_c
                 & ws_n & uvi & ps & dew & _ & _ & Hg & _ & _ & _ & _ & _ & _
                 & _ & _ & Hl & ->).
  unfold current_in_bounds. cbn.
  assert (Hp : 0 <= match last_row hourly with
                    | Some r => Row.precipitation r
                    | None => 0
                    end).
  { destruct (last_row hourly) as [r|] eqn:El; [|lra].
    destruct (hourly_last_row hour_label data 24 hourly r Hg El)
      as (_ & Hb & _). apply Hb. }
  repeat split.
  - apply clamp_0_100.
  - apply clamp_0_100.
  - apply py_round_nonneg. pose proof (py_max_0_nonneg ws_n). lra.
  - now apply py_round2_nonneg.
  - apply py_round2_nonneg, py_max_0_nonneg.
  - destruct (last_row hourly) as [r|] eqn:El.
    + destruct Hl as (-> & _).
      destruct (hourly_last_row hour_label data 24 hourly r Hg El)
        as (_ & Hb & _).
      destruct Hb as (_ & _ & _ & Hu & _).
      rewrite Zle_Qle in Hu. exact Hu.
    + destruct Hl as ((uv_n & _ & ->) & _). apply py_max_0_nonneg.
  - rewrite <- surjective_pairing. apply get_weather_condition_pairs.
Qed.

(** The sample: three days of daily values and the sample hourly answer. *)
Lemma current_conditions_in_bounds_witness :
  current_in_bounds sample_conditions.
Proof.
  apply (current_conditions_in_bounds sample_label
           (Ok (DailyData sample_daily)) (Ok sample_power) None
           "40.7000, -74.0000" sample_conditions
           (snd (fst sample_current)) (snd sample_current)).
  vm_compute. reflexivity.
Defined.

Example sample_conditions_values :
  Current.temp sample_conditions = 45%Z /\
  Current.high sample_conditions = 54%Z /\
  Current.low sample_conditions = 45%Z /\
  Current.humidity sample_conditions == 100 /\
  Current.wind sample_conditions = 8%Z /\
  Current.precipLast24h sample_conditions == 12 /\
  Current.condition sample_conditions = "Cloudy" /\
  snd sample_current = "40.7000, -74.0000".
Proof. vm_compute. repeat split; reflexivity. Qed.

(** X14. The current conditions take precipitation, UV index, pressure and
    dew point from the last hourly record, the one labelled "Now", when
    the hourly list has one. With an empty hourly list the precipitation is
    0, not the daily amount, so that the condition is one of the three
    humidity bands. *)
Theorem current_follows_hourly (hour_label : string -> string)
    (daily : result daily_response) (hourly_fetch : result power_response)
    (display_name : option string) (coords : string) (c : Current.t)
    (rows : list Row.t) (n : string) :
  get_real_weather_data_by_point hour_label daily hourly_fetch display_name
    coords = (Some c, Some rows, n) ->
  follows_hourly c rows.
Proof.
  intros H. apply get_real_weather_Some, current_body_Some in H.
  destruct H as (p & data & hourly & temp_c & rh_n & pr_n & tmax_c & tmin_c
                 & ws_n & uvi & ps & dew & _ & _ & Hg & Eh & _ & _ & _ & _ & _
                 & _ & _ & Hl & ->).
  injection Eh as <-. unfold follows_hourly.
  destruct (last_row rows) as [now|] eqn:El; cbn.
  - destruct Hl as (-> & -> & ->).
    destruct (hourly_last_row hour_label data 24 rows now Hg El)
      as (Ht & _ & x & Hx).
    repeat split; try assumption.
    rewrite Hx. apply py_round2_idempotent.
  - split; [reflexivity|].
    unfold get_weather_condition. q_cases; simpl; auto; exfalso; lra.
Qed.

Lemma current_follows_hourly_witness :
  follows_hourly sample_conditions sample_rows.
Proof.
  apply (current_follows_hourly sample_label (Ok (DailyData sample_daily))
           (Ok sample_power) None "40.7000, -74.0000" sample_conditions
           sample_rows (snd sample_current)).
  vm_compute. reflexivity.
Defined.

Example sample_no_hourly_is_dry :
  snd (fst sample_current_no_hourly) = Some [] /\
  Current.precipitation sample_conditions_no_hourly == 0 /\
  Current.precipLast24h sample_conditions_no_hourly == 12 /\
  Current.condition sample_conditions_no_hourly = "Cloudy" /\
  snd sample_current_no_hourly = "Paris".
Proof. vm_compute. repeat split; reflexivity. Qed.

Lemma as_num_mv_default (d q : Q) :
  as_num (mv SNone (SNum d)) = Ok q -> q = d.
Proof. simpl. intros H. now injection H. Qed.

(** X15. The fallbacks of the current conditions: a temperature series
    without a valid value gives 68 degrees (20 Celsius); a maximum or a
    minimum series without one gives the current temperature as high or
    low; humidity falls back to 60, wind and the 24-hour precipitation
    to 0. *)
Theorem current_daily_fallbacks (hour_label : string -> string)
    (p : dict (dict scalar)) (hourly_fetch : result power_response)
    (display_name : option string) (coords : string) (c : Current.t)
    (rows : option (list Row.t)) (n : string) :
  get_real_weather_data_by_point hour_label (Ok (DailyData p)) hourly_fetch
    display_name coords = (Some c, rows, n) ->
  daily_fallbacks p c.
Proof.
  intros H. apply get_real_weather_Some, current_body_Some in H.
  destruct H as (p' & data & hourly & temp_c & rh_n & pr_n & tmax_c & tmin_c
                 & ws_n & uvi & ps & dew & Ep & _ & _ & _ & _ & E1 & E2 & E3
                 & E4 & E5 & E6 & _ & ->).
  injection Ep as <-. unfold daily_fallbacks. cbn.
  repeat split; intros Hm;
    rewrite (latest_all_missing p _ SNone Hm) in *.
  - apply as_num_mv_default in E1. subst temp_c. reflexivity.
  - apply as_num_mv_default in E4. now subst tmax_c.
  - apply as_num_mv_default in E5. now subst tmin_c.
  - apply as_num_mv_default in E2. subst rh_n. reflexivity.
  - apply as_num_mv_default in E6. subst ws_n. reflexivity.
  - apply as_num_mv_default in E3. subst pr_n. reflexivity.
Qed.

Lemma current_daily_fallbacks_witness :
  daily_fallbacks sample_daily sample_conditions.
Proof.
  apply (current_daily_fallbacks sample_label sample_daily (Ok sample_power)
           None "40.7000, -74.0000" sample_conditions
           (snd (fst sample_current)) (snd sample_current)).
  vm_compute. reflexivity.
Defined.

(** ** The daily trend *)

Lemma omap_all_Some {A B : Type} (f : A -> option B) (l : list A)
    (out : list B) :
  omap_all f l = Some out ->
  length out = length l /\
  forall b, In b out -> exists a, In a l /\ f a = Some b.
Proof.
  revert out. induction l as [|a l IH]; simpl; intros out H.
  - injection H as <-. split; [reflexivity | intros b []].
  - destruct (f a) as [b0|] eqn:Ea; simpl in H; [|discriminate].
    destruct (omap_all f l) as [bs|]; simpl in H; [|discriminate].
    injection H as <-. destruct (IH bs eq_refl) as [Hlen Hin].
    split; [simpl; now rewrite Hlen|].
    intros b [<-|Hb]; [exists a; auto|].
    destruct (Hin b Hb) as (a' & Ha' & E). exists a'. auto.
Qed.


Lemma trend_entry_in_bounds (date_label : string -> option string)
    (p : dict (dict scalar)) (dk : string) (e : Trend.t) :
  trend_entry date_label p dk = Some e -> trend_in_bounds e.
Proof.
  unfold trend_entry. intros H.
  repeat match type of H with
    | obind ?m _ = Some _ =>
        destruct m; cbn [obind] in H; [|discriminate H]
    end.
  injection H as <-. unfold trend_in_bounds. cbn.
  repeat split.
  - apply clamp_0_100.
  - apply clamp_0_100.
  - apply py_round_nonneg.
    match goal with
    | |- 0 <= py_max 0 ?y * _ => pose proof (py_max_0_nonneg y)
    end. lra.
  - apply py_round2_nonneg, py_max_0_nonneg.
  - rewrite <- surjective_pairing. apply get_weather_condition_pairs.
Qed.

(** X16. Every entry of a daily trend has a humidity between 0 and 100, no
    negative wind speed or precipitation, the same [description] and
    [condition], and one of the classifier's five pairs as condition and
    icon. *)
Theorem trend_entries_in_bounds (date_label : string -> option string)
    (daily : result daily_response) (days : Z) (out : list Trend.t)
    (e : Trend.t) :
  get_real_forecast_trend date_label daily days = Some out -> In e out ->
  trend_in_bounds e.
Proof.
  unfold get_real_forecast_trend.
  destruct daily as [[|p]|]; try discriminate.
  intros H He. apply omap_all_Some in H. destruct H as [_ H].
  destruct (H e He) as (dk & _ & Hd).
  exact (trend_entry_in_bounds date_label p dk e Hd).
Qed.

Lemma trend_entries_in_bounds_witness : trend_in_bounds sample_trend_entry.
Proof.
  apply (trend_entries_in_bounds sample_date_label
           (Ok (DailyData sample_daily)) 2 sample_trend sample_trend_entry).
  - vm_compute. reflexivity.
  - vm_compute. auto.
Defined.

Example sample_trend_values :
  map Trend.date sample_trend = ["0102"; "0103"] /\
  map Trend.high sample_trend = [54; 68]%Z /\
  map Trend.low sample_trend = [50; 50]%Z /\
  map Trend.condition sample_trend = ["Rainy"; "Clear"].
Proof. vm_compute. repeat split; reflexivity. Qed.




Example trend_without_minima :
  get_real_forecast_trend sample_date_label (Ok (DailyData maxima_only)) 7
  = None /\
  get_real_forecast_trend sample_date_label (Ok (DailyData [])) 7 = Some [].
Proof. split; reflexivity. Qed.

(** ** More on the event scorer *)

Lemma filter_enumerate_snd {A : Type} (f : A -> bool) (l : list A) :
  map snd (filter (fun it : nat * A => f (snd it)) (enumerate l)) = filter f l.
Proof.
  unfold enumerate. generalize 0%nat.
  induction l as [|a l IH]; intros n; simpl; [reflexivity|].
  destruct (f a); simpl; now rewrite IH.
Qed.

Lemma build_window_times (h : OpenMeteo.hourly) (s e : string)
    (window : list Entry.t) :
  build_window h s e = Ok window ->
  map Entry.time window = filter (in_window s e) (OpenMeteo.time h).
Proof.
  unfold build_window. intros H.
  rewrite <- (filter_enumerate_snd (in_window s e) (OpenMeteo.time h)).
  apply mapM_Forall2 in H.
  induction H as [|it x l l' Hx _ IH]; simpl; [reflexivity|].
  apply entry_at_Ok in Hx. destruct Hx as (-> & _). now rewrite IH.
Qed.

Lemma score_window_wording (window : list Entry.t) (lat lon : Q)
    (s e unit event_type : string) (a : Advice.t) :
  score_window window lat lon s e unit event_type = Ok a ->
  Advice.location a = (lat, lon) /\ Advice.window a = (s, e) /\
  map Advice.o_time (Advice.hourly a) = map Entry.time window /\
  Advice.suggestions a
  = suggestions_of (Advice.precip (Advice.the_risks a))
      (Advice.wind (Advice.the_risks a))
      (Advice.temperature (Advice.the_risks a))
      (Advice.uv (Advice.the_risks a)) /\
  Advice.favorable a
  = favorable_of (Advice.precip (Advice.the_risks a))
      (Advice.wind (Advice.the_risks a))
      (Advice.temperature (Advice.the_risks a)) /\
  Advice.summary a
  = (if Advice.favorable a then "Favorable" else "Not favorable").
Proof.
  unfold score_window.
  destruct (max_precip_of window) as [m|]; cbn [bind]; [|discriminate].
  intros H. injection H as <-. cbn. rewrite map_map. cbn.
  repeat split; reflexivity.
Qed.

(** X18. An advice lists exactly the forecast hours whose timestamp lies
    in the window, both ends included, in the order of the forecast, and
    carries the coordinates and the window it was asked for. *)
Theorem advice_hours_are_the_window (fetched : result OpenMeteo.hourly)
    (lat lon : Q) (s e unit event_type : string) (a : Advice.t) (status : Z) :
  get_event_advice fetched lat lon s e unit event_type = (AdviceBody a, status) ->
  exists h,
    fetched = Ok h /\
    map Advice.o_time (Advice.hourly a)
    = filter (in_window s e) (OpenMeteo.time h) /\
    Advice.location a = (lat, lon) /\ Advice.window a = (s, e).
Proof.
  intros H. apply get_event_advice_advice in H.
  destruct H as (h & window & Hf & Hw & _ & Hs & _).
  apply score_window_wording in Hs. destruct Hs as (Hl & Hwd & Ht & _).
  exists h. rewrite Ht, (build_window_times h s e window Hw). auto.
Qed.

Lemma advice_hours_are_the_window_witness :
  exists h,
    Ok wedding_forecast = Ok h /\
    map Advice.o_time (Advice.hourly wedding_advice)
    = filter (in_window "2025-06-14T14:00" "2025-06-14T18:00")
             (OpenMeteo.time h) /\
    Advice.location wedding_advice = (40.7, -74) /\
    Advice.window wedding_advice = ("2025-06-14T14:00", "2025-06-14T18:00").
Proof.
  apply (advice_hours_are_the_window (Ok wedding_forecast) 40.7 (-74)
           "2025-06-14T14:00" "2025-06-14T18:00" "celsius" "wedding"
           wedding_advice 200%Z).
  vm_compute. reflexivity.
Defined.

(** X19. The suggestions of an advice are empty exactly when all four
    risks are low, never more than five, and at most two (temperature and
    UV) when the verdict is favorable; the summary reads "Favorable" or
    "Not favorable" as the verdict says. *)
Theorem advice_suggestions_follow_risks (fetched : result OpenMeteo.hourly)
    (lat lon : Q) (s e unit event_type : string) (a : Advice.t) (status : Z) :
  get_event_advice fetched lat lon s e unit event_type = (AdviceBody a, status) ->
  advice_wording a.
Proof.
  intros H. apply get_event_advice_advice in H.
  destruct H as (h & window & _ & _ & _ & Hs & _).
  apply score_window_wording in Hs.
  destruct Hs as (_ & _ & _ & Hsg & Hfav & Hsum).
  unfold advice_wording. rewrite Hsum, Hfav, Hsg.
  destruct (Advice.the_risks a) as [rp rw rt ru]. cbn.
  destruct rp, rw, rt, ru; cbn; repeat split;
    try discriminate; try reflexivity; try lia; intros; discriminate.
Qed.

Lemma advice_suggestions_follow_risks_witness : advice_wording wedding_advice.
Proof.
  apply (advice_suggestions_follow_risks (Ok wedding_forecast) 40.7 (-74)
           "2025-06-14T14:00" "2025-06-14T18:00" "celsius" "wedding"
           wedding_advice 200%Z).
  vm_compute. reflexivity.
Defined.

Lemma leb_trans (a b c : string) :
  String.leb a b = true -> String.leb b c = true -> String.leb a c = true.
Proof.
  unfold String.leb.
  destruct (String.compare a b) eqn:E1; try discriminate;
    destruct (String.compare b c) eqn:E2; try discriminate; intros _ _.
  - apply String.compare_eq_iff in E1, E2. subst. now rewrite compare_refl.
  - apply String.compare_eq_iff in E1. subst. now rewrite E2.
  - apply String.compare_eq_iff in E2. subst. now rewrite E1.
  - now rewrite (compare_Lt_trans a b c E1 E2).
Qed.

(** X20. A window whose end lies before its start holds no forecast hour:
    the answer is the no-data message with status 200, not an error. *)
Theorem reversed_window_has_no_data (h : OpenMeteo.hourly) (lat lon : Q)
    (s e unit event_type : string) :
  String.leb s e = false ->
  get_event_advice (Ok h) lat lon s e unit event_type
  = (ErrorBody "No forecast data for the selected window", 200%Z).
Proof.
  intros Hse. unfold get_event_advice, event_advice_body. cbn [bind].
  rewrite (@build_window_empty h s e); [reflexivity|].
  intros t _. unfold in_window.
  destruct (String.leb s t) eqn:E1; [|reflexivity].
  destruct (String.leb t e) eqn:E2; [|reflexivity].
  rewrite (leb_trans s t e E1 E2) in Hse. discriminate.
Qed.

Lemma reversed_window_has_no_data_witness :
  get_event_advice (Ok wedding_forecast) 40.7 (-74) "2025-06-14T18:00"
    "2025-06-14T14:00" "celsius" "wedding"
  = (ErrorBody "No forecast data for the selected window", 200%Z).
Proof.
  apply (reversed_window_has_no_data wedding_forecast 40.7 (-74)
           "2025-06-14T18:00" "2025-06-14T14:00" "celsius" "wedding").
  reflexivity.
Defined.

Lemma mapM_In_Raise {A B : Type} (f : A -> result B) (l : list A) (a : A)
    (e : exn) :
  In a l -> f a = Raise e -> exists e', mapM f l = Raise e'.
Proof.
  induction l as [|x l IH]; simpl; intros Hin Hf; [destruct Hin|].
  destruct (f x) as [b|e0] eqn:Ex; cbn [bind]; [|eauto].
  destruct Hin as [->|Hin]; [congruence|].
  destruct (IH Hin Hf) as (e' & ->). cbn [bind]. eauto.
Qed.

Lemma mapM_Ok_image {A B : Type} (f : A -> result B) (l : list A)
    (l' : list B) (a : A) :
  mapM f l = Ok l' -> In a l -> exists b, In b l' /\ f a = Ok b.
Proof.
  intros H. apply mapM_Forall2 in H.
  induction H as [|x y l l' Hxy _ IH]; intros Hin; [destruct Hin|].
  destruct Hin as [->|Hin].
  - exists y. split; [now left | exact Hxy].
  - destruct (IH Hin) as (b & Hb & E). exists b. split; [now right|exact E].
Qed.

(** X21. One unreadable sample fails the whole advice: when a forecast
    hour inside the window has a null wind speed or a null precipitation,
    the answer is the failure message with status 500, whatever the other
    samples hold. *)
Theorem unreadable_sample_fails (h : OpenMeteo.hourly) (lat lon : Q)
    (s e unit event_type : string) :
  unreadable_sample h s e ->
  get_event_advice (Ok h) lat lon s e unit event_type
  = (ErrorBody "Failed to compute event advice", 500%Z).
Proof.
  intros (i & t & Hi & Hw & Hnull).
  assert (Hin : In (i, t)
                   (filter (fun it => in_window s e (snd it))
                           (enumerate (OpenMeteo.time h)))).
  { apply filter_In. split; [now apply In_enumerate | exact Hw]. }
  unfold get_event_advice, event_advice_body. cbn [bind].
  destruct (build_window h s e) as [window|ex] eqn:Ew; cbn [bind];
    [|reflexivity].
  unfold build_window in Ew.
  destruct (mapM_Ok_image (entry_at h) _ window (i, t) Ew Hin)
    as (x & Hx & Ex).
  destruct Hnull as [Hwind|Hprecip].
  - unfold entry_at in Ex. cbn [fst] in Ex. rewrite Hwind in Ex.
    discriminate.
  - apply entry_at_Ok in Ex. destruct Ex as (_ & Hp & _).
    cbn [fst] in Hp. rewrite Hprecip in Hp.
    destruct window as [|x0 window']; [destruct Hx|].
    assert (Hr : exists ex, max_precip_of (x0 :: window') = Raise ex).
    { unfold max_precip_of.
      destruct (mapM_In_Raise need_num
                  (map Entry.precip_mm (x0 :: window')) None TypeError)
        as (ex & ->); [|reflexivity|cbn [bind]; eauto].
      rewrite <- Hp. now apply in_map. }
    destruct Hr as (ex & Hr). unfold score_window. rewrite Hr. reflexivity.
Qed.

Lemma unreadable_sample_fails_witness :
  get_event_advice (Ok gusty_forecast) 40.7 (-74) "2025-06-14T14:00"
    "2025-06-14T18:00" "celsius" "wedding"
  = (ErrorBody "Failed to compute event advice", 500%Z).
Proof.
  apply (unreadable_sample_fails gusty_forecast 40.7 (-74)
           "2025-06-14T14:00" "2025-06-14T18:00" "celsius" "wedding").
  exists 1%nat, "2025-06-14T16:00". repeat split. now left.
Defined.

Lemma mapM_Ok_map {A B : Type} (f : A -> result B) (g : A -> B)
    (l : list A) :
  (forall a, f a = Ok (g a)) -> mapM f l = Ok (map g l).
Proof.
  intros H. induction l as [|a l IH]; simpl; [reflexivity|].
  rewrite H, IH. reflexivity.
Qed.

Lemma py_max_same (x : Q) : py_max x x = x.
Proof. unfold py_max. destruct (Qlt_le_dec x x); reflexivity. Qed.

Lemma max_list_const {A : Type} (x : Q) (l : list A) :
  l <> [] -> max_list (map (fun _ => x) l) = Some x.
Proof.
  destruct l as [|a l]; [congruence|]. intros _. simpl. f_equal.
  induction l as [|b l IH]; simpl; [reflexivity|].
  now rewrite py_max_same.
Qed.

Lemma not_none_const {A : Type} (l : list A) :
  not_none (map (fun _ => None) l) = [].
Proof. induction l; simpl; auto. Qed.

Lemma mapM_need_num_const {A : Type} (q : Q) (l : list A) :
  mapM need_num (map (fun _ => Some q) l) = Ok (map (fun _ => q) l).
Proof. induction l as [|a l IH]; simpl; [|rewrite IH]; reflexivity. Qed.

(** The entry of a forecast that carries timestamps only. *)
Lemma entry_at_times_only (times : list string) (it : nat * string) :
  entry_at (times_only times) it
  = Ok (Entry.mk (snd it) None (Some 0) None (py_round1 (0 * 0.621371))
                 None None).
Proof.
  unfold entry_at, times_only. cbn.
  destruct (fst it); reflexivity.
Qed.

(** X22. Absent arrays are tolerated: for a forecast that carries
    timestamps only, an hour inside the window counts as no wind and no
    precipitation, with nothing else known, so that the advice has four
    low risks, no suggestion, a favorable verdict and status 200. *)
Theorem timestamps_only_forecast_is_calm (times : list string) (lat lon : Q)
    (s e unit event_type : string) :
  (exists t, In t times /\ in_window s e t = true) ->
  exists a,
    get_event_advice (Ok (times_only times)) lat lon s e unit event_type
    = (AdviceBody a, 200%Z) /\
    Advice.the_risks a = Advice.mk_risks low low low low /\
    Advice.favorable a = true /\ Advice.suggestions a = [] /\
    Advice.max_pop_percent (Advice.the_metrics a) = None /\
    Advice.avg_temp (Advice.the_metrics a) = None.
Proof.
  intros (t & Ht & Hw).
  set (g := fun it : nat * string =>
              Entry.mk (snd it) None (Some 0) None
                       (py_round1 (0 * 0.621371)) None None).
  set (l := filter (fun it : nat * string => in_window s e (snd it))
                   (enumerate times)).
  assert (Hl : l <> []).
  { apply In_nth_error in Ht. destruct Ht as (i & Hi).
    assert (Hin : In (i, t) l)
      by (apply filter_In; split; [now apply In_enumerate | exact Hw]).
    intros E. rewrite E in Hin. destruct Hin. }
  assert (Ew : build_window (times_only times) s e = Ok (map g l)).
  { unfold build_window. apply mapM_Ok_map. apply entry_at_times_only. }
  assert (E1 : max_wind_of (map g l) = py_round1 (0 * 0.621371)).
  { unfold max_wind_of. rewrite map_map. cbn [g Entry.wind_mph].
    now rewrite (max_list_const _ l Hl). }
  assert (E2 : max_precip_of (map g l) = Ok 0).
  { unfold max_precip_of. rewrite map_map. cbn [g Entry.precip_mm].
    rewrite mapM_need_num_const. cbn [bind].
    now rewrite (max_list_const _ l Hl). }
  assert (E3 : max_pop_of (map g l) = None).
  { unfold max_pop_of. rewrite map_map. cbn [g Entry.pop].
    now rewrite not_none_const. }
  assert (E4 : avg_temp_c_of (map g l) = None).
  { unfold avg_temp_c_of. rewrite map_map. cbn [g Entry.temp_c].
    now rewrite not_none_const. }
  assert (E5 : max_uvi_of (map g l) = 0).
  { unfold max_uvi_of. rewrite map_map. cbn [g Entry.uv].
    now rewrite not_none_const. }
  unfold get_event_advice, event_advice_body. cbn [bind]. rewrite Ew.
  cbn [bind]. destruct (map g l) as [|x w] eqn:Em.
  - apply map_eq_nil in Em. contradiction.
  - unfold score_window.
    rewrite E1, E2, E3, E4, E5. cbn [bind].
    eexists. split; [reflexivity|]. cbn.
    repeat split; destruct (String.eqb (lower unit) "celsius"); reflexivity.
Qed.

Lemma timestamps_only_forecast_is_calm_witness :
  exists a,
    get_event_advice (Ok (times_only ["2025-06-14T15:00"])) 40.7 (-74)
      "2025-06-14T14:00" "2025-06-14T18:00" "celsius" "picnic"
    = (AdviceBody a, 200%Z) /\
    Advice.the_risks a = Advice.mk_risks low low low low /\
    Advice.favorable a = true /\ Advice.suggestions a = [] /\
    Advice.max_pop_percent (Advice.the_metrics a) = None /\
    Advice.avg_temp (Advice.the_metrics a) = None.
Proof.
  apply (timestamps_only_forecast_is_calm ["2025-06-14T15:00"] 40.7 (-74)
           "2025-06-14T14:00" "2025-06-14T18:00" "celsius" "picnic").
  exists "2025-06-14T15:00". split; [now left | reflexivity].
Defined.

(** ** The weather route *)

Lemma row_obj_no_text (r : Row.t) :
  ~ has_text ["temp"; "feelsLike"; "dewPoint"] (row_obj r).
Proof.
  intros (k & s & Hk & Hs). in_cases; subst k; cbn in Hs; discriminate.
Qed.

Lemma current_obj_no_text (c : Current.t) :
  ~ has_text ["temp"; "feelsLike"; "dewPoint"; "high"; "low"] (current_obj c).
Proof.
  intros (k & s & Hk & Hs). in_cases; subst k; cbn in Hs; discriminate.
Qed.

Lemma Forall2_map_eq {A B : Type} (R : A -> A -> Prop) (f : A -> B)
    (l l' : list A) :
  (forall a a', R a a' -> f a' = f a) -> Forall2 R l l' -> map f l' = map f l.
Proof.
  intros HR H. induction H as [|a a' l l' Ha _ IH]; simpl; [reflexivity|].
  now rewrite (HR a a' Ha), IH.
Qed.

(** The shaper on the data of the weather route: it returns, and what it
    returns has the current temperatures shaped and the times kept. *)
Lemma format_weather_route (c : Current.t) (kept : list Row.t)
    (others : dict scalar) (unit : string) :
  exists data,
    format_weather_response
      (Response.mk (Some (current_obj c)) (Some (map row_obj kept)) None None
                   others) unit = Ok data /\
    Response.unit data
    = Some (if String.eqb (lower unit) "celsius" then "°C" else "°F") /\
    Response.others data = others /\
    hourly_times data = map (fun r => Some (SStr (Row.time r))) kept /\
    forall k, In k ["temp"; "feelsLike"; "dewPoint"; "high"; "low"] ->
              match Response.current data with
              | Some o =>
                  dict_get k o
                  = shaped (String.eqb (lower unit) "celsius")
                           (dict_get k (current_obj c))
              | None => False
              end.
Proof.
  unfold format_weather_response.
  set (cel := String.eqb (lower unit) "celsius").
  cbn [Response.current Response.hourly Response.forecast Response.others
       on_opt].
  destruct (proj2 (convert_keys_Ok_iff cel
                     ["temp"; "feelsLike"; "dewPoint"; "high"; "low"]
                     (current_obj c)) (current_obj_no_text c)) as (o' & Eo).
  rewrite Eo. cbn [bind].
  destruct (mapM_Ok_all (convert_keys cel ["temp"; "feelsLike"; "dewPoint"])
              (map row_obj kept)) as (l' & El).
  { intros o Ho. apply in_map_iff in Ho. destruct Ho as (r & <- & _).
    apply (proj2 (convert_keys_Ok_iff cel _ (row_obj r))).
    apply row_obj_no_text. }
  rewrite El. cbn [bind]. eexists. split; [reflexivity|].
  cbn [Response.unit Response.others Response.current].
  split; [reflexivity|]. split; [reflexivity|]. split.
  - unfold hourly_times. cbn.
    assert (N3 : NoDup ["temp"; "feelsLike"; "dewPoint"])
      by (repeat constructor; simpl; intuition discriminate).
    apply (mapM_rel _ (shaped_obj cel ["temp"; "feelsLike"; "dewPoint"]))
      in El; [|intros a a'; now apply convert_keys_spec].
    transitivity (map (dict_get "time") (map row_obj kept));
      [|now rewrite map_map].
    apply (Forall2_map_eq
             (shaped_obj cel ["temp"; "feelsLike"; "dewPoint"])
             (dict_get "time") (map row_obj kept) l'
             (fun a a' H => proj2 H "time") El).
  - intros k Hk.
    assert (N5 : NoDup ["temp"; "feelsLike"; "dewPoint"; "high"; "low"])
      by (repeat constructor; simpl; intuition discriminate).
    pose proof (@convert_keys_spec cel _ _ _ N5 Eo) as [_ G].
    rewrite (G k). apply str_in_In in Hk. now rewrite Hk.
Qed.

Lemma api_weather_kept (rows : list Row.t) (hours : Z) :
  (if negb (Nat.eqb (length rows) 0) && (hours <? Z.of_nat (length rows))%Z
   then slice_from (- hours) rows else rows)
  = if (0 <? hours)%Z then skipn (length rows - Z.to_nat hours) rows
    else skipn (Z.to_nat (- hours)) rows.
Proof.
  destruct rows as [|r rows].
  - simpl. destruct (0 <? hours)%Z; rewrite ?skipn_nil; reflexivity.
  - cbn [negb Nat.eqb length andb].
    set (l := r :: rows). set (n := S (length rows)).
    assert (Hn : length l = n) by reflexivity.
    destruct (hours <? Z.of_nat n)%Z eqn:E1; destruct (0 <? hours)%Z eqn:E2;
      try apply Z.ltb_lt in E1; try apply Z.ltb_ge in E1;
      try apply Z.ltb_lt in E2; try apply Z.ltb_ge in E2.
    + unfold slice_from. rewrite Hn.
      replace (- hours <? 0)%Z with true by (symmetry; apply Z.ltb_lt; lia).
      f_equal. lia.
    + unfold slice_from. rewrite Hn.
      replace (- hours <? 0)%Z with false by (symmetry; apply Z.ltb_ge; lia).
      destruct (Z.le_ge_cases (- hours) (Z.of_nat n)) as [Hle|Hge].
      * now rewrite Z.min_l.
      * rewrite Z.min_r by exact Hge. rewrite Nat2Z.id, <- Hn, skipn_all.
        symmetry. apply skipn_all2. lia.
    + replace (n - Z.to_nat hours)%nat with 0%nat by lia. reflexivity.
    + lia.
Qed.

(** X23. The weather route from the builder's triple on: without current
    conditions the reply is the error message with status 400; with them
    the shaper never fails, and the reply carries the unit symbol, the
    name as location and, as hourly list, the last [hours] records of the
    builder's list when [hours] is positive, and the list without its
    first [-hours] records otherwise (all of it for [hours = 0]). *)
Theorem api_weather_reply
    (fetched : option Current.t * option (list Row.t) * string)
    (hours : Z) (unit timestamp : string) :
  (fst (fst fetched) = None ->
   api_weather fetched hours unit timestamp
   = Ok (WeatherError "Unable to fetch weather data" 400)) /\
  (forall c rows n,
      fetched = (Some c, Some rows, n) ->
      exists data,
        api_weather fetched hours unit timestamp = Ok (WeatherData data) /\
        Response.unit data
        = Some (if String.eqb (lower unit) "celsius" then "°C" else "°F") /\
        dict_get "location" (Response.others data) = Some (SStr n) /\
        hourly_times data
        = map (fun r => Some (SStr (Row.time r)))
              (if (0 <? hours)%Z
               then skipn (length rows - Z.to_nat hours) rows
               else skipn (Z.to_nat (- hours)) rows)).
Proof.
  split.
  - destruct fetched as [[[c|] oh] n]; simpl; [discriminate|reflexivity].
  - intros c rows n ->. unfold api_weather.
    rewrite api_weather_kept.
    destruct (format_weather_route c
                (if (0 <? hours)%Z
                 then skipn (length rows - Z.to_nat hours) rows
                 else skipn (Z.to_nat (- hours)) rows)
                [("location", SStr n); ("timestamp", SStr timestamp);
                 ("source", SStr "NASA POWER API")] unit)
      as (data & -> & Hu & Ho & Ht & _).
    cbn [bind]. exists data. rewrite Ho. auto.
Qed.

Example sample_reply_values :
  hourly_times sample_reply
  = [Some (SStr "02"); Some (SStr "00"); Some (SStr "Now")] /\
  Response.unit sample_reply = Some "°C" /\
  (exists t, current_number "temp" sample_reply = Some t /\ t == 7.2) /\
  (exists t, current_number "humidity" sample_reply = Some t /\ t == 100).
Proof.
  repeat split; try (vm_compute; reflexivity);
    eexists; (split; [vm_compute; reflexivity | reflexivity]).
Qed.

Lemma celsius_of_display_close (temp_c : Q) :
  Qabs (py_round1 ((inject_Z (display_temp_f temp_c) - 32) * 5 / 9) - temp_c)
  <= 1.
Proof.
  unfold display_temp_f.
  set (f := inject_Z (py_round (temp_c * 9 / 5 + 32))).
  pose proof (py_round_lower (temp_c * 9 / 5 + 32)) as Hlo.
  pose proof (py_round_upper (temp_c * 9 / 5 + 32)) as Hhi.
  fold f in Hlo, Hhi. clearbody f.
  pose proof (py_round1_lower ((f - 32) * 5 / 9)) as Hlo1.
  pose proof (py_round1_upper ((f - 32) * 5 / 9)) as Hhi1.
  set (b := py_round1 ((f - 32) * 5 / 9)) in *. clearbody b.
  apply Qabs_Qle_condition. split; q_lra.
Qed.

(** X24. From the provider to the reply: when Celsius is asked for, the
    temperature, the high and the low of the current conditions in the
    reply are each within 1 degree of the Celsius value they come from
    (the latest valid daily temperature, maximum and minimum, or their
    fallbacks), although they went through integer Fahrenheit. *)
Theorem weather_celsius_is_close (hour_label : string -> string)
    (p : dict (dict scalar)) (hourly_fetch : result power_response)
    (display_name : option string) (coords : string) (hours : Z)
    (unit timestamp : string) (c : Current.t) (rows : option (list Row.t))
    (n : string) :
  get_real_weather_data_by_point hour_label (Ok (DailyData p)) hourly_fetch
    display_name coords = (Some c, rows, n) ->
  String.eqb (lower unit) "celsius" = true ->
  exists data temp_c tmax_c tmin_c t hi lo,
    api_weather (Some c, rows, n) hours unit timestamp = Ok (WeatherData data)
    /\ as_num (mv (latest p "T2M" SNone) (SNum 20)) = Ok temp_c
    /\ as_num (mv (latest p "T2M_MAX" SNone) (SNum temp_c)) = Ok tmax_c
    /\ as_num (mv (latest p "T2M_MIN" SNone) (SNum temp_c)) = Ok tmin_c
    /\ current_number "temp" data = Some t /\ Qabs (t - temp_c) <= 1
    /\ current_number "high" data = Some hi /\ Qabs (hi - tmax_c) <= 1
    /\ current_number "low" data = Some lo /\ Qabs (lo - tmin_c) <= 1.
Proof.
  intros H Hu. apply get_real_weather_Some, current_body_Some in H.
  destruct H as (p' & data0 & hourly & temp_c & rh_n & pr_n & tmax_c & tmin_c
                 & ws_n & uvi & ps & dew & Ep & _ & _ & -> & _ & E1 & _ & _
                 & E4 & E5 & _ & _ & Hc).
  injection Ep as <-.
  unfold api_weather. rewrite api_weather_kept.
  destruct (format_weather_route c
              (if (0 <? hours)%Z
               then skipn (length hourly - Z.to_nat hours) hourly
               else skipn (Z.to_nat (- hours)) hourly)
              [("location", SStr n); ("timestamp", SStr timestamp);
               ("source", SStr "NASA POWER API")] unit)
    as (data & -> & _ & _ & _ & Hk).
  cbn [bind]. rewrite Hu in Hk.
  exists data, temp_c, tmax_c, tmin_c.
  pose proof (Hk "temp") as Kt. pose proof (Hk "high") as Kh.
  pose proof (Hk "low") as Kl.
  unfold current_number.
  destruct (Response.current data) as [o|];
    [|exfalso; apply Kt; simpl; tauto].
  rewrite Kt, Kh, Kl by (simpl; tauto). rewrite Hc. cbn.
  do 3 eexists.
  repeat split; try eassumption; try reflexivity;
    apply celsius_of_display_close.
Qed.

Lemma weather_celsius_is_close_witness :
  exists data temp_c tmax_c tmin_c t hi lo,
    api_weather (Some sample_conditions, snd (fst sample_current),
                 snd sample_current) 3 "Celsius" "2025-01-03T00:00:00Z"
    = Ok (WeatherData data)
    /\ as_num (mv (latest sample_daily "T2M" SNone) (SNum 20)) = Ok temp_c
    /\ as_num (mv (latest sample_daily "T2M_MAX" SNone) (SNum temp_c))
       = Ok tmax_c
    /\ as_num (mv (latest sample_daily "T2M_MIN" SNone) (SNum temp_c))
       = Ok tmin_c
    /\ current_number "temp" data = Some t /\ Qabs (t - temp_c) <= 1
    /\ current_number "high" data = Some hi /\ Qabs (hi - tmax_c) <= 1
    /\ current_number "low" data = Some lo /\ Qabs (lo - tmin_c) <= 1.
Proof.
  apply (weather_celsius_is_close sample_label sample_daily (Ok sample_power)
           None "40.7000, -74.0000" 3 "Celsius" "2025-01-03T00:00:00Z"
           sample_conditions (snd (fst sample_current)) (snd sample_current)).
  - vm_compute. reflexivity.
  - reflexivity.
Defined.
